(** * DarkAges stress-test tooling: the bot swarm protocol client

    A shallow embedding of [tools/stress-test/bot_swarm.py] (wire codec,
    [GameBot], [BotSwarm], [print_summary]), of the connection phase of
    [tools/stress-test/test_1000_connections.py] and of the percentile helper
    of [tools/stress-test/enhanced_bot_swarm.py], with the properties the
    design document states about them.

    Conventions of the embedding.
    - Python [int] is [Z]; [bytes] is [list byte]; a [dict] with string keys
      is a [gmap string _]; [Optional[T]] is [option T].
    - A Python [float] is modelled by the rational it denotes ([Q]); float
      arithmetic is modelled by exact rational arithmetic, so rounding in
      the last place, infinities and NaN are outside the model.
    - A call that can raise returns an [outcome]: [Returned v] or
      [Raised e].  Methods that mutate [self] take the bot and return the
      new bot.
    - The clock, the socket and the random generator are inputs. *)

From Stdlib Require Import ZArith QArith Qround Qabs Lia Lqa Strings.Byte.
From stdpp Require Import base option list sorting gmap strings.

Local Open Scope Z_scope.

(** ** Python semantics used by the tools *)

Module Py.

Inductive exn : Type :=
| IndexError | KeyError | StructError | ZeroDivisionError | OSError
| AttributeError.

Inductive outcome (A : Type) : Type :=
| Returned (a : A)
| Raised (e : exn).
Global Arguments Returned {A} a.
Global Arguments Raised {A} e.

Global Instance outcome_ret : MRet outcome := fun _ a => Returned a.
Global Instance outcome_bind : MBind outcome := fun _ _ f m =>
  match m with
  | Returned a => f a
  | Raised e => Raised e
  end.

Global Instance exn_eq_dec : EqDecision exn.
Proof. solve_decision. Defined.

Global Instance outcome_eq_dec `{EqDecision A} : EqDecision (outcome A).
Proof. solve_decision. Defined.

Definition raises {A} (m : outcome A) : Prop := exists e, m = Raised e.

Definition bytes := list byte.

Definition Z_of_byte (b : byte) : Z := Z.of_N (Byte.to_N b).

Definition byte_of_Z (z : Z) : byte :=
  default "000"%byte (Byte.of_N (Z.to_N (z mod 256))).

(** [data[i]] for [i >= 0]. *)
Definition index (data : bytes) (i : nat) : outcome byte :=
  match data !! i with
  | Some b => Returned b
  | None => Raised IndexError
  end.

(** [data[a:b]] for [0 <= a <= b]; a slice never raises. *)
Definition slice (data : bytes) (a b : nat) : bytes :=
  take (b - a) (drop a data).

(** [d[k]] on a dict. *)
Definition getitem {V} (d : gmap string V) (k : string) : outcome V :=
  match d !! k with
  | Some v => Returned v
  | None => Raised KeyError
  end.

(** [int(x)] on a float: truncation toward zero. *)
Definition int (x : Q) : Z := Z.quot (Qnum x) (Z.pos (Qden x)).

(** [round(x)] on a float: nearest integer, ties to even. *)
Definition round (x : Q) : Z :=
  let f := Qfloor x in
  match (x - inject_Z f ?= 1 # 2)%Q with
  | Lt => f
  | Gt => f + 1
  | Eq => if Z.even f then f else f + 1
  end.

(** [a / b] on numbers. *)
Definition truediv (a b : Q) : outcome Q :=
  if Qeq_bool b 0 then Raised ZeroDivisionError else Returned (a / b)%Q.

(** [x < y] and [max(x, y)] on floats; [max] keeps its first argument
    unless the second is greater. *)
Definition ltb (x y : Q) : bool := negb (Qle_bool y x).
Definition max2 (x y : Q) : Q := if ltb x y then y else x.

(** [bool(x)] on a float. *)
Definition truthy (x : Q) : bool := negb (Qeq_bool x 0).

(** [x % m] on floats, for [m > 0]. *)
Definition fmod (x m : Q) : Q := (x - m * inject_Z (Qfloor (x / m)))%Q.

(** The generator behind [random.random()]: a sequence of samples of
    [[0, 1)] and the position of the next one. *)
Record Rng : Type := { rng_samples : nat -> Q; rng_next : nat }.

Definition random (r : Rng) : Q * Rng :=
  (rng_samples r (rng_next r),
   {| rng_samples := rng_samples r; rng_next := S (rng_next r) |}).

(** [random.uniform(a, b)] is [a + (b - a) * random()]. *)
Definition uniform (a b : Q) (r : Rng) : Q * Rng :=
  let (u, r) := random r in ((a + (b - a) * u)%Q, r).

(** *** [struct], little-endian standard sizes *)

Fixpoint le_bytes (n : nat) (v : Z) : bytes :=
  match n with
  | O => []
  | S k => byte_of_Z (v mod 256) :: le_bytes k (v / 256)
  end.

Fixpoint le_value (bs : bytes) : Z :=
  match bs with
  | [] => 0
  | b :: rest => Z_of_byte b + 256 * le_value rest
  end.

Definition pack_unsigned (n : nat) (v : Z) : outcome bytes :=
  if (0 <=? v) && (v <? 2 ^ (8 * Z.of_nat n))
  then Returned (le_bytes n v) else Raised StructError.

Definition pack_signed (n : nat) (v : Z) : outcome bytes :=
  if (- 2 ^ (8 * Z.of_nat n - 1) <=? v) && (v <? 2 ^ (8 * Z.of_nat n - 1))
  then Returned (le_bytes n v) else Raised StructError.

Definition pack_B := pack_unsigned 1.
Definition pack_I := pack_unsigned 4.
Definition pack_Q := pack_unsigned 8.
Definition pack_h := pack_signed 2.

(** [struct.unpack('<I', bs)[0]]. *)
Definition unpack_I (bs : bytes) : outcome Z :=
  if (length bs =? 4)%nat then Returned (le_value bs)
  else Raised StructError.

End Py.
Import Py.

(** ** Protocol constants ([bot_swarm.py], module level) *)

Definition TICK_RATE_HZ : Z := 60.
Definition SNAPSHOT_RATE_HZ : Z := 20.
Definition MAX_DOWNSTREAM_BYTES_PER_SEC : Z := 20480.
Definition MAX_UPSTREAM_BYTES_PER_SEC : Z := 2048.
Definition PROTOCOL_VERSION : Z := 1.

(** ** [class BotConfig] *)

Module BotConfig.

Record t : Type := {
  host : string;
  port : Z;
  bot_id : Z;
  movement_pattern : string;
  update_rate : Q
}.

End BotConfig.

(** ** The dictionary returned by [GameBot.get_stats] *)

Module Stats.

Record t : Type := {
  bot_id : Z;
  entity_id : option Z;
  connection_id : option Z;
  packets_sent : Z;
  packets_received : Z;
  bytes_sent : Z;
  bytes_received : Z;
  snapshots_received : Z;
  corrections_received : Z;
  events_received : Z;
  last_processed_input : Z;
  duration_seconds : Q;
  packets_sent_per_sec : Q;
  packets_received_per_sec : Q;
  bytes_sent_per_sec : Q;
  bytes_received_per_sec : Q;
  snapshots_per_sec : Q;
  avg_bandwidth_down_kbps : Q;
  avg_bandwidth_up_kbps : Q
}.

End Stats.

(** ** [class GameBot] *)

Module GameBot.

(** Packet types. *)
Definition PACKET_CLIENT_INPUT : Z := 1.
Definition PACKET_SERVER_SNAPSHOT : Z := 2.
Definition PACKET_CONNECTION_REQUEST : Z := 3.
Definition PACKET_CONNECTION_RESPONSE : Z := 4.
Definition PACKET_EVENT : Z := 5.
Definition PACKET_SERVER_CORRECTION : Z := 6.

(** Input flags. *)
Definition INPUT_FORWARD : Z := 0x01.
Definition INPUT_BACKWARD : Z := 0x02.
Definition INPUT_LEFT : Z := 0x04.
Definition INPUT_RIGHT : Z := 0x08.
Definition INPUT_JUMP : Z := 0x10.
Definition INPUT_ATTACK : Z := 0x20.
Definition INPUT_BLOCK : Z := 0x40.
Definition INPUT_SPRINT : Z := 0x80.

(** An open UDP socket with its default destination. *)
Inductive Socket : Type := UdpSocket (peer_host : string) (peer_port : Z).

(** The attributes of a bot.  [position], [velocity], [latencies] and
    [last_ping_time] are set by [__init__] and never read or written again;
    they are left out. *)
Record t : Type := Build {
  config : BotConfig.t;
  socket : option Socket;
  connected : bool;
  entity_id : option Z;
  connection_id : option Z;
  server_tick : Z;
  server_time : Z;
  sequence : Z;
  start_time : Q;
  packets_sent : Z;
  packets_received : Z;
  bytes_sent : Z;
  bytes_received : Z;
  snapshot_count : Z;
  correction_count : Z;
  event_count : Z;
  last_processed_input : Z;
  yaw : Q;
  pitch : Q;
  input_state : gmap string bool;
  target_entity : Z
}.

(** Attribute assignment, [self.f = v]. *)
Definition set_socket (v : option Socket) (b : t) : t :=
  Build (config b) v (connected b) (entity_id b) (connection_id b)
    (server_tick b) (server_time b) (sequence b) (start_time b)
    (packets_sent b) (packets_received b) (bytes_sent b) (bytes_received b)
    (snapshot_count b) (correction_count b) (event_count b)
    (last_processed_input b) (yaw b) (pitch b) (input_state b)
    (target_entity b).

Definition set_connected (v : bool) (b : t) : t :=
  Build (config b) (socket b) v (entity_id b) (connection_id b)
    (server_tick b) (server_time b) (sequence b) (start_time b)
    (packets_sent b) (packets_received b) (bytes_sent b) (bytes_received b)
    (snapshot_count b) (correction_count b) (event_count b)
    (last_processed_input b) (yaw b) (pitch b) (input_state b)
    (target_entity b).

Definition set_entity_id (v : option Z) (b : t) : t :=
  Build (config b) (socket b) (connected b) v (connection_id b)
    (server_tick b) (server_time b) (sequence b) (start_time b)
    (packets_sent b) (packets_received b) (bytes_sent b) (bytes_received b)
    (snapshot_count b) (correction_count b) (event_count b)
    (last_processed_input b) (yaw b) (pitch b) (input_state b)
    (target_entity b).

Definition set_connection_id (v : option Z) (b : t) : t :=
  Build (config b) (socket b) (connected b) (entity_id b) v (server_tick b)
    (server_time b) (sequence b) (start_time b) (packets_sent b)
    (packets_received b) (bytes_sent b) (bytes_received b)
    (snapshot_count b) (correction_count b) (event_count b)
    (last_processed_input b) (yaw b) (pitch b) (input_state b)
    (target_entity b).

Definition set_server_tick (v : Z) (b : t) : t :=
  Build (config b) (socket b) (connected b) (entity_id b) (connection_id b)
    v (server_time b) (sequence b) (start_time b) (packets_sent b)
    (packets_received b) (bytes_sent b) (bytes_received b)
    (snapshot_count b) (correction_count b) (event_count b)
    (last_processed_input b) (yaw b) (pitch b) (input_state b)
    (target_entity b).

Definition set_server_time (v : Z) (b : t) : t :=
  Build (config b) (socket b) (connected b) (entity_id b) (connection_id b)
    (server_tick b) v (sequence b) (start_time b) (packets_sent b)
    (packets_received b) (bytes_sent b) (bytes_received b)
    (snapshot_count b) (correction_count b) (event_count b)
    (last_processed_input b) (yaw b) (pitch b) (input_state b)
    (target_entity b).

Definition set_sequence (v : Z) (b : t) : t :=
  Build (config b) (socket b) (connected b) (entity_id b) (connection_id b)
    (server_tick b) (server_time b) v (start_time b) (packets_sent b)
    (packets_received b) (bytes_sent b) (bytes_received b)
    (snapshot_count b) (correction_count b) (event_count b)
    (last_processed_input b) (yaw b) (pitch b) (input_state b)
    (target_entity b).

Definition set_start_time (v : Q) (b : t) : t :=
  Build (config b) (socket b) (connected b) (entity_id b) (connection_id b)
    (server_tick b) (server_time b) (sequence b) v (packets_sent b)
    (packets_received b) (bytes_sent b) (bytes_received b)
    (snapshot_count b) (correction_count b) (event_count b)
    (last_processed_input b) (yaw b) (pitch b) (input_state b)
    (target_entity b).

Definition set_packets_sent (v : Z) (b : t) : t :=
  Build (config b) (socket b) (connected b) (entity_id b) (connection_id b)
    (server_tick b) (server_time b) (sequence b) (start_time b) v
    (packets_received b) (bytes_sent b) (bytes_received b)
    (snapshot_count b) (correction_count b) (event_count b)
    (last_processed_input b) (yaw b) (pitch b) (input_state b)
    (target_entity b).

Definition set_packets_received (v : Z) (b : t) : t :=
  Build (config b) (socket b) (connected b) (entity_id b) (connection_id b)
    (server_tick b) (server_time b) (sequence b) (start_time b)
    (packets_sent b) v (bytes_sent b) (bytes_received b) (snapshot_count b)
    (correction_count b) (event_count b) (last_processed_input b) (yaw b)
    (pitch b) (input_state b) (target_entity b).

Definition set_bytes_sent (v : Z) (b : t) : t :=
  Build (config b) (socket b) (connected b) (entity_id b) (connection_id b)
    (server_tick b) (server_time b) (sequence b) (start_time b)
    (packets_sent b) (packets_received b) v (bytes_received b)
    (snapshot_count b) (correction_count b) (event_count b)
    (last_processed_input b) (yaw b) (pitch b) (input_state b)
    (target_entity b).

Definition set_bytes_received (v : Z) (b : t) : t :=
  Build (config b) (socket b) (connected b) (entity_id b) (connection_id b)
    (server_tick b) (server_time b) (sequence b) (start_time b)
    (packets_sent b) (packets_received b) (bytes_sent b) v
    (snapshot_count b) (correction_count b) (event_count b)
    (last_processed_input b) (yaw b) (pitch b) (input_state b)
    (target_entity b).

Definition set_snapshot_count (v : Z) (b : t) : t :=
  Build (config b) (socket b) (connected b) (entity_id b) (connection_id b)
    (server_tick b) (server_time b) (sequence b) (start_time b)
    (packets_sent b) (packets_received b) (bytes_sent b) (bytes_received b)
    v (correction_count b) (event_count b) (last_processed_input b) (yaw b)
    (pitch b) (input_state b) (target_entity b).

Definition set_correction_count (v : Z) (b : t) : t :=
  Build (config b) (socket b) (connected b) (entity_id b) (connection_id b)
    (server_tick b) (server_time b) (sequence b) (start_time b)
    (packets_sent b) (packets_received b) (bytes_sent b) (bytes_received b)
    (snapshot_count b) v (event_count b) (last_processed_input b) (yaw b)
    (pitch b) (input_state b) (target_entity b).

Definition set_event_count (v : Z) (b : t) : t :=
  Build (config b) (socket b) (connected b) (entity_id b) (connection_id b)
    (server_tick b) (server_time b) (sequence b) (start_time b)
    (packets_sent b) (packets_received b) (bytes_sent b) (bytes_received b)
    (snapshot_count b) (correction_count b) v (last_processed_input b)
    (yaw b) (pitch b) (input_state b) (target_entity b).

Definition set_last_processed_input (v : Z) (b : t) : t :=
  Build (config b) (socket b) (connected b) (entity_id b) (connection_id b)
    (server_tick b) (server_time b) (sequence b) (start_time b)
    (packets_sent b) (packets_received b) (bytes_sent b) (bytes_received b)
    (snapshot_count b) (correction_count b) (event_count b) v (yaw b)
    (pitch b) (input_state b) (target_entity b).

Definition set_yaw (v : Q) (b : t) : t :=
  Build (config b) (socket b) (connected b) (entity_id b) (connection_id b)
    (server_tick b) (server_time b) (sequence b) (start_time b)
    (packets_sent b) (packets_received b) (bytes_sent b) (bytes_received b)
    (snapshot_count b) (correction_count b) (event_count b)
    (last_processed_input b) v (pitch b) (input_state b) (target_entity b).

Definition set_pitch (v : Q) (b : t) : t :=
  Build (config b) (socket b) (connected b) (entity_id b) (connection_id b)
    (server_tick b) (server_time b) (sequence b) (start_time b)
    (packets_sent b) (packets_received b) (bytes_sent b) (bytes_received b)
    (snapshot_count b) (correction_count b) (event_count b)
    (last_processed_input b) (yaw b) v (input_state b) (target_entity b).

Definition set_input_state (v : gmap string bool) (b : t) : t :=
  Build (config b) (socket b) (connected b) (entity_id b) (connection_id b)
    (server_tick b) (server_time b) (sequence b) (start_time b)
    (packets_sent b) (packets_received b) (bytes_sent b) (bytes_received b)
    (snapshot_count b) (correction_count b) (event_count b)
    (last_processed_input b) (yaw b) (pitch b) v (target_entity b).

Definition set_target_entity (v : Z) (b : t) : t :=
  Build (config b) (socket b) (connected b) (entity_id b) (connection_id b)
    (server_tick b) (server_time b) (sequence b) (start_time b)
    (packets_sent b) (packets_received b) (bytes_sent b) (bytes_received b)
    (snapshot_count b) (correction_count b) (event_count b)
    (last_processed_input b) (yaw b) (pitch b) (input_state b) v.

(** [__init__]; the initial yaw is drawn by [random.uniform]. *)
Definition init (cfg : BotConfig.t) (initial_yaw : Q) : t :=
  {| config := cfg; socket := None; connected := false;
     entity_id := None; connection_id := None;
     server_tick := 0; server_time := 0; sequence := 0; start_time := 0%Q;
     packets_sent := 0; packets_received := 0;
     bytes_sent := 0; bytes_received := 0;
     snapshot_count := 0; correction_count := 0; event_count := 0;
     last_processed_input := 0;
     yaw := initial_yaw; pitch := 0%Q;
     input_state :=
       {[ "forward" := false; "backward" := false; "left" := false;
          "right" := false; "sprint" := false; "jump" := false;
          "attack" := false; "block" := false ]};
     target_entity := 0 |}.

(** *** Codec: outbound packets *)

(** [_create_connection_request]: [struct.pack('<BIQ', ...)]. *)
Definition _create_connection_request (b : t) : outcome bytes :=
  ty ← pack_B PACKET_CONNECTION_REQUEST;
  ver ← pack_I PROTOCOL_VERSION;
  pid ← pack_Q (BotConfig.bot_id (config b));
  mret (ty ++ ver ++ pid).

(** The flag byte built from [self.input_state]. *)
Definition build_flags (st : gmap string bool) : outcome Z :=
  let flags := 0 in
  forward ← getitem st "forward";
  let flags := if forward : bool then Z.lor flags INPUT_FORWARD else flags in
  backward ← getitem st "backward";
  let flags := if backward : bool then Z.lor flags INPUT_BACKWARD else flags in
  left ← getitem st "left";
  let flags := if left : bool then Z.lor flags INPUT_LEFT else flags in
  right ← getitem st "right";
  let flags := if right : bool then Z.lor flags INPUT_RIGHT else flags in
  jump ← getitem st "jump";
  let flags := if jump : bool then Z.lor flags INPUT_JUMP else flags in
  attack ← getitem st "attack";
  let flags := if attack : bool then Z.lor flags INPUT_ATTACK else flags in
  block ← getitem st "block";
  let flags := if block : bool then Z.lor flags INPUT_BLOCK else flags in
  sprint ← getitem st "sprint";
  let flags := if sprint : bool then Z.lor flags INPUT_SPRINT else flags in
  mret flags.

(** [int(self.yaw * 10000) % 65536], reduced by 65536 above 32767. *)
Definition yaw_quantized (yaw : Q) : Z :=
  let q := Py.int (yaw * 10000) mod 65536 in
  if q >? 32767 then q - 65536 else q.

(** [int(self.pitch * 10000)]. *)
Definition pitch_quantized (pitch : Q) : Z := Py.int (pitch * 10000).

(** [int(time.time() * 1000) % 0xFFFFFFFF]. *)
Definition timestamp_ms (now : Q) : Z := Py.int (now * 1000) mod 0xFFFFFFFF.

(** [_create_input_packet]: [struct.pack('<B I I B h h I', ...)], then
    [self.sequence += 1].  [now] is the reading of [time.time()].  When
    [struct.pack] raises nothing has been assigned yet. *)
Definition _create_input_packet (now : Q) (b : t) : outcome (bytes * t) :=
  flags ← build_flags (input_state b);
  let yaw_q := yaw_quantized (yaw b) in
  let pitch_q := pitch_quantized (pitch b) in
  let timestamp := timestamp_ms now in
  f_type ← pack_B PACKET_CLIENT_INPUT;
  f_seq ← pack_I (sequence b);
  f_time ← pack_I timestamp;
  f_flags ← pack_B flags;
  f_yaw ← pack_h yaw_q;
  f_pitch ← pack_h pitch_q;
  f_target ← pack_I (target_entity b);
  let packet := f_type ++ f_seq ++ f_time ++ f_flags ++ f_yaw ++ f_pitch
                  ++ f_target in
  mret (packet, set_sequence (sequence b + 1) b).

(** [_send_packet]: [self.socket.send(data)], then the counters.
    [send_ok] tells whether the socket accepts the datagram; a refused
    send raises before any counter is touched. *)
Definition _send_packet (send_ok : bool) (data : bytes) (b : t) : outcome t :=
  match socket b with
  | None => Raised AttributeError
  | Some _ =>
      if send_ok then
        let b := set_packets_sent (packets_sent b + 1) b in
        Returned (set_bytes_sent (bytes_sent b + Z.of_nat (length data)) b)
      else Raised OSError
  end.

(** *** Codec: inbound packets *)

(** [_parse_connection_response]; [now] is the reading of [time.time()]. *)
Definition _parse_connection_response (now : Q) (data : bytes) (b : t)
  : outcome t :=
  if (length data <? 18)%nat then Returned b
  else
    s ← index data 1;
    let success := negb (Z_of_byte s =? 0) in
    if success then
      cid ← unpack_I (slice data 2 6);
      let b := set_connection_id (Some cid) b in
      eid ← unpack_I (slice data 6 10);
      let b := set_entity_id (Some eid) b in
      tick ← unpack_I (slice data 10 14);
      let b := set_server_tick tick b in
      time ← unpack_I (slice data 14 18);
      let b := set_server_time time b in
      let b := set_connected true b in
      mret (set_start_time now b)
    else mret b.

(** [_parse_snapshot]; [baseline_tick] is unpacked and dropped. *)
Definition _parse_snapshot (data : bytes) (b : t) : outcome t :=
  if (length data <? 17)%nat then Returned b
  else
    let b := set_snapshot_count (snapshot_count b + 1) b in
    tick ← unpack_I (slice data 1 5);
    let b := set_server_tick tick b in
    baseline_tick ← unpack_I (slice data 5 9);
    time ← unpack_I (slice data 9 13);
    let b := set_server_time time b in
    lpi ← unpack_I (slice data 13 17);
    mret (set_last_processed_input lpi b).

Definition _parse_correction (data : bytes) (b : t) : outcome t :=
  mret (set_correction_count (correction_count b + 1) b).

Definition _parse_event (data : bytes) (b : t) : outcome t :=
  mret (set_event_count (event_count b + 1) b).

(** [_process_packet]: dispatch on the leading type byte. *)
Definition _process_packet (data : bytes) (b : t) : outcome t :=
  if (length data <? 1)%nat then Returned b
  else
    ty ← index data 0;
    let packet_type := Z_of_byte ty in
    if packet_type =? PACKET_SERVER_SNAPSHOT then _parse_snapshot data b
    else if packet_type =? PACKET_SERVER_CORRECTION
         then _parse_correction data b
    else if packet_type =? PACKET_EVENT then _parse_event data b
    else Returned b.

(** [disconnect]: close the socket if there is one. *)
Definition disconnect (b : t) : t :=
  let b := match socket b with
           | Some _ => set_socket None b
           | None => b
           end in
  set_connected false b.

(** *** Statistics *)

(** The denominator of every rate of [get_stats]. *)
Definition elapsed (now : Q) (b : t) : Q :=
  if truthy (start_time b)
  then max2 (now - start_time b)%Q (1 # 1000) else (1 # 1000)%Q.

(** [get_stats]; [now] is the reading of [time.time()]. *)
Definition get_stats (now : Q) (b : t) : outcome Stats.t :=
  let elapsed := elapsed now b in
  psps ← truediv (inject_Z (packets_sent b)) elapsed;
  prps ← truediv (inject_Z (packets_received b)) elapsed;
  bsps ← truediv (inject_Z (bytes_sent b)) elapsed;
  brps ← truediv (inject_Z (bytes_received b)) elapsed;
  snps ← truediv (inject_Z (snapshot_count b)) elapsed;
  down ← truediv (inject_Z (bytes_received b * 8) / 1024)%Q elapsed;
  up ← truediv (inject_Z (bytes_sent b * 8) / 1024)%Q elapsed;
  mret {| Stats.bot_id := BotConfig.bot_id (config b);
          Stats.entity_id := entity_id b;
          Stats.connection_id := connection_id b;
          Stats.packets_sent := packets_sent b;
          Stats.packets_received := packets_received b;
          Stats.bytes_sent := bytes_sent b;
          Stats.bytes_received := bytes_received b;
          Stats.snapshots_received := snapshot_count b;
          Stats.corrections_received := correction_count b;
          Stats.events_received := event_count b;
          Stats.last_processed_input := last_processed_input b;
          Stats.duration_seconds := elapsed;
          Stats.packets_sent_per_sec := psps;
          Stats.packets_received_per_sec := prps;
          Stats.bytes_sent_per_sec := bsps;
          Stats.bytes_received_per_sec := brps;
          Stats.snapshots_per_sec := snps;
          Stats.avg_bandwidth_down_kbps := down;
          Stats.avg_bandwidth_up_kbps := up |}.

(** *** Connection handshake *)

(** What one [self.socket.recv(...)] does: return a datagram (with the
    clock reading at that moment), raise [BlockingIOError], or raise
    another socket error. *)
Inductive recv_event : Type :=
| Datagram (now : Q) (data : bytes)
| WouldBlock
| RecvError.

Inductive wait_result : Type :=
| WaitReturned
| WaitTimeout
| WaitRaised (e : exn).

(** [_wait_for_connection] under [asyncio.wait_for(..., timeout=5.0)].
    [inbox] lists what [recv] does until the deadline; when it is used up
    with the bot still not connected the wait is cancelled. *)
Fixpoint _wait_for_connection (inbox : list recv_event) (b : t)
  : t * wait_result :=
  if connected b then (b, WaitReturned)
  else
    match socket b with
    | None => (b, WaitRaised AttributeError)
    | Some _ =>
        match inbox with
        | [] => (b, WaitTimeout)
        | Datagram now data :: inbox =>
            if (1 <=? length data)%nat then
              let step :=
                ty ← index data 0;
                let packet_type := Z_of_byte ty in
                if packet_type =? PACKET_CONNECTION_RESPONSE
                then _parse_connection_response now data b
                else Returned b in
              match step with
              | Raised e => (b, WaitRaised e)
              | Returned b =>
                  let b := set_packets_received (packets_received b + 1) b in
                  let b := set_bytes_received
                             (bytes_received b + Z.of_nat (length data)) b in
                  _wait_for_connection inbox b
              end
            else _wait_for_connection inbox b
        | WouldBlock :: inbox => _wait_for_connection inbox b
        | RecvError :: _ => (b, WaitRaised OSError)
        end
    end.

(** What the network does during one [connect]. *)
Record ConnectEnv : Type := {
  open_ok : bool;
  send_ok : bool;
  inbox : list recv_event
}.

(** The line [connect] prints. *)
Inductive connect_report : Type :=
| ReportConnected
| ReportTimeout
| ReportRejected
| ReportFailed (e : exn).

(** [connect]: the new bot, the returned flag and the printed line. *)
Definition connect (env : ConnectEnv) (b : t) : t * bool * connect_report :=
  if negb (open_ok env) then (b, false, ReportFailed OSError)
  else
    let b := set_socket
               (Some (UdpSocket (BotConfig.host (config b))
                        (BotConfig.port (config b)))) b in
    match _create_connection_request b with
    | Raised e => (b, false, ReportFailed e)
    | Returned connect_packet =>
        match _send_packet (send_ok env) connect_packet b with
        | Raised e => (b, false, ReportFailed e)
        | Returned b =>
            match _wait_for_connection (inbox env) b with
            | (b, WaitTimeout) => (b, false, ReportTimeout)
            | (b, WaitRaised e) => (b, false, ReportFailed e)
            | (b, WaitReturned) =>
                if connected b then (b, true, ReportConnected)
                else (b, false, ReportRejected)
            end
        end
    end.

(** *** Movement patterns *)

Definition TWO_PI : Q := 628318530718 # 100000000000.
Definition PI : Q := 314159265359 # 100000000000.

(** [self.input_state[key] = v]. *)
Definition set_input (key : string) (v : bool) (b : t) : t :=
  set_input_state (<[key := v]> (input_state b)) b.

Definition _update_random_movement (r : Rng) (b : t) : t * Rng :=
  let (x, r) := random r in
  let '(b, r) :=
    if ltb x (5 # 100) then
      let (u, r) := uniform (-1) 1 r in
      let b := set_yaw (yaw b + u)%Q b in
      (set_yaw (fmod (yaw b) TWO_PI) b, r)
    else (b, r) in
  let (x, r) := random r in
  let b := set_input "forward" (ltb (3 # 10) x) b in
  let (x, r) := random r in
  let '(b, r) :=
    if ltb x (1 # 10) then
      let (y, r) := random r in
      if ltb y (1 # 2) then (set_input "left" true b, r)
      else (set_input "right" true b, r)
    else (b, r) in
  let '(b, r) :=
    if bool_decide (input_state b !! "forward" = Some true) then
      let (x, r) := random r in
      (set_input "sprint" (ltb (7 # 10) x) b, r)
    else (b, r) in
  let (x, r) := random r in
  (set_input "jump" (ltb x (5 # 100)) b, r).

Definition _update_circle_movement (elapsed : Q) (b : t) : t :=
  let b := set_yaw (yaw b + (3 # 100))%Q b in
  let b := set_yaw (fmod (yaw b) TWO_PI) b in
  let b := set_input "forward" true b in
  set_input "sprint" false b.

Definition _update_linear_movement (elapsed : Q) (r : Rng) (b : t)
  : t * Rng :=
  let cycle := (fmod elapsed 10 / 5)%Q in
  let b := if ltb 1 cycle then set_yaw PI b else set_yaw 0%Q b in
  let b := set_input "forward" true b in
  let (x, r) := random r in
  (set_input "sprint" (ltb (8 # 10) x) b, r).

Definition _update_movement (elapsed : Q) (r : Rng) (b : t) : t * Rng :=
  let b := set_input_state ((fun _ => false) <$> input_state b) b in
  let pattern := BotConfig.movement_pattern (config b) in
  if bool_decide (pattern = "random") then _update_random_movement r b
  else if bool_decide (pattern = "circle")
       then (_update_circle_movement elapsed b, r)
  else if bool_decide (pattern = "linear")
       then _update_linear_movement elapsed r b
  else (b, r).

(** *** The run loop *)

(** What the scheduler lets happen next during [run]: one iteration of the
    send loop (with the clock reading and whether the socket accepts a
    datagram), the receive task getting a datagram, or its [recv] failing
    with something other than [BlockingIOError]. *)
Inductive run_event : Type :=
| SendLoop (now : Q) (send_ok : bool)
| Inbound (data : bytes)
| RecvFails.

(** The body of [run] between [create_task] and [get_stats].  The result
    carries the bot, the generator, the last clock reading and the
    exception that escaped, if any.  A schedule that ends before the
    duration has elapsed is a cancelled run. *)
Fixpoint run_loop (duration_seconds start_time last_input_time
                   input_interval : Q) (receiving : bool)
    (sched : list run_event) (r : Rng) (clock : Q) (b : t)
  : t * Rng * Q * option exn :=
  match sched with
  | [] => (b, r, clock, None)
  | SendLoop now ok :: sched =>
      if ltb (now - start_time)%Q duration_seconds then
        let elapsed := (now - start_time)%Q in
        let (b, r) := _update_movement elapsed r b in
        if Qle_bool input_interval (now - last_input_time)%Q then
          match _create_input_packet now b with
          | Raised e => (b, r, now, Some e)
          | Returned (input_packet, b) =>
              match _send_packet ok input_packet b with
              | Raised e => (b, r, now, Some e)
              | Returned b =>
                  run_loop duration_seconds start_time now input_interval
                    receiving sched r now b
              end
          end
        else
          run_loop duration_seconds start_time last_input_time
            input_interval receiving sched r now b
      else (b, r, now, None)
  | Inbound data :: sched =>
      if receiving then
        match data with
        | [] =>
            run_loop duration_seconds start_time last_input_time
              input_interval receiving sched r clock b
        | _ :: _ =>
            let b := set_packets_received (packets_received b + 1) b in
            let b := set_bytes_received
                       (bytes_received b + Z.of_nat (length data)) b in
            match _process_packet data b with
            | Raised _ =>
                run_loop duration_seconds start_time last_input_time
                  input_interval false sched r clock b
            | Returned b =>
                run_loop duration_seconds start_time last_input_time
                  input_interval receiving sched r clock b
            end
        end
      else
        run_loop duration_seconds start_time last_input_time
          input_interval receiving sched r clock b
  | RecvFails :: sched =>
      run_loop duration_seconds start_time last_input_time
        input_interval false sched r clock b
  end.

(** [run]; [now] is the clock reading when the run starts. *)
Definition run (duration_seconds now : Q) (sched : list run_event)
    (r : Rng) (b : t) : t * Rng * outcome Stats.t :=
  if negb (connected b) then (b, r, get_stats now b)
  else
    match truediv 1 (BotConfig.update_rate (config b)) with
    | Raised e => (b, r, Raised e)
    | Returned input_interval =>
        match run_loop duration_seconds now now input_interval true
                sched r now b with
        | (b, r, _, Some e) => (b, r, Raised e)
        | (b, r, clock, None) => (b, r, get_stats clock b)
        end
    end.

(** *** Valid field values *)

(** The eight keys [__init__] puts into [input_state]. *)
Definition has_all_keys (st : gmap string bool) : Prop :=
  is_Some (st !! "forward") /\ is_Some (st !! "backward")
  /\ is_Some (st !! "left") /\ is_Some (st !! "right")
  /\ is_Some (st !! "jump") /\ is_Some (st !! "attack")
  /\ is_Some (st !! "block") /\ is_Some (st !! "sprint").

(** The field values [struct.pack] accepts for a ClientInput. *)
Definition valid_input_fields (b : t) : Prop :=
  has_all_keys (input_state b)
  /\ 0 <= sequence b < 2 ^ 32
  /\ 0 <= target_entity b < 2 ^ 32
  /\ -32768 <= pitch_quantized (pitch b) <= 32767.

End GameBot.

(** ** [class BotSwarm] *)

Module BotSwarm.

Record t : Type := {
  host : string;
  port : Z;
  bot_count : Z;
  duration : Q;
  pattern : option string;
  bots : list GameBot.t
}.

(** What happens to the bot at one position of [self.bots]. *)
Record BotEnv : Type := {
  initial_yaw : Q;
  connect_env : GameBot.ConnectEnv;
  run_start : Q;
  run_sched : list GameBot.run_event;
  rng : Rng
}.

(** Method calls on the bot at a position of [self.bots]. *)
Inductive call : Type :=
| CallConnect (i : nat)
| CallRun (i : nat)
| CallDisconnect (i : nat).

Global Instance call_eq_dec : EqDecision call.
Proof. solve_decision. Defined.

(** State of the swarm after [run], the calls it made on its bots, whether
    it reached the run phase, and the returned list. *)
Record result : Type := {
  swarm : t;
  calls : list call;
  ran : bool;
  returned : list Stats.t
}.

(** How many times a call occurs in a log. *)
Definition invocations (c : call) (log : list call) : nat :=
  length (filter (fun x => x = c) log).

Definition patterns : list string :=
  ["random"; "circle"; "linear"; "stationary"].

(** [self.pattern if self.pattern else patterns[i % len(patterns)]]. *)
Definition bot_pattern (self : t) (i : nat) : string :=
  match pattern self with
  | Some p => if bool_decide (p = "") then
                default "" (patterns !! (i mod length patterns)%nat)
              else p
  | None => default "" (patterns !! (i mod length patterns)%nat)
  end.

(** The bots created by one call of [run], appended to [self.bots]. *)
Definition create_bots (env : nat -> BotEnv) (self : t) : list GameBot.t :=
  let first := length (bots self) in
  let create (i : nat) : GameBot.t :=
    GameBot.init
      {| BotConfig.host := host self; BotConfig.port := port self;
         BotConfig.bot_id := Z.of_nat i + 1;
         BotConfig.movement_pattern := bot_pattern self i;
         BotConfig.update_rate := inject_Z TICK_RATE_HZ |}
      (initial_yaw (env (first + i)%nat)) in
  bots self ++ (create <$> seq 0 (Z.to_nat (bot_count self))).

Definition with_bots (bs : list GameBot.t) (self : t) : t :=
  {| host := host self; port := port self; bot_count := bot_count self;
     duration := duration self; pattern := pattern self; bots := bs |}.

(** [bot.run(self.duration)] for the bots that connected; the others are
    left alone.  Each entry: the bot afterwards and, when it ran, what
    [gather] collected for it. *)
Definition run_connected (env : nat -> BotEnv) (dur : Q)
    (connected : list (GameBot.t * bool))
  : list (GameBot.t * option (outcome Stats.t)) :=
  imap (fun i '(bot, ok) =>
          if ok : bool then
            let '(bot, _, stats) :=
              GameBot.run dur (run_start (env i)) (run_sched (env i))
                (rng (env i)) bot in
            (bot, Some stats)
          else (bot, None)) connected.

(** [run]. *)
Definition run (env : nat -> BotEnv) (self : t) : result :=
  let self := with_bots (create_bots env self) self in
  let connect_results :=
    imap (fun i bot =>
            let '(bot, ok, _) := GameBot.connect (connect_env (env i)) bot in
            (bot, ok)) (bots self) in
  let connect_calls := CallConnect <$> seq 0 (length (bots self)) in
  let self := with_bots (fst <$> connect_results) self in
  let connected_bots := filter (fun p => snd p = true) connect_results in
  match connected_bots with
  | [] =>
      {| swarm := self; calls := connect_calls; ran := false;
         returned := [] |}
  | _ :: _ =>
      let stats := run_connected env (duration self) connect_results in
      let run_calls :=
        CallRun <$> filter (fun i => snd <$> connect_results !! i = Some true)
                      (seq 0 (length connect_results)) in
      let valid_stats :=
        omap (fun p => match snd p with
                       | Some (Returned s) => Some s
                       | _ => None
                       end) stats in
      let disconnect_calls := CallDisconnect <$> seq 0 (length stats) in
      {| swarm := with_bots (GameBot.disconnect <$> (fst <$> stats)) self;
         calls := connect_calls ++ run_calls ++ disconnect_calls;
         ran := true;
         returned := valid_stats |}
  end.

End BotSwarm.

(** ** [print_summary] *)

Module Summary.

(** [sum(...)] over integers and [max(...)] over a non-empty sequence of
    floats. *)
Definition sum (l : list Z) : Z := foldl Z.add 0 l.

Definition max_of (x : Q) (l : list Q) : Q := foldl max2 x l.

(** The figures of the "Budget Compliance" block. *)
Record t : Type := {
  duration : Q;
  avg_up_per_bot : Q;
  avg_down_per_bot : Q;
  up_ok : bool;
  down_ok : bool;
  avg_snapshots : Q;
  snapshot_ratio : Q
}.

(** [print_summary]: [None] when no statistics were collected, else the
    compliance figures it prints; the first division by [duration] is on
    the line "Packets sent/sec". *)
Definition print_summary (stats : list Stats.t) : outcome (option t) :=
  match stats with
  | [] => Returned None
  | s0 :: rest =>
      let total_sent := sum (Stats.packets_sent <$> stats) in
      let total_bytes_sent := sum (Stats.bytes_sent <$> stats) in
      let total_bytes_received := sum (Stats.bytes_received <$> stats) in
      let total_snapshots := sum (Stats.snapshots_received <$> stats) in
      let duration :=
        max_of (Stats.duration_seconds s0) (Stats.duration_seconds <$> rest) in
      let len := inject_Z (Z.of_nat (length stats)) in
      sent_per_sec ← truediv (inject_Z total_sent) duration;
      up_per_bot ← truediv (inject_Z total_bytes_sent) len;
      avg_up_per_bot ← truediv up_per_bot duration;
      down_per_bot ← truediv (inject_Z total_bytes_received) len;
      avg_down_per_bot ← truediv down_per_bot duration;
      let up_ok :=
        Qle_bool avg_up_per_bot (inject_Z MAX_UPSTREAM_BYTES_PER_SEC) in
      let down_ok :=
        Qle_bool avg_down_per_bot (inject_Z MAX_DOWNSTREAM_BYTES_PER_SEC) in
      snapshots_per_bot ← truediv (inject_Z total_snapshots) len;
      avg_snapshots ← truediv snapshots_per_bot duration;
      snapshot_ratio ← truediv avg_snapshots (inject_Z SNAPSHOT_RATE_HZ);
      mret (Some {| duration := duration;
                    avg_up_per_bot := avg_up_per_bot;
                    avg_down_per_bot := avg_down_per_bot;
                    up_ok := up_ok; down_ok := down_ok;
                    avg_snapshots := avg_snapshots;
                    snapshot_ratio := snapshot_ratio |})
  end.

End Summary.

(** ** [class StressTest] ([test_1000_connections.py]) *)

Module StressTest.

Record t : Type := {
  num_connections : Z;
  duration : Q;
  clients : list nat
}.

Definition batch_size : nat := 100.

(** [range(0, n, batch_size)]. *)
Definition batch_starts (n : nat) : list nat :=
  (fun k => k * batch_size)%nat
  <$> seq 0 ((n + batch_size - 1) / batch_size)%nat.

Section Run.

(** What [asyncio.gather(..., return_exceptions=True)] collects for the
    [connect] of each client: its return value, or the exception it
    raised. *)
Variable connect : nat -> outcome bool.

(** The run phase with [print_results] and [verify_requirements], whose
    verdict [run] returns once the connection rate is accepted. *)
Variable run_and_verify : list nat -> bool.

(** The batched connection loop: the number of results that are [True]. *)
Definition connect_in_batches (clients : list nat) : Z :=
  foldl (fun connected i =>
           let batch := take batch_size (drop i clients) in
           let results := connect <$> batch in
           foldl (fun connected result =>
                    match result with
                    | Returned true => connected + 1
                    | _ => connected
                    end) connected results)
        0 (batch_starts (length clients)).

(** How many of the collected results are [True]. *)
Definition successes (results : list (outcome bool)) : Z :=
  Z.of_nat (length (filter (fun r => r = Returned true) results)).

(** [run]: whether the run phase was reached, and the returned flag.
    The float product [num_connections * 0.95] has a relative error
    below 2^-52 and is exact when the exact product is an integer; for
    fewer than 2^40 connections its comparison with the integer
    [connected] is the exact one taken here. *)
Definition run (self : t) : bool * bool :=
  let clients :=
    clients self ++ seq 0 (Z.to_nat (num_connections self)) in
  let connected := connect_in_batches clients in
  if ltb (inject_Z connected) (inject_Z (num_connections self) * (95 # 100))%Q
  then (false, false)
  else (true, run_and_verify clients).

End Run.

End StressTest.

(** ** [BotSwarm._percentile] ([enhanced_bot_swarm.py]) *)

Module Enhanced.

Section Percentile.

(** The samples: any type with a decidable total order ([float] without
    NaN, [int]); [zero] is the [0.0] returned for no data. *)
Context {A : Type} (R : relation A) `{!forall x y, Decision (R x y)}.
Variable zero : A.

(** [l[i]] on a list, negative indices counting from the end. *)
Definition getitem (l : list A) (i : Z) : outcome A :=
  let n := Z.of_nat (length l) in
  let j := if i <? 0 then n + i else i in
  if (0 <=? j) && (j <? n) then
    match l !! Z.to_nat j with
    | Some x => Returned x
    | None => Raised IndexError
    end
  else Raised IndexError.

(** [sorted(data)]. *)
Definition sorted (data : list A) : list A := merge_sort R data.

(** [_percentile].  [len * percentile / 100] divides two integers; the
    quotient of integers below 2^53 is correctly rounded, so truncating
    it gives the truncated exact quotient taken here. *)

Definition _percentile (data : list A) (percentile : Z) : outcome A :=
  match data with
  | [] => Returned zero
  | _ :: _ =>
      let sorted_data := sorted data in
      let len := Z.of_nat (length sorted_data) in
      let index := Py.int (inject_Z (len * percentile) / 100)%Q in
      getitem sorted_data (Z.min index (len - 1))
  end.

End Percentile.

End Enhanced.

(** ** The statements of the design document, in its own words *)

Module Design.

(** Yaw: [round(yaw * 10000) mod 65536], values above 32767 reduced by
    65536. *)
Definition yaw_quantized (yaw : Q) : Z :=
  let q := Py.round (yaw * 10000) mod 65536 in
  if q >? 32767 then q - 65536 else q.



(** The acceptance policy: the connected fraction reaches the configured
    threshold. *)
Definition viable (threshold : Q) (configured connected : Z) : Prop :=
  (threshold <= inject_Z connected / inject_Z configured)%Q.

(** The nearest-rank index [floor(n * p)], clamped to the last index. *)
Definition rank (n : nat) (p : Q) : nat :=
  Z.to_nat (Z.min (Qfloor (inject_Z (Z.of_nat n) * p)) (Z.of_nat n - 1)).


(** The two identifiers of a session are the same in two bot states. *)
Definition same_identity (b b' : GameBot.t) : Prop :=
  GameBot.connection_id b' = GameBot.connection_id b
  /\ GameBot.entity_id b' = GameBot.entity_id b.

(** A datagram that [connect] takes as the server's acceptance: a
    ConnectionResponse of at least 18 bytes with a non-zero success byte. *)
Definition accepts (ev : GameBot.recv_event) : bool :=
  match ev with
  | GameBot.Datagram _ data =>
      match data !! 0%nat, data !! 1%nat with
      | Some ty, Some s =>
          (Z_of_byte ty =? GameBot.PACKET_CONNECTION_RESPONSE)
          && (18 <=? length data)%nat
          && negb (Z_of_byte s =? 0)
      | _, _ => false
      end
  | _ => false
  end.

(** Such a datagram is received before the deadline and before any socket
    error. *)
Fixpoint accepted (inbox : list GameBot.recv_event) : bool :=
  match inbox with
  | [] => false
  | GameBot.RecvError :: _ => false
  | ev :: inbox => accepts ev || accepted inbox
  end.

End Design.

(** ** Sample values *)

Module Sample.

Definition cfg : BotConfig.t :=
  {| BotConfig.host := "127.0.0.1"; BotConfig.port := 7777;
     BotConfig.bot_id := 1; BotConfig.movement_pattern := "random";
     BotConfig.update_rate := 60 |}.

(** A bot as [__init__] leaves it, facing yaw 0. *)
Definition bot : GameBot.t := GameBot.init cfg 0.

(** An 18-byte ConnectionResponse with the given success byte, connection
    7, entity 9, server tick 1, server time 5. *)
Definition response (success : Z) : bytes :=
  byte_of_Z <$> [4; success; 7; 0; 0; 0; 9; 0; 0; 0; 1; 0; 0; 0; 5; 0; 0; 0].

(** A 17-byte ServerSnapshot header: server tick 2, baseline tick 0,
    server time 6, last processed input 3. *)
Definition snapshot : bytes :=
  byte_of_Z <$> [2; 2; 0; 0; 0; 0; 0; 0; 0; 6; 0; 0; 0; 3; 0; 0; 0].

(** A network on which the only thing received before the deadline is
    the given datagram. *)
Definition net_answering (data : bytes) : GameBot.ConnectEnv :=
  {| GameBot.open_ok := true; GameBot.send_ok := true;
     GameBot.inbox := [GameBot.Datagram 100 data] |}.

(** A network on which nothing arrives before the deadline. *)
Definition net_silent : GameBot.ConnectEnv :=
  {| GameBot.open_ok := true; GameBot.send_ok := true;
     GameBot.inbox := [GameBot.WouldBlock] |}.

(** A generator that always draws one half. *)
Definition rng_half : Rng := {| rng_samples := fun _ => 1 # 2; rng_next := 0 |}.

(** What happens to a bot on the given network: its run starts at clock
    100, sends one input, receives one snapshot, and sees its ten seconds
    elapsed at clock 111. *)
Definition bot_env (net : GameBot.ConnectEnv) : BotSwarm.BotEnv :=
  {| BotSwarm.initial_yaw := 0; BotSwarm.connect_env := net;
     BotSwarm.run_start := 100;
     BotSwarm.run_sched :=
       [GameBot.SendLoop 101 true; GameBot.Inbound snapshot;
        GameBot.SendLoop 111 true];
     BotSwarm.rng := rng_half |}.

(** No server: no bot gets an answer. *)
Definition env_silent : nat -> BotSwarm.BotEnv := fun _ => bot_env net_silent.

(** The first [k] bots are accepted, the others get no answer. *)
Definition env_first (k : nat) : nat -> BotSwarm.BotEnv := fun i =>
  if (i <? k)%nat then bot_env (net_answering (response 1))
  else bot_env net_silent.

(** [BotSwarm('127.0.0.1', 7777, n, 10)]. *)
Definition swarm (n : Z) : BotSwarm.t :=
  {| BotSwarm.host := "127.0.0.1"; BotSwarm.port := 7777;
     BotSwarm.bot_count := n; BotSwarm.duration := 10;
     BotSwarm.pattern := None; BotSwarm.bots := [] |}.

(** [StressTest('127.0.0.1', 7777, n, 10)], and a [gather] in which the
    [connect] of the first [k] clients returned [True] and the others
    raised. *)
Definition stress_test (n : Z) : StressTest.t :=
  {| StressTest.num_connections := n; StressTest.duration := 10;
     StressTest.clients := [] |}.

Definition connect_first (k : nat) : nat -> outcome bool := fun i =>
  if (i <? k)%nat then Returned true else Raised OSError.

(** The dictionary of a bot that sent [sent] bytes and received
    [received] bytes in [seconds] seconds. *)
Definition stats (sent received : Z) (seconds : Q) : Stats.t :=
  {| Stats.bot_id := 1; Stats.entity_id := Some 9;
     Stats.connection_id := Some 7;
     Stats.packets_sent := 0; Stats.packets_received := 0;
     Stats.bytes_sent := sent; Stats.bytes_received := received;
     Stats.snapshots_received := 0; Stats.corrections_received := 0;
     Stats.events_received := 0; Stats.last_processed_input := 0;
     Stats.duration_seconds := seconds;
     Stats.packets_sent_per_sec := 0; Stats.packets_received_per_sec := 0;
     Stats.bytes_sent_per_sec := (inject_Z sent / seconds)%Q;
     Stats.bytes_received_per_sec := (inject_Z received / seconds)%Q;
     Stats.snapshots_per_sec := 0;
     Stats.avg_bandwidth_down_kbps := 0; Stats.avg_bandwidth_up_kbps := 0 |}.

End Sample.

(** ** Reading packets back *)

Module Wire.

(** [struct.unpack('<h', bs)[0]]: two bytes read as a signed integer. *)
Definition unpack_h (bs : bytes) : outcome Z :=
  if (length bs =? 2)%nat then
    let u := le_value bs in
    Returned (if u >? 32767 then u - 65536 else u)
  else Raised StructError.

(** [struct.unpack('<Q', bs)[0]]. *)
Definition unpack_Q (bs : bytes) : outcome Z :=
  if (length bs =? 8)%nat then Returned (le_value bs)
  else Raised StructError.

End Wire.

(** ** Relations between two states of a bot *)

Module Session.

Import GameBot.

(** No counter of [b'] is below the one of [b]. *)
Definition counters_le (b b' : t) : Prop :=
  packets_sent b <= packets_sent b'
  /\ packets_received b <= packets_received b'
  /\ bytes_sent b <= bytes_sent b'
  /\ bytes_received b <= bytes_received b'
  /\ snapshot_count b <= snapshot_count b'
  /\ correction_count b <= correction_count b'
  /\ event_count b <= event_count b'
  /\ sequence b <= sequence b'.

(** [b'] is [b] up to the yaw and the input dictionary. *)
Definition same_but_movement (b b' : t) : Prop :=
  b' = set_input_state (input_state b') (set_yaw (yaw b') b).

(** [b'] is [b] up to what the receive path writes. *)
Definition same_but_inbound (b b' : t) : Prop :=
  b' = set_last_processed_input (last_processed_input b')
         (set_server_time (server_time b')
            (set_server_tick (server_tick b')
               (set_snapshot_count (snapshot_count b')
                  (set_correction_count (correction_count b')
                     (set_event_count (event_count b')
                        (set_bytes_received (bytes_received b')
                           (set_packets_received (packets_received b')
                              b))))))).

(** Every send of the schedule is accepted by the socket. *)
Definition sends_succeed (sched : list run_event) : Prop :=
  Forall (fun ev => match ev with
                    | SendLoop _ ok => ok = true
                    | _ => True
                    end) sched.


End Session.

(** ** The counters of a bot, side by side *)

Module Ledger.

Import GameBot.

Record t : Type := {
  sent : Z;            (* packets_sent *)
  sent_bytes : Z;      (* bytes_sent *)
  next_sequence : Z;   (* sequence *)
  received : Z;        (* packets_received *)
  received_bytes : Z;  (* bytes_received *)
  snapshots : Z;       (* snapshot_count *)
  corrections : Z;     (* correction_count *)
  events : Z           (* event_count *)
}.

Definition read (b : GameBot.t) : t :=
  {| sent := packets_sent b; sent_bytes := bytes_sent b;
     next_sequence := sequence b;
     received := packets_received b; received_bytes := bytes_received b;
     snapshots := snapshot_count b; corrections := correction_count b;
     events := event_count b |}.

End Ledger.

Module Accounting.

Import Ledger.

(** What the counters [l'] have more than [l] is accounted for: 18 bytes
    per packet sent, one sequence number per packet sent and at most
    [slack] more, at least one byte per datagram received, at most one
    snapshot, correction or event per datagram received. *)
Definition accounted (slack : Z) (l l' : Ledger.t) : Prop :=
  sent l <= sent l'
  /\ sent_bytes l' - sent_bytes l = 18 * (sent l' - sent l)
  /\ sent l' - sent l <= next_sequence l' - next_sequence l
  /\ next_sequence l' - next_sequence l <= sent l' - sent l + slack
  /\ received l <= received l'
  /\ received l' - received l <= received_bytes l' - received_bytes l
  /\ snapshots l <= snapshots l'
  /\ corrections l <= corrections l'
  /\ events l <= events l'
  /\ (snapshots l' - snapshots l) + (corrections l' - corrections l)
     + (events l' - events l) <= received l' - received l.

End Accounting.

(** ** The response a handshake ends on *)

Module Handshake.

Import GameBot.

(** The first acceptance received before the deadline and before any
    socket error, with the clock reading at its reception. *)
Fixpoint first_acceptance (inbox : list recv_event) : option (Q * bytes) :=
  match inbox with
  | [] => None
  | RecvError :: _ => None
  | WouldBlock :: inbox => first_acceptance inbox
  | Datagram now data :: inbox =>
      if Design.accepts (Datagram now data) then Some (now, data)
      else first_acceptance inbox
  end.

End Handshake.

(** ** [statistics] and the exceptions it adds *)

Module Statistics.

(** What a call of the 1000-connection test can raise: the
    [StatisticsError] of the [statistics] module, or a built-in
    exception. *)
Inductive raised : Type :=
| StatisticsError
| Builtin (e : exn).

Inductive result (A : Type) : Type :=
| Value (a : A)
| Raise (e : raised).
Global Arguments Value {A} a.
Global Arguments Raise {A} e.

Global Instance result_ret : MRet result := fun _ a => Value a.
Global Instance result_bind : MBind result := fun _ _ f m =>
  match m with
  | Value a => f a
  | Raise e => Raise e
  end.

(** A built-in operation inside code that can also raise
    [StatisticsError]. *)
Definition builtin {A} (m : outcome A) : result A :=
  match m with
  | Returned a => Value a
  | Raised e => Raise (Builtin e)
  end.

(** The order of floats, decided. *)
Global Instance Qle_dec : RelDecision Qle.
Proof.
  intros x y. destruct (Qle_bool x y) eqn:E.
  - left. by apply Qle_bool_iff.
  - right. intros H. apply Qle_bool_iff in H. congruence.
Defined.

(** [sum(xs)], and [max(xs)] and [min(xs)] of a non-empty sequence
    [x :: xs]; [min] and [max] keep the earlier of two equal items. *)
Definition fsum (xs : list Q) : Q := foldl Qplus 0%Q xs.
Definition min2 (x y : Q) : Q := if ltb y x then y else x.
Definition fmax (x : Q) (xs : list Q) : Q := foldl max2 x xs.
Definition fmin (x : Q) (xs : list Q) : Q := foldl min2 x xs.

(** [statistics.mean(xs)]: the mean, which the module computes exactly
    before it rounds it. *)
Definition mean (xs : list Q) : result Q :=
  match xs with
  | [] => Raise StatisticsError
  | _ :: _ => Value (fsum xs / inject_Z (Z.of_nat (length xs)))%Q
  end.

End Statistics.

(** ** [class ConnectionStats] and [class StressTestClient]
       ([test_1000_connections.py]) *)

Module ConnectionStats.

Record t : Type := Build {
  connection_id : Z;
  connected_at : Q;
  disconnected_at : option Q;
  bytes_sent : Z;
  bytes_received : Z;
  packets_sent : Z;
  packets_received : Z;
  rtt_samples : list Q
}.

(** [ConnectionStats(connection_id=..., connected_at=...)]. *)
Definition init (connection_id : Z) (connected_at : Q) : t :=
  {| connection_id := connection_id; connected_at := connected_at;
     disconnected_at := None; bytes_sent := 0; bytes_received := 0;
     packets_sent := 0; packets_received := 0; rtt_samples := [] |}.

(** [duration]: [(self.disconnected_at or time.time()) - connected_at];
    [now] is the reading of [time.time()]. *)
Definition duration (now : Q) (s : t) : Q :=
  let finish := match disconnected_at s with
                | Some d => if truthy d then d else now
                | None => now
                end in
  (finish - connected_at s)%Q.

Definition avg_rtt (s : t) : Statistics.result Q :=
  match rtt_samples s with
  | [] => Statistics.Value 0%Q
  | _ :: _ => Statistics.mean (rtt_samples s)
  end.

Definition max_rtt (s : t) : Q :=
  match rtt_samples s with
  | [] => 0%Q
  | x :: xs => Statistics.fmax x xs
  end.

End ConnectionStats.

Module StressTestClient.

Record t : Type := Build {
  host : string;
  port : Z;
  client_id : Z;
  stats : ConnectionStats.t;
  running : bool;
  sequence : Z
}.

Definition init (host : string) (port : Z) (client_id : Z) : t :=
  {| host := host; port := port; client_id := client_id;
     stats := ConnectionStats.init client_id 0;
     running := false; sequence := 0 |}.

Definition with_stats (s : ConnectionStats.t) (c : t) : t :=
  {| host := host c; port := port c; client_id := client_id c;
     stats := s; running := running c; sequence := sequence c |}.

Definition with_running (v : bool) (c : t) : t :=
  {| host := host c; port := port c; client_id := client_id c;
     stats := stats c; running := v; sequence := sequence c |}.

Definition with_sequence (v : Z) (c : t) : t :=
  {| host := host c; port := port c; client_id := client_id c;
     stats := stats c; running := running c; sequence := v |}.

(** [connect]; [wake] is what the awaited [asyncio.sleep] does: raise, or
    return at the given clock reading. *)
Definition connect (wake : outcome Q) (c : t) : t * outcome bool :=
  match wake with
  | Raised e => (c, Raised e)
  | Returned now =>
      let s := stats c in
      let s :=
        ConnectionStats.Build
          (ConnectionStats.connection_id s) now
          (ConnectionStats.disconnected_at s)
          (ConnectionStats.bytes_sent s) (ConnectionStats.bytes_received s)
          (ConnectionStats.packets_sent s)
          (ConnectionStats.packets_received s)
          (ConnectionStats.rtt_samples s) in
      (with_running true (with_stats s c), Returned true)
  end.

(** [send_input]: a placeholder packet of 17 bytes. *)
Definition send_input (c : t) : t :=
  let packet_size := 17 in
  let s := stats c in
  with_stats
    (ConnectionStats.Build
       (ConnectionStats.connection_id s) (ConnectionStats.connected_at s)
       (ConnectionStats.disconnected_at s)
       (ConnectionStats.bytes_sent s + packet_size)
       (ConnectionStats.bytes_received s)
       (ConnectionStats.packets_sent s + 1)
       (ConnectionStats.packets_received s)
       (ConnectionStats.rtt_samples s)) c.

(** [receive_snapshot]; [snapshot_size] is the draw of
    [random.randint(100, 1500)]. *)
Definition receive_snapshot (snapshot_size : Z) (c : t) : t :=
  let s := stats c in
  with_stats
    (ConnectionStats.Build
       (ConnectionStats.connection_id s) (ConnectionStats.connected_at s)
       (ConnectionStats.disconnected_at s)
       (ConnectionStats.bytes_sent s)
       (ConnectionStats.bytes_received s + snapshot_size)
       (ConnectionStats.packets_sent s)
       (ConnectionStats.packets_received s + 1)
       (ConnectionStats.rtt_samples s)) c.

(** [self.stats.rtt_samples.append(rtt)]. *)
Definition append_rtt (rtt : Q) (c : t) : t :=
  let s := stats c in
  with_stats
    (ConnectionStats.Build
       (ConnectionStats.connection_id s) (ConnectionStats.connected_at s)
       (ConnectionStats.disconnected_at s)
       (ConnectionStats.bytes_sent s) (ConnectionStats.bytes_received s)
       (ConnectionStats.packets_sent s) (ConnectionStats.packets_received s)
       (ConnectionStats.rtt_samples s ++ [rtt])) c.

(** [disconnect]; [now] is the reading of [time.time()]. *)
Definition disconnect (now : Q) (c : t) : t :=
  if running c then
    let s := stats c in
    with_running false
      (with_stats
         (ConnectionStats.Build
            (ConnectionStats.connection_id s) (ConnectionStats.connected_at s)
            (Some now)
            (ConnectionStats.bytes_sent s) (ConnectionStats.bytes_received s)
            (ConnectionStats.packets_sent s)
            (ConnectionStats.packets_received s)
            (ConnectionStats.rtt_samples s)) c)
  else c.

(** The draws of one iteration of the loop of [run]: the size of the
    snapshot, and the round-trip time [measure_rtt] returns if it is
    called ([random.uniform(10, 50)]). *)
Record tick : Type := { snapshot_size : Z; rtt : Q }.

(** The loop of [run]: one iteration for every tick, as many as the clock
    allows before [end_time].  The awaited sleeps return: cancelling one
    cancels the whole test. *)
Fixpoint run_loop (ticks : list tick) (c : t) : t :=
  match ticks with
  | [] => c
  | tk :: ticks =>
      let c := send_input c in
      let c := receive_snapshot (snapshot_size tk) c in
      let c := if sequence c mod 60 =? 0 then append_rtt (rtt tk) c else c in
      let c := with_sequence (sequence c + 1) c in
      run_loop ticks c
  end.

(** [run]; [finish] is the clock reading when the loop is left. *)
Definition run (ticks : list tick) (finish : Q) (c : t) : t :=
  if negb (running c) then c
  else disconnect finish (run_loop ticks c).

(** The bytes of the snapshots of a run. *)
Definition received (ticks : list tick) : Z :=
  foldr (fun tk acc => snapshot_size tk + acc) 0 ticks.

End StressTestClient.

(** ** [StressTest.print_results], [StressTest.verify_requirements] and
       [StressTest.run] over these clients *)

Module QualityGate.

Import Statistics.

(** [sum(1 for c in self.clients if c.stats.disconnected_at is None)]. *)
Definition active (clients : list StressTestClient.t) : Z :=
  Z.of_nat
    (length
       (filter (fun c => ConnectionStats.disconnected_at
                           (StressTestClient.stats c) = None) clients)).

Definition all_rtts (clients : list StressTestClient.t) : list Q :=
  clients ≫= (fun c => ConnectionStats.rtt_samples (StressTestClient.stats c)).

Definition total_received (clients : list StressTestClient.t) : Z :=
  foldl Z.add 0
    ((fun c => ConnectionStats.bytes_received (StressTestClient.stats c))
     <$> clients).

Definition total_sent (clients : list StressTestClient.t) : Z :=
  foldl Z.add 0
    ((fun c => ConnectionStats.bytes_sent (StressTestClient.stats c))
     <$> clients).

(** [c.stats.duration for c in self.clients]; [clock i] is the reading of
    [time.time()] for the client at position [i]. *)
Definition durations (clock : nat -> Q) (clients : list StressTestClient.t)
  : list Q :=
  imap (fun i c => ConnectionStats.duration (clock i) (StressTestClient.stats c))
       clients.

(** The figures [print_results] prints about round-trip times and
    bandwidth. *)
Record rtt_figures : Type := {
  min_rtt : Q; max_rtt : Q; avg_rtt : Q; p95_rtt : Q
}.

Record printed : Type := {
  rtt_stats : option rtt_figures;
  downstream_per_player : option Q;
  upstream_per_player : option Q
}.

(** [print_results].  The float product [len * 0.95] is within one part
    in 2^52 of the exact one, which is an integer or at least 1/20 away
    from one: truncation gives the same index for fewer than 2^40
    samples. *)
Definition print_results (clock : nat -> Q)
    (clients : list StressTestClient.t) : result printed :=
  let rtts := all_rtts clients in
  figures ← match rtts with
            | [] => Value None
            | x :: xs =>
                let lo := fmin x xs in
                let hi := fmax x xs in
                avg ← mean rtts;
                let index :=
                  Py.int (inject_Z (Z.of_nat (length rtts)) * (95 # 100)) in
                p95 ← builtin (Enhanced.getitem (merge_sort Qle rtts) index);
                Value (Some {| min_rtt := lo; max_rtt := hi; avg_rtt := avg;
                               p95_rtt := p95 |})
            end;
  avg_duration ← mean (durations clock clients);
  if ltb 0 avg_duration then
    let len := inject_Z (Z.of_nat (length clients)) in
    down ← builtin (truediv (inject_Z (total_received clients)) len);
    down ← builtin (truediv down avg_duration);
    up ← builtin (truediv (inject_Z (total_sent clients)) len);
    up ← builtin (truediv up avg_duration);
    Value {| rtt_stats := figures; downstream_per_player := Some down;
             upstream_per_player := Some up |}
  else
    Value {| rtt_stats := figures; downstream_per_player := None;
             upstream_per_player := None |}.

(** [verify_requirements]. *)
Definition verify_requirements (clock : nat -> Q)
    (clients : list StressTestClient.t) : result bool :=
  let passed := true in
  let passed := if 1000 <=? active clients then passed else false in
  let rtts := all_rtts clients in
  passed ← match rtts with
           | [] => Value passed
           | _ :: _ =>
               avg_rtt ← mean rtts;
               Value (if ltb avg_rtt 50 then passed else false)
           end;
  avg_duration ← mean (durations clock clients);
  if ltb 0 avg_duration then
    let len := inject_Z (Z.of_nat (length clients)) in
    down ← builtin (truediv (inject_Z (total_received clients)) len);
    down ← builtin (truediv down avg_duration);
    Value (if Qle_bool down (inject_Z (20 * 1024)) then passed else false)
  else Value passed.

(** What the environment gives one execution of [StressTest.run]: how
    the sleep of every [connect] ends, the draws and the final clock
    reading of every client's [run], and the clock readings of the two
    reports. *)
Record Env : Type := {
  wake : nat -> outcome Q;
  ticks : nat -> list StressTestClient.tick;
  finish : nat -> Q;
  print_clock : nat -> Q;
  verify_clock : nat -> Q
}.

(** The clients after the connection phase, and after the run phase. *)
Definition connect_all (env : Env) (clients : list StressTestClient.t)
  : list StressTestClient.t :=
  imap (fun i c => (StressTestClient.connect (wake env i) c).1) clients.

Definition run_all (env : Env) (clients : list StressTestClient.t)
  : list StressTestClient.t :=
  imap (fun i c => StressTestClient.run (ticks env i) (finish env i) c)
       clients.

(** [StressTest.run] on the test object [main] builds, whose list of
    clients is empty: the clients are created, connected in batches, run,
    reported and verified. *)
Definition run (env : Env) (host : string) (port : Z) (num_connections : Z)
  : result bool :=
  let clients :=
    (fun i => StressTestClient.init host port (Z.of_nat i))
    <$> seq 0 (Z.to_nat num_connections) in
  let connect i :=
    match clients !! i with
    | Some c => (StressTestClient.connect (wake env i) c).2
    | None => Raised IndexError
    end in
  let connected :=
    StressTest.connect_in_batches connect (seq 0 (length clients)) in
  let clients := connect_all env clients in
  if ltb (inject_Z connected) (inject_Z num_connections * (95 # 100))%Q
  then Value false
  else
    let clients := run_all env clients in
    _printed ← print_results (print_clock env) clients;
    verify_requirements (verify_clock env) clients.

(** The client at position [i] once the test has connected and run it. *)
Definition final (env : Env) (host : string) (port : Z) (i : nat)
  : StressTestClient.t :=
  StressTestClient.run (ticks env i) (finish env i)
    (StressTestClient.connect (wake env i)
       (StressTestClient.init host port (Z.of_nat i))).1.

End QualityGate.

(** ** The simulated players of [enhanced_bot_swarm.py] *)

Module BotState.

Inductive t : Type :=
| IDLE | WANDERING | MOVING_TO_TARGET | IN_COMBAT | DEAD | RESPAWNING | SOCIAL.

Global Instance eq_dec : EqDecision t.
Proof. solve_decision. Defined.

(** [state.name]. *)
Definition name (s : t) : string :=
  match s with
  | IDLE => "IDLE"
  | WANDERING => "WANDERING"
  | MOVING_TO_TARGET => "MOVING_TO_TARGET"
  | IN_COMBAT => "IN_COMBAT"
  | DEAD => "DEAD"
  | RESPAWNING => "RESPAWNING"
  | SOCIAL => "SOCIAL"
  end.

End BotState.

(** The [random] module: the samples behind [random()] and [uniform],
    and the indices behind [choice], which draws from the generator in
    its own way. *)
Module Dice.

Record t : Type := { rng : Rng; picks : nat -> nat; next_pick : nat }.

Definition random (d : t) : Q * t :=
  let (u, r) := Py.random (rng d) in
  (u, {| rng := r; picks := picks d; next_pick := next_pick d |}).

Definition uniform (a b : Q) (d : t) : Q * t :=
  let (u, r) := Py.uniform a b (rng d) in
  (u, {| rng := r; picks := picks d; next_pick := next_pick d |}).

(** [random.choice(seq)] on the non-empty sequence [x :: xs]. *)
Definition choice {A : Type} (x : A) (xs : list A) (d : t) : A * t :=
  (nth (picks d (next_pick d) mod length (x :: xs)) (x :: xs) x,
   {| rng := rng d; picks := picks d; next_pick := S (next_pick d) |}).

End Dice.

Module Position.

Record t : Type := Build { x : Q; y : Q; z : Q }.

Section Distance.

(** The float power [v ** 0.5]. *)
Variable sqrt : Q -> Q.

Definition distance_to (self other : t) : Q :=
  sqrt ((x self - x other) * (x self - x other)
        + (y self - y other) * (y self - y other)
        + (z self - z other) * (z self - z other))%Q.

Definition move_towards (self target : t) (speed dt : Q) : t :=
  let dist := distance_to self target in
  if Qeq_bool dist 0 then Build (x self) (y self) (z self)
  else
    let move_dist := Statistics.min2 (speed * dt)%Q dist in
    let ratio := (move_dist / dist)%Q in
    Build (x self + (x target - x self) * ratio)%Q
          (y self + (y target - y self) * ratio)%Q
          (z self + (z target - z self) * ratio)%Q.

End Distance.

End Position.

Module EnhancedBotConfig.

Record t : Type := {
  move_speed : Q;
  rotation_speed : Q;
  idle_time_min : Q;
  idle_time_max : Q;
  wander_radius : Q;
  combat_chance : Q;
  combat_duration_min : Q;
  combat_duration_max : Q;
  death_duration : Q;
  latency_ms : Q;
  latency_jitter_ms : Q;
  packet_loss_percent : Q;
  input_rate_hz : Q
}.

(** [BotConfig()]. *)
Definition default : t :=
  {| move_speed := 5; rotation_speed := 180;
     idle_time_min := 2; idle_time_max := 10; wander_radius := 50;
     combat_chance := 3 # 10; combat_duration_min := 5;
     combat_duration_max := 30; death_duration := 5;
     latency_ms := 50; latency_jitter_ms := 20;
     packet_loss_percent := 1 # 10; input_rate_hz := 60 |}.

End EnhancedBotConfig.

Module BotMetrics.

Record t : Type := Build {
  connection_time : Q;
  disconnect_time : option Q;
  messages_sent : Z;
  messages_received : Z;
  bytes_sent : Z;
  bytes_received : Z;
  latency_samples : list Q;
  errors : Z
}.

(** [BotMetrics()]. *)
Definition init : t := Build 0 None 0 0 0 0 [] 0.

Definition avg_latency (m : t) : Statistics.result Q :=
  match latency_samples m with
  | [] => Statistics.Value 0%Q
  | _ :: _ => Statistics.mean (latency_samples m)
  end.

Definition max_latency (m : t) : Q :=
  match latency_samples m with
  | [] => 0%Q
  | x :: xs => Statistics.fmax x xs
  end.

End BotMetrics.

Module EnhancedBot.

(** The tuple [(min_x, max_x, min_z, max_z)]. *)
Record bounds : Type := { min_x : Q; max_x : Q; min_z : Q; max_z : Q }.

(** The dict an input is queued as. *)
Record input_packet : Type := {
  packet_sequence : Z;
  packet_timestamp : Q;
  packet_position : Position.t;
  packet_rotation : Q;
  packet_state : string;
  packet_health : Z
}.

(** The attributes of a [Bot], but for [on_state_change], which is set to
    [None] and never used. *)
Record t : Type := Build {
  id : Z;
  config : EnhancedBotConfig.t;
  world_bounds : bounds;
  state : BotState.t;
  position : Position.t;
  rotation : Q;
  velocity : Position.t;
  state_timer : Q;
  target_position : option Position.t;
  combat_target : option Z;
  health : Z;
  connected : bool;
  connection_time : Q;
  metrics : BotMetrics.t;
  last_input_time : Q;
  pending_inputs : list input_packet
}.

Definition set_state (v : BotState.t) (b : t) : t :=
  Build (id b) (config b) (world_bounds b) v (position b) (rotation b)
        (velocity b) (state_timer b) (target_position b) (combat_target b)
        (health b) (connected b) (connection_time b) (metrics b)
        (last_input_time b) (pending_inputs b).

Definition set_position (v : Position.t) (b : t) : t :=
  Build (id b) (config b) (world_bounds b) (state b) v (rotation b)
        (velocity b) (state_timer b) (target_position b) (combat_target b)
        (health b) (connected b) (connection_time b) (metrics b)
        (last_input_time b) (pending_inputs b).

Definition set_state_timer (v : Q) (b : t) : t :=
  Build (id b) (config b) (world_bounds b) (state b) (position b)
        (rotation b) (velocity b) v (target_position b) (combat_target b)
        (health b) (connected b) (connection_time b) (metrics b)
        (last_input_time b) (pending_inputs b).

Definition set_target_position (v : option Position.t) (b : t) : t :=
  Build (id b) (config b) (world_bounds b) (state b) (position b)
        (rotation b) (velocity b) (state_timer b) v (combat_target b)
        (health b) (connected b) (connection_time b) (metrics b)
        (last_input_time b) (pending_inputs b).

Definition set_combat_target (v : option Z) (b : t) : t :=
  Build (id b) (config b) (world_bounds b) (state b) (position b)
        (rotation b) (velocity b) (state_timer b) (target_position b) v
        (health b) (connected b) (connection_time b) (metrics b)
        (last_input_time b) (pending_inputs b).

Definition set_health (v : Z) (b : t) : t :=
  Build (id b) (config b) (world_bounds b) (state b) (position b)
        (rotation b) (velocity b) (state_timer b) (target_position b)
        (combat_target b) v (connected b) (connection_time b) (metrics b)
        (last_input_time b) (pending_inputs b).

Definition set_connected (v : bool) (b : t) : t :=
  Build (id b) (config b) (world_bounds b) (state b) (position b)
        (rotation b) (velocity b) (state_timer b) (target_position b)
        (combat_target b) (health b) v (connection_time b) (metrics b)
        (last_input_time b) (pending_inputs b).

Definition set_connection_time (v : Q) (b : t) : t :=
  Build (id b) (config b) (world_bounds b) (state b) (position b)
        (rotation b) (velocity b) (state_timer b) (target_position b)
        (combat_target b) (health b) (connected b) v (metrics b)
        (last_input_time b) (pending_inputs b).

Definition set_metrics (v : BotMetrics.t) (b : t) : t :=
  Build (id b) (config b) (world_bounds b) (state b) (position b)
        (rotation b) (velocity b) (state_timer b) (target_position b)
        (combat_target b) (health b) (connected b) (connection_time b) v
        (last_input_time b) (pending_inputs b).

Definition set_last_input_time (v : Q) (b : t) : t :=
  Build (id b) (config b) (world_bounds b) (state b) (position b)
        (rotation b) (velocity b) (state_timer b) (target_position b)
        (combat_target b) (health b) (connected b) (connection_time b)
        (metrics b) v (pending_inputs b).

Definition set_pending_inputs (v : list input_packet) (b : t) : t :=
  Build (id b) (config b) (world_bounds b) (state b) (position b)
        (rotation b) (velocity b) (state_timer b) (target_position b)
        (combat_target b) (health b) (connected b) (connection_time b)
        (metrics b) (last_input_time b) v.

(** [Bot(bot_id, config, world_bounds)]. *)
Definition init (bot_id : Z) (config : EnhancedBotConfig.t)
    (world_bounds : bounds) (d : Dice.t) : t * Dice.t :=
  let '(px, d) := Dice.uniform (min_x world_bounds) (max_x world_bounds) d in
  let '(pz, d) := Dice.uniform (min_z world_bounds) (max_z world_bounds) d in
  let '(rot, d) := Dice.uniform 0 360 d in
  (Build bot_id config world_bounds BotState.IDLE (Position.Build px 0 pz)
         rot (Position.Build 0 0 0) 0 None None 100 false 0 BotMetrics.init
         0 [],
   d).

Definition connect (current_time : Q) (b : t) : t :=
  let b := set_connected true b in
  let b := set_connection_time current_time b in
  let m := metrics b in
  set_metrics
    (BotMetrics.Build current_time (BotMetrics.disconnect_time m)
       (BotMetrics.messages_sent m) (BotMetrics.messages_received m)
       (BotMetrics.bytes_sent m) (BotMetrics.bytes_received m)
       (BotMetrics.latency_samples m) (BotMetrics.errors m)) b.

Definition disconnect (current_time : Q) (b : t) : t :=
  let b := set_connected false b in
  let m := metrics b in
  set_metrics
    (BotMetrics.Build (BotMetrics.connection_time m) (Some current_time)
       (BotMetrics.messages_sent m) (BotMetrics.messages_received m)
       (BotMetrics.bytes_sent m) (BotMetrics.bytes_received m)
       (BotMetrics.latency_samples m) (BotMetrics.errors m)) b.

(** [max(lo, min(hi, v))]. *)
Definition clamp (lo hi v : Q) : Q := max2 lo (Statistics.min2 hi v).

Section Behaviour.

(** The float power [v ** 0.5] of [Position.distance_to]. *)
Variable sqrt : Q -> Q.

Definition _start_wandering (d : Dice.t) (b : t) : t * Dice.t :=
  let b := set_state BotState.WANDERING b in
  let '(_angle, d) := Dice.uniform 0 (2 * (314159 # 100000)) d in
  let '(distance, d) :=
    Dice.uniform 10 (EnhancedBotConfig.wander_radius (config b)) d in
  let '(sign_x, d) := Dice.choice (-1)%Q [1%Q] d in
  let '(sign_z, d) := Dice.choice (-1)%Q [1%Q] d in
  let target :=
    Position.Build (Position.x (position b) + distance * sign_x) 0
                   (Position.z (position b) + distance * sign_z) in
  let b := set_target_position (Some target) b in
  let target :=
    Position.Build
      (clamp (min_x (world_bounds b)) (max_x (world_bounds b))
             (Position.x target))
      (Position.y target) (Position.z target) in
  let b := set_target_position (Some target) b in
  let target :=
    Position.Build
      (Position.x target) (Position.y target)
      (clamp (min_z (world_bounds b)) (max_z (world_bounds b))
             (Position.z target)) in
  (set_target_position (Some target) b, d).

Definition _start_social (other_bots : list t) (d : Dice.t) (b : t)
  : t * Dice.t :=
  let nearby :=
    filter (fun o =>
              id o <> id b
              /\ ltb (Position.distance_to sqrt (position o) (position b)) 30
                 = true) other_bots in
  match nearby with
  | o :: os =>
      let b := set_state BotState.SOCIAL b in
      let '(chosen, d) := Dice.choice o os d in
      let b := set_target_position (Some (position chosen)) b in
      let '(timer, d) := Dice.uniform 5 15 d in
      (set_state_timer timer b, d)
  | [] => _start_wandering d b
  end.

Definition _try_enter_combat (other_bots : list t) (d : Dice.t) (b : t)
  : t * Dice.t :=
  let '(r, d) := Dice.random d in
  if ltb (EnhancedBotConfig.combat_chance (config b)) r then (b, d)
  else
    let nearby :=
      filter (fun o =>
                id o <> id b
                /\ state o <> BotState.DEAD
                /\ ltb (Position.distance_to sqrt (position o) (position b))
                       20 = true) other_bots in
    match nearby with
    | o :: os =>
        let b := set_state BotState.IN_COMBAT b in
        let '(chosen, d) := Dice.choice o os d in
        let b := set_combat_target (Some (id chosen)) b in
        let '(timer, d) :=
          Dice.uniform (EnhancedBotConfig.combat_duration_min (config b))
                       (EnhancedBotConfig.combat_duration_max (config b)) d in
        (set_state_timer timer b, d)
    | [] => (b, d)
    end.

(** The transitions of [_update_state], before the random engagement. *)
Definition transition (dt : Q) (other_bots : list t) (d : Dice.t) (b : t)
  : t * Dice.t :=
  match state b with
  | BotState.IDLE =>
      if Qle_bool (state_timer b) 0 then
        let '(r, d) := Dice.random d in
        if ltb r (6 # 10) then _start_wandering d b
        else if ltb r (8 # 10) then _start_social other_bots d b
        else
          let '(timer, d) :=
            Dice.uniform (EnhancedBotConfig.idle_time_min (config b))
                         (EnhancedBotConfig.idle_time_max (config b)) d in
          (set_state_timer timer b, d)
      else (b, d)
  | BotState.WANDERING =>
      match target_position b with
      | Some target =>
          let b :=
            set_position
              (Position.move_towards sqrt (position b) target
                 (EnhancedBotConfig.move_speed (config b)) dt) b in
          if ltb (Position.distance_to sqrt (position b) target) 1 then
            let b := set_state BotState.IDLE b in
            let '(timer, d) := Dice.uniform 1 5 d in
            let b := set_state_timer timer b in
            (set_target_position None b, d)
          else (b, d)
      | None => (b, d)
      end
  | BotState.IN_COMBAT =>
      if Qle_bool (state_timer b) 0 || (health b <=? 0) then
        if health b <=? 0 then
          let b := set_state BotState.DEAD b in
          (set_state_timer (EnhancedBotConfig.death_duration (config b)) b, d)
        else
          let b := set_state BotState.IDLE b in
          let '(timer, d) := Dice.uniform 2 5 d in
          (set_state_timer timer b, d)
      else (b, d)
  | BotState.DEAD =>
      if Qle_bool (state_timer b) 0 then
        let b := set_state BotState.RESPAWNING b in
        let b := set_health 100 b in
        (set_state_timer 2 b, d)
      else (b, d)
  | BotState.RESPAWNING | BotState.SOCIAL =>
      if Qle_bool (state_timer b) 0 then
        let b := set_state BotState.IDLE b in
        let '(timer, d) := Dice.uniform 2 5 d in
        (set_state_timer timer b, d)
      else (b, d)
  | BotState.MOVING_TO_TARGET => (b, d)
  end.

Definition _update_state (dt : Q) (other_bots : list t) (d : Dice.t) (b : t)
  : t * Dice.t :=
  let b := set_state_timer (state_timer b - dt) b in
  let '(b, d) := transition dt other_bots d b in
  match state b with
  | BotState.IDLE | BotState.WANDERING =>
      let '(r, d) := Dice.random d in
      if ltb r (1 # 100) then _try_enter_combat other_bots d b else (b, d)
  | _ => (b, d)
  end.

(** [self.metrics.latency_samples = ...]. *)
Definition set_latency_samples (v : list Q) (b : t) : t :=
  let m := metrics b in
  set_metrics
    (BotMetrics.Build (BotMetrics.connection_time m)
       (BotMetrics.disconnect_time m)
       (BotMetrics.messages_sent m) (BotMetrics.messages_received m)
       (BotMetrics.bytes_sent m) (BotMetrics.bytes_received m)
       v (BotMetrics.errors m)) b.

Definition _simulate_network (d : Dice.t) (b : t) : t * Dice.t :=
  let '(r, d) := Dice.random d in
  if ltb r (EnhancedBotConfig.packet_loss_percent (config b) / 100) then (b, d)
  else
    let '(jitter, d) :=
      Dice.uniform (- EnhancedBotConfig.latency_jitter_ms (config b))
                   (EnhancedBotConfig.latency_jitter_ms (config b)) d in
    let latency := (EnhancedBotConfig.latency_ms (config b) + jitter)%Q in
    let latency := max2 1 latency in
    let b :=
      set_latency_samples
        (BotMetrics.latency_samples (metrics b) ++ [latency]) b in
    let samples := BotMetrics.latency_samples (metrics b) in
    if (100 <? length samples)%nat
    then (set_latency_samples (drop (length samples - 100) samples) b, d)
    else (b, d).

(** [len(json.dumps(input_packet).encode())]. *)
Variable json_length : input_packet -> Z.

(** The readings of [time.time()] in the loop of [_send_inputs], by
    iteration. *)
Variable clock : nat -> Q.

(** The loop of [_send_inputs]; [None] when [fuel] iterations do not end
    it, [k] is the number of iterations done. *)
Fixpoint send_loop (fuel k : nat) (current_time input_interval : Q) (b : t)
  : option t :=
  if Qle_bool input_interval (current_time - last_input_time b) then
    match fuel with
    | O => None
    | S fuel =>
        let b := set_last_input_time (last_input_time b + input_interval) b in
        let input_packet :=
          {| packet_sequence := BotMetrics.messages_sent (metrics b);
             packet_timestamp := (clock k * 1000)%Q;
             packet_position :=
               Position.Build (Position.x (position b))
                 (Position.y (position b)) (Position.z (position b));
             packet_rotation := rotation b;
             packet_state := BotState.name (state b);
             packet_health := health b |} in
        let b := set_pending_inputs (pending_inputs b ++ [input_packet]) b in
        let m := metrics b in
        let b :=
          set_metrics
            (BotMetrics.Build (BotMetrics.connection_time m)
               (BotMetrics.disconnect_time m)
               (BotMetrics.messages_sent m + 1)
               (BotMetrics.messages_received m)
               (BotMetrics.bytes_sent m + json_length input_packet)
               (BotMetrics.bytes_received m)
               (BotMetrics.latency_samples m) (BotMetrics.errors m)) b in
        send_loop fuel (S k) current_time input_interval b
    end
  else Some b.

Definition _send_inputs (fuel : nat) (current_time : Q) (b : t)
  : option (outcome t) :=
  match truediv 1 (EnhancedBotConfig.input_rate_hz (config b)) with
  | Raised e => Some (Raised e)
  | Returned input_interval =>
      Returned <$> send_loop fuel 0 current_time input_interval b
  end.

(** [update]: the bot and the generator it leaves behind, and how the
    call ends; [None] when [fuel] iterations do not end [_send_inputs]. *)
Definition update (fuel : nat) (current_time dt : Q) (other_bots : list t)
    (d : Dice.t) (b : t) : option (t * Dice.t * outcome unit) :=
  if negb (connected b) then Some (b, d, Returned ())
  else
    let '(b, d) := _update_state dt other_bots d b in
    let '(b, d) := _simulate_network d b in
    match _send_inputs fuel current_time b with
    | None => None
    | Some (Raised e) => Some (b, d, Raised e)
    | Some (Returned b) => Some (b, d, Returned ())
    end.

End Behaviour.

End EnhancedBot.
(** The life of a bot: what can happen to it between its creation and a
    later moment. *)
Module Lifecycle.

Import EnhancedBot.

Section Steps.

Variable sqrt : Q -> Q.
Variable json_length : input_packet -> Z.

Inductive step : t -> t -> Prop :=
| step_connect (current_time : Q) (b : t) :
    step b (connect current_time b)
| step_disconnect (current_time : Q) (b : t) :
    step b (disconnect current_time b)
| step_update (clock : nat -> Q) (fuel : nat) (current_time dt : Q)
    (other_bots : list t) (d d' : Dice.t) (b b' : t) (r : outcome unit) :
    update sqrt json_length clock fuel current_time dt other_bots d b
    = Some (b', d', r) ->
    step b b'.

(** The bots that some sequence of calls leads to from a new [Bot]. *)
Definition reachable (b : t) : Prop :=
  exists (bot_id : Z) (config : EnhancedBotConfig.t) (world_bounds : bounds)
         (d : Dice.t),
    rtc step (init bot_id config world_bounds d).1 b.

End Steps.

(** What the behaviour of a bot leaves alone. *)
Definition behaviour_frame (b b' : t) : Prop :=
  id b' = id b /\ config b' = config b /\ world_bounds b' = world_bounds b
  /\ connected b' = connected b /\ metrics b' = metrics b
  /\ pending_inputs b' = pending_inputs b
  /\ last_input_time b' = last_input_time b /\ rotation b' = rotation b.

(** The states a bot is seen in. *)
Definition lively (b : t) : Prop :=
  health b = 100
  /\ (state b = BotState.IDLE \/ state b = BotState.WANDERING
      \/ state b = BotState.IN_COMBAT \/ state b = BotState.SOCIAL).

(** A position inside the world bounds. *)
Definition in_bounds (wb : bounds) (p : Position.t) : Prop :=
  (min_x wb <= Position.x p <= max_x wb)%Q
  /\ (min_z wb <= Position.z p <= max_z wb)%Q.

(** Bounds that are in order. *)
Definition ordered (wb : bounds) : Prop :=
  (min_x wb <= max_x wb)%Q /\ (min_z wb <= max_z wb)%Q.

(** A wandering bot has a target inside the world bounds. *)
Definition aimed (b : t) : Prop :=
  state b = BotState.WANDERING ->
  exists target,
    target_position b = Some target
    /\ (ordered (world_bounds b) -> in_bounds (world_bounds b) target).

(** The window of latency samples: at most 100, of 1 ms or more. *)
Definition windowed (b : t) : Prop :=
  (length (BotMetrics.latency_samples (metrics b)) <= 100)%nat
  /\ Forall (fun s => (1 <= s)%Q) (BotMetrics.latency_samples (metrics b)).


End Lifecycle.
(** ** The swarm of [enhanced_bot_swarm.py] *)

Module EnhancedBotSwarm.

(** The dict [self.stats]. *)
Record statistics : Type := {
  total_connections : Z;
  peak_connections : Z;
  total_messages_sent : Z;
  total_messages_received : Z;
  errors : Z
}.

(** The attributes of a swarm.  [bots] holds the values of the dict
    [self.bots] in insertion order; the key of a bot is its [id]. *)
Record t : Type := Build {
  config : EnhancedBotConfig.t;
  world_bounds : EnhancedBot.bounds;
  bots : list EnhancedBot.t;
  running : bool;
  start_time : Q;
  stats : statistics
}.

Definition set_bots (v : list EnhancedBot.t) (self : t) : t :=
  Build (config self) (world_bounds self) v (running self) (start_time self)
        (stats self).

Definition set_running (v : bool) (self : t) : t :=
  Build (config self) (world_bounds self) (bots self) v (start_time self)
        (stats self).

Definition set_start_time (v : Q) (self : t) : t :=
  Build (config self) (world_bounds self) (bots self) (running self) v
        (stats self).

Definition set_stats (v : statistics) (self : t) : t :=
  Build (config self) (world_bounds self) (bots self) (running self)
        (start_time self) v.

(** [BotSwarm(config, world_bounds)]. *)
Definition init (config : option EnhancedBotConfig.t)
    (world_bounds : EnhancedBot.bounds) : t :=
  Build (default EnhancedBotConfig.default config) world_bounds [] false 0
        {| total_connections := 0; peak_connections := 0;
           total_messages_sent := 0; total_messages_received := 0;
           errors := 0 |}.

(** The default [world_bounds]. *)
Definition default_bounds : EnhancedBot.bounds :=
  {| EnhancedBot.min_x := -500; EnhancedBot.max_x := 500;
     EnhancedBot.min_z := -500; EnhancedBot.max_z := 500 |}.

(** [self.bots[bot.id] = bot]: a bot stored under a key that is present
    takes the place of the one that was there. *)
Fixpoint store (bot : EnhancedBot.t) (bots : list EnhancedBot.t)
  : list EnhancedBot.t :=
  match bots with
  | [] => [bot]
  | b :: rest =>
      if decide (EnhancedBot.id b = EnhancedBot.id bot) then bot :: rest
      else b :: store bot rest
  end.

(** The loop of [create_bots] over [range(count)], from [i]; [clock i] is
    the reading of [time.time()] for bot [i].  The awaited sleeps
    return. *)
Fixpoint create_loop (clock : nat -> Q) (n i : nat) (d : Dice.t) (self : t)
  : t * Dice.t :=
  match n with
  | O => (self, d)
  | S n =>
      let '(bot, d) :=
        EnhancedBot.init (Z.of_nat i) (config self) (world_bounds self) d in
      let bot := EnhancedBot.connect (clock i) bot in
      let self := set_bots (store bot (bots self)) self in
      let s := stats self in
      let self :=
        set_stats
          {| total_connections := total_connections s + 1;
             peak_connections := peak_connections s;
             total_messages_sent := total_messages_sent s;
             total_messages_received := total_messages_received s;
             errors := errors s |} self in
      create_loop clock n (S i) d self
  end.

Definition create_bots (clock : nat -> Q) (count : Z) (ramp_up_time : Q)
    (d : Dice.t) (self : t) : outcome (t * Dice.t) :=
  _delay_per_bot ← (if ltb 0 ramp_up_time
                    then truediv ramp_up_time (inject_Z count)
                    else Returned 0%Q);
  let '(self, d) := create_loop clock (Z.to_nat count) 0 d self in
  let s := stats self in
  Returned
    (set_stats
       {| total_connections := total_connections s;
          peak_connections := Z.of_nat (length (bots self));
          total_messages_sent := total_messages_sent s;
          total_messages_received := total_messages_received s;
          errors := errors s |} self,
     d).

Definition _update_stats (self : t) : t :=
  let s := stats self in
  let sent :=
    foldl Z.add 0
      ((fun b => BotMetrics.messages_sent (EnhancedBot.metrics b))
       <$> bots self) in
  let self :=
    set_stats
      {| total_connections := total_connections s;
         peak_connections := peak_connections s;
         total_messages_sent := sent;
         total_messages_received := total_messages_received s;
         errors := errors s |} self in
  let s := stats self in
  let received :=
    foldl Z.add 0
      ((fun b => BotMetrics.messages_received (EnhancedBot.metrics b))
       <$> bots self) in
  set_stats
    {| total_connections := total_connections s;
       peak_connections := peak_connections s;
       total_messages_sent := total_messages_sent s;
       total_messages_received := received;
       errors := errors s |} self.

(** [_get_state_distribution]. *)
Definition _get_state_distribution (self : t) : gmap string Z :=
  foldl (fun distribution bot =>
           let state_name := BotState.name (EnhancedBot.state bot) in
           <[state_name := default 0 (distribution !! state_name) + 1]>
             distribution)
        ∅ (bots self).

Section Run.

Variable sqrt : Q -> Q.
Variable json_length : EnhancedBot.input_packet -> Z.

(** The readings of [time.time()] inside [_send_inputs], by tick, by
    position of the bot and by iteration. *)
Variable clock : nat -> nat -> nat -> Q.

(** One [bot.update] of the sweep over [bot_list], whose bots are the
    ones of the dict: every bot sees the others as they are, the ones
    before it already updated.  An exception is counted. *)
Definition update_at (fuel : nat) (tick : nat) (current_time dt : Q)
    (acc : option (t * Dice.t)) (i : nat) : option (t * Dice.t) :=
  match acc with
  | None => None
  | Some (self, d) =>
      match bots self !! i with
      | None => Some (self, d)
      | Some bot =>
          match EnhancedBot.update sqrt json_length (clock tick i) fuel
                  current_time dt (bots self) d bot with
          | None => None
          | Some (bot, d, r) =>
              let self := set_bots (<[i := bot]> (bots self)) self in
              match r with
              | Returned _ => Some (self, d)
              | Raised _ =>
                  let s := stats self in
                  Some
                    (set_stats
                       {| total_connections := total_connections s;
                          peak_connections := peak_connections s;
                          total_messages_sent := total_messages_sent s;
                          total_messages_received :=
                            total_messages_received s;
                          errors := errors s + 1 |} self,
                     d)
              end
          end
      end
  end.

(** The iterations of the loop of [run]: [times] holds the
    [current_time] of every iteration the clock allows. *)
Fixpoint run_loop (fuel : nat) (tick : nat) (dt : Q) (times : list Q)
    (acc : t * Dice.t) : option (t * Dice.t) :=
  match times with
  | [] => Some acc
  | current_time :: times =>
      match foldl (update_at fuel tick current_time dt) (Some acc)
                  (seq 0 (length (bots acc.1))) with
      | None => None
      | Some (self, d) =>
          run_loop fuel (S tick) dt times (_update_stats self, d)
      end
  end.

(** [run]: the swarm and the generator it leaves, and how the call ends;
    [None] when some [update] does not return. *)
Definition run (fuel : nat) (start : Q) (times : list Q) (tick_rate : Q)
    (d : Dice.t) (self : t) : option (t * Dice.t * outcome unit) :=
  let self := set_running true self in
  let self := set_start_time start self in
  match truediv 1 tick_rate with
  | Raised e => Some (self, d, Raised e)
  | Returned tick_interval =>
      match run_loop fuel 0 tick_interval times (self, d) with
      | None => None
      | Some (self, d) => Some (set_running false self, d, Returned ())
      end
  end.

End Run.

(** *** The report *)

Record latency_report : Type := {
  mean_ms : Q; median_ms : Q; p95_ms : Q; p99_ms : Q; max_ms : Q
}.

Record rate_report : Type := {
  total_per_second : Q; per_bot_mean : Q; per_bot_max : Z
}.

Record duration_report : Type := { mean_s : Q; min_s : Q; max_s : Q }.

Record full_report : Type := {
  test_duration : Q;
  bot_count : Z;
  report_total_connections : Z;
  report_peak_connections : Z;
  report_total_messages_sent : Z;
  report_total_errors : Z;
  latency : latency_report;
  message_rate : rate_report;
  connection_duration : duration_report;
  state_distribution : gmap string Z
}.

(** The dict [get_report] returns: the one with the key ["error"], or the
    full one. *)
Inductive report : Type :=
| ErrorReport (error : string)
| FullReport (r : full_report).

(** [statistics.median(data)]. *)
Definition median (data : list Q) : Statistics.result Q :=
  let data := merge_sort Qle data in
  let n := Z.of_nat (length data) in
  if n =? 0 then Statistics.Raise Statistics.StatisticsError
  else if n mod 2 =? 1 then Statistics.builtin (Enhanced.getitem data (n / 2))
  else
    let i := n / 2 in
    lo ← Statistics.builtin (Enhanced.getitem data (i - 1));
    hi ← Statistics.builtin (Enhanced.getitem data i);
    Statistics.Value ((lo + hi) / 2)%Q.

(** [max(xs)] over integers, for the non-empty [x :: xs]. *)
Definition zmax (x : Z) (xs : list Z) : Z :=
  foldl (fun m v => if m <? v then v else m) x xs.

(** The readings of [time.time()] in [get_report]: for the duration of
    the bot at a position, for the duration of the test and for the
    message rate. *)
Record report_clock : Type := {
  at_bot : nat -> Q;
  at_duration : Q;
  at_rate : Q
}.

Definition get_report (now : report_clock) (self : t)
  : Statistics.result report :=
  match bots self with
  | [] => Statistics.Value (ErrorReport "No bots were created")
  | _ :: _ =>
      let latencies :=
        bots self ≫= (fun b => BotMetrics.latency_samples
                                 (EnhancedBot.metrics b)) in
      let connection_durations :=
        imap (fun i b =>
                let m := EnhancedBot.metrics b in
                match BotMetrics.disconnect_time m with
                | Some t =>
                    if truthy t then (t - BotMetrics.connection_time m)%Q
                    else (at_bot now i - BotMetrics.connection_time m)%Q
                | None => (at_bot now i - BotMetrics.connection_time m)%Q
                end) (bots self) in
      let messages_per_bot :=
        (fun b => BotMetrics.messages_sent (EnhancedBot.metrics b))
        <$> bots self in
      let duration := (at_duration now - start_time self)%Q in
      latency_part ←
        match latencies with
        | [] => Statistics.Value
                  {| mean_ms := 0; median_ms := 0; p95_ms := 0; p99_ms := 0;
                     max_ms := 0 |}
        | x :: xs =>
            mean ← Statistics.mean latencies;
            med ← median latencies;
            p95 ← Statistics.builtin (Enhanced._percentile Qle 0%Q latencies 95);
            p99 ← Statistics.builtin (Enhanced._percentile Qle 0%Q latencies 99);
            Statistics.Value
              {| mean_ms := mean; median_ms := med; p95_ms := p95;
                 p99_ms := p99; max_ms := Statistics.fmax x xs |}
        end;
      total_rate ←
        Statistics.builtin
          (truediv (inject_Z (total_messages_sent (stats self)))
                   (max2 1 (at_rate now - start_time self)));
      rate_part ←
        match messages_per_bot with
        | [] => Statistics.Value
                  {| total_per_second := total_rate; per_bot_mean := 0;
                     per_bot_max := 0 |}
        | m :: ms =>
            mean ← Statistics.mean (inject_Z <$> messages_per_bot);
            Statistics.Value
              {| total_per_second := total_rate; per_bot_mean := mean;
                 per_bot_max := zmax m ms |}
        end;
      duration_part ←
        match connection_durations with
        | [] => Statistics.Value {| mean_s := 0; min_s := 0; max_s := 0 |}
        | x :: xs =>
            mean ← Statistics.mean connection_durations;
            Statistics.Value
              {| mean_s := mean; min_s := Statistics.fmin x xs;
                 max_s := Statistics.fmax x xs |}
        end;
      Statistics.Value
        (FullReport
           {| test_duration := duration;
              bot_count := Z.of_nat (length (bots self));
              report_total_connections := total_connections (stats self);
              report_peak_connections := peak_connections (stats self);
              report_total_messages_sent := total_messages_sent (stats self);
              report_total_errors := errors (stats self);
              latency := latency_part;
              message_rate := rate_part;
              connection_duration := duration_part;
              state_distribution := _get_state_distribution self |})
  end.

(** [print_report]: the share of every state it prints, here in the
    order of the names; reading a key of the report that has only
    ["error"] raises [KeyError]. *)
Definition print_report (now : report_clock) (self : t)
  : Statistics.result (list (string * Z * Q)) :=
  r ← get_report now self;
  match r with
  | ErrorReport _ => Statistics.Raise (Statistics.Builtin KeyError)
  | FullReport r =>
      mapM (M := Statistics.result)
           (fun entry : string * Z =>
              share ← Statistics.builtin
                        (truediv (inject_Z entry.2) (inject_Z (bot_count r)));
              Statistics.Value (entry.1, entry.2, (share * 100)%Q))
           (map_to_list (state_distribution r))
  end.

End EnhancedBotSwarm.
(** The population of a swarm. *)
Module Population.

Import EnhancedBotSwarm.

(** The keys of the dict of bots. *)
Definition ids (self : t) : list Z := EnhancedBot.id <$> bots self.

(** The bots whose state has the given name. *)
Definition in_state (key : string) (self : t) : Z :=
  Z.of_nat
    (length
       (filter (fun b => BotState.name (EnhancedBot.state b) = key)
               (bots self))).

(** The messages the bots have sent. *)
Definition messages_sent (self : t) : Z :=
  foldl Z.add 0
    ((fun b => BotMetrics.messages_sent (EnhancedBot.metrics b))
     <$> bots self).

(** What a sweep of updates keeps: the keys, and that the bots are
    lively and their latency windows bounded. *)
Definition kept (self self' : t) : Prop :=
  ids self' = ids self
  /\ (Forall Lifecycle.lively (bots self)
      -> Forall Lifecycle.lively (bots self'))
  /\ (Forall Lifecycle.windowed (bots self)
      -> Forall Lifecycle.windowed (bots self')).

End Population.
(** Sample players and a sample swarm. *)
Module EnhancedSample.

(** A stand-in for the float square root: the integer one. *)
Definition sqrt (v : Q) : Q := inject_Z (Z.sqrt (Qfloor v)).

Definition json_length (_ : EnhancedBot.input_packet) : Z := 160.

(** A generator that always draws the middle, and the first item. *)
Definition dice : Dice.t :=
  {| Dice.rng := {| rng_samples := fun _ => 1 # 2; rng_next := 0 |};
     Dice.picks := fun _ => 0%nat;
     Dice.next_pick := 0 |}.

Definition clock (_ : nat) : Q := 100.

Definition fresh : EnhancedBot.t :=
  (EnhancedBot.init 0 EnhancedBotConfig.default
     EnhancedBotSwarm.default_bounds dice).1.

Definition connected : EnhancedBot.t := EnhancedBot.connect 0 fresh.

(** The first update, a tenth of a second after the epoch. *)
Definition first_update
  : option (EnhancedBot.t * Dice.t * outcome unit) :=
  EnhancedBot.update sqrt json_length clock 10 (1 # 10) (1 # 60)
    [connected] dice connected.

Definition updated : EnhancedBot.t :=
  match first_update with Some (b, _, _) => b | None => connected end.

Definition updated_dice : Dice.t :=
  match first_update with Some (_, d, _) => d | None => dice end.

Definition updated_outcome : outcome unit :=
  match first_update with Some (_, _, r) => r | None => Returned () end.

(** A player whose inputs are to be sent at a rate below zero. *)
Definition backwards : EnhancedBot.t :=
  let c := EnhancedBotConfig.default in
  EnhancedBot.connect 0
    (EnhancedBot.init 0
       {| EnhancedBotConfig.move_speed := EnhancedBotConfig.move_speed c;
          EnhancedBotConfig.rotation_speed :=
            EnhancedBotConfig.rotation_speed c;
          EnhancedBotConfig.idle_time_min := EnhancedBotConfig.idle_time_min c;
          EnhancedBotConfig.idle_time_max := EnhancedBotConfig.idle_time_max c;
          EnhancedBotConfig.wander_radius := EnhancedBotConfig.wander_radius c;
          EnhancedBotConfig.combat_chance := EnhancedBotConfig.combat_chance c;
          EnhancedBotConfig.combat_duration_min :=
            EnhancedBotConfig.combat_duration_min c;
          EnhancedBotConfig.combat_duration_max :=
            EnhancedBotConfig.combat_duration_max c;
          EnhancedBotConfig.death_duration :=
            EnhancedBotConfig.death_duration c;
          EnhancedBotConfig.latency_ms := EnhancedBotConfig.latency_ms c;
          EnhancedBotConfig.latency_jitter_ms :=
            EnhancedBotConfig.latency_jitter_ms c;
          EnhancedBotConfig.packet_loss_percent :=
            EnhancedBotConfig.packet_loss_percent c;
          EnhancedBotConfig.input_rate_hz := -60 |}
       EnhancedBotSwarm.default_bounds dice).1.

(** A swarm of three bots. *)
Definition swarm : EnhancedBotSwarm.t :=
  match EnhancedBotSwarm.create_bots clock 3 0 dice
          (EnhancedBotSwarm.init None EnhancedBotSwarm.default_bounds) with
  | Returned (self, _) => self
  | Raised _ => EnhancedBotSwarm.init None EnhancedBotSwarm.default_bounds
  end.

(** One tick of its run, a tenth of a second after the epoch. *)
Definition first_run
  : option (EnhancedBotSwarm.t * Dice.t * outcome unit) :=
  EnhancedBotSwarm.run sqrt json_length (fun _ _ => clock) 10 0 [1 # 10] 60
    dice swarm.

Definition ran : EnhancedBotSwarm.t :=
  match first_run with Some (self, _, _) => self | None => swarm end.

Definition ran_dice : Dice.t :=
  match first_run with Some (_, d, _) => d | None => dice end.

Definition ran_outcome : outcome unit :=
  match first_run with Some (_, _, r) => r | None => Returned () end.

End EnhancedSample.

(** * Properties *)

(** ** Python semantics *)

Module PyFacts.

Lemma length_le_bytes (n : nat) (v : Z) : length (le_bytes n v) = n.
Proof.
  revert v; induction n as [|n IH]; intros v; simpl; [done | by rewrite IH].
Qed.

Lemma pack_unsigned_length (n : nat) (v : Z) (bs : bytes) :
  pack_unsigned n v = Returned bs -> length bs = n.
Proof.
  unfold pack_unsigned. case_match; [|done].
  intros [= <-]. apply length_le_bytes.
Qed.

Lemma pack_signed_length (n : nat) (v : Z) (bs : bytes) :
  pack_signed n v = Returned bs -> length bs = n.
Proof.
  unfold pack_signed. case_match; [|done].
  intros [= <-]. apply length_le_bytes.
Qed.

Lemma pack_unsigned_returns (n : nat) (v : Z) :
  0 <= v < 2 ^ (8 * Z.of_nat n) ->
  pack_unsigned n v = Returned (le_bytes n v).
Proof.
  intros [H1 H2]. unfold pack_unsigned.
  apply Z.leb_le in H1. apply Z.ltb_lt in H2. by rewrite H1, H2.
Qed.

Lemma pack_signed_returns (n : nat) (v : Z) :
  - 2 ^ (8 * Z.of_nat n - 1) <= v < 2 ^ (8 * Z.of_nat n - 1) ->
  pack_signed n v = Returned (le_bytes n v).
Proof.
  intros [H1 H2]. unfold pack_signed.
  apply Z.leb_le in H1. apply Z.ltb_lt in H2. by rewrite H1, H2.
Qed.


Lemma slice_length (data : bytes) (a b : nat) :
  (b <= length data)%nat -> length (slice data a b) = (b - a)%nat.
Proof. intros H. unfold slice. rewrite length_take, length_drop. lia. Qed.

Lemma unpack_I_slice (data : bytes) (a b : nat) :
  b = (a + 4)%nat -> (b <= length data)%nat ->
  unpack_I (slice data a b) = Returned (le_value (slice data a b)).
Proof.
  intros -> H. unfold unpack_I. rewrite slice_length by done.
  by replace (a + 4 - a)%nat with 4%nat by lia.
Qed.

Lemma index_lt (data : bytes) (i : nat) :
  (i < length data)%nat ->
  exists x, data !! i = Some x /\ index data i = Returned x.
Proof.
  intros H. unfold index, bytes in *.
  destruct (data !! i) as [x|] eqn:Hx; [by exists x|].
  apply lookup_ge_None in Hx. lia.
Qed.

(** [int] truncates: it is within one of its argument, on the side of
    zero. *)
Lemma int_floor_nonneg (x : Q) : (0 <= x)%Q -> Py.int x = Qfloor x.
Proof.
  destruct x as [n d]. unfold Qle, Py.int, Qfloor. simpl.
  intros H. apply Z.quot_div_nonneg; lia.
Qed.





End PyFacts.

(** ** The codec and the bot *)

Module GameBotFacts.

Import PyFacts GameBot.

(** Inversion of a sequence of calls that returned. *)
Lemma bind_returned {A B} (m : outcome A) (f : A -> outcome B) (y : B) :
  m ≫= f = Returned y -> exists x, m = Returned x /\ f x = Returned y.
Proof. destruct m as [x|e]; [by exists x | done]. Qed.

Ltac in_range :=
  cbv [PACKET_CONNECTION_REQUEST PROTOCOL_VERSION PACKET_CLIENT_INPUT];
  change (2 ^ (8 * Z.of_nat 1)) with 256;
  change (2 ^ (8 * Z.of_nat 4)) with 4294967296;
  change (2 ^ (8 * Z.of_nat 8)) with 18446744073709551616;
  change (2 ^ (8 * Z.of_nat 2 - 1)) with 32768;
  lia.

Ltac returned H :=
  repeat (let x := fresh "x" in let Hx := fresh "Hx" in
          apply bind_returned in H as (x & Hx & H)).

(** *** Packet sizes *)

Lemma connection_request_length (b : t) (pkt : bytes) :
  _create_connection_request b = Returned pkt -> length pkt = 13%nat.
Proof.
  unfold _create_connection_request. intros H. returned H.
  injection H as <-.
  apply pack_unsigned_length in Hx, Hx0, Hx1.
  rewrite !length_app. lia.
Qed.

Lemma connection_request_returns (b : t) :
  0 <= BotConfig.bot_id (config b) < 2 ^ 64 ->
  exists pkt, _create_connection_request b = Returned pkt
              /\ length pkt = 13%nat.
Proof.
  intros Hid.
  assert (exists pkt, _create_connection_request b = Returned pkt) as [pkt H].
  { unfold _create_connection_request, pack_B, pack_I, pack_Q.
    rewrite (pack_unsigned_returns 1 PACKET_CONNECTION_REQUEST) by in_range.
    rewrite (pack_unsigned_returns 4 PROTOCOL_VERSION) by in_range.
    rewrite (pack_unsigned_returns 8 (BotConfig.bot_id _)) by in_range.
    eexists. reflexivity. }
  exists pkt. split; [done|]. by eapply connection_request_length.
Qed.

Lemma input_packet_length (now : Q) (b b' : t) (pkt : bytes) :
  _create_input_packet now b = Returned (pkt, b') -> length pkt = 18%nat.
Proof.
  unfold _create_input_packet. intros H. returned H.
  injection H as <- _.
  apply pack_unsigned_length in Hx0, Hx1, Hx2, Hx3, Hx6.
  apply pack_signed_length in Hx4, Hx5.
  rewrite !length_app. lia.
Qed.

Lemma build_flags_byte (st : gmap string bool) :
  has_all_keys st -> exists flags, build_flags st = Returned flags
                                   /\ 0 <= flags < 256.
Proof.
  intros ([f Hf] & [bk Hbk] & [l Hl] & [r Hr] & [j Hj] & [a Ha] & [k Hk]
          & [s Hs]).
  unfold build_flags, getitem.
  rewrite Hf, Hbk, Hl, Hr, Hj, Ha, Hk, Hs.
  destruct f, bk, l, r, j, a, k, s; eexists; (split; [reflexivity|]);
    vm_compute; split; congruence.
Qed.

Lemma yaw_quantized_i16 (yaw : Q) : -32768 <= yaw_quantized yaw <= 32767.
Proof.
  unfold yaw_quantized.
  pose proof (Z.mod_pos_bound (Py.int (yaw * 10000)) 65536 ltac:(lia)).
  destruct (Z.gtb_spec (Py.int (yaw * 10000) mod 65536) 32767); lia.
Qed.

Lemma timestamp_ms_u32 (now : Q) : 0 <= timestamp_ms now < 2 ^ 32.
Proof.
  unfold timestamp_ms.
  pose proof (Z.mod_pos_bound (Py.int (now * 1000)) 0xFFFFFFFF ltac:(lia)).
  lia.
Qed.

Lemma input_packet_returns (now : Q) (b : t) :
  valid_input_fields b ->
  exists pkt, _create_input_packet now b
              = Returned (pkt, set_sequence (sequence b + 1) b)
              /\ length pkt = 18%nat.
Proof.
  intros (Hkeys & Hseq & Htarget & Hpitch).
  destruct (build_flags_byte _ Hkeys) as (flags & Hflags & Hrange).
  pose proof (yaw_quantized_i16 (yaw b)) as Hyaw.
  pose proof (timestamp_ms_u32 now) as Htime.
  assert (exists pkt, _create_input_packet now b
             = Returned (pkt, set_sequence (sequence b + 1) b)) as [pkt Hpkt].
  { unfold _create_input_packet, pack_B, pack_I, pack_h.
    rewrite Hflags. cbn [mbind outcome_bind].
    rewrite (pack_unsigned_returns 1 PACKET_CLIENT_INPUT) by in_range.
    rewrite (pack_unsigned_returns 4 (sequence b)) by in_range.
    rewrite (pack_unsigned_returns 4 (timestamp_ms now)) by in_range.
    rewrite (pack_unsigned_returns 1 flags) by in_range.
    rewrite (pack_signed_returns 2 (yaw_quantized _)) by in_range.
    rewrite (pack_signed_returns 2 (pitch_quantized _)) by in_range.
    rewrite (pack_unsigned_returns 4 (target_entity b)) by in_range.
    eexists. reflexivity. }
  exists pkt. split; [done|]. by eapply input_packet_length.
Qed.

(** *** Angle quantization *)





(** C1.  The claim gives a ClientInput 20 bytes, as the docstring of
    [_create_input_packet] ("Total: 20 bytes") does.  The format
    ['<B I I B h h I'] packs 1+4+4+1+2+2+4 = 18 bytes: for the bot
    [__init__] builds, at clock 0, the packet is returned and has 18
    bytes, not 20 (the ConnectionRequest of the same bot has its 13). *)
Theorem client_input_packet_has_18_bytes :
  exists pkt b',
    _create_input_packet 0 Sample.bot = Returned (pkt, b')
    /\ length pkt = 18%nat /\ length pkt <> 20%nat
    /\ exists req, _create_connection_request Sample.bot = Returned req
                   /\ length req = 13%nat.
Proof.
  assert (Hvalid : valid_input_fields Sample.bot).
  { repeat split; try (vm_compute; congruence); by vm_compute; eexists. }
  destruct (input_packet_returns 0 _ Hvalid) as (pkt & Hpkt & Hlen).
  exists pkt, (set_sequence (sequence Sample.bot + 1) Sample.bot).
  split; [done|]. split; [done|]. split; [lia|].
  apply connection_request_returns. vm_compute. split; congruence.
Qed.




(** *** Inbound packets *)

Lemma parse_connection_response_short (now : Q) (data : bytes) (b : t) :
  (length data < 18)%nat -> _parse_connection_response now data b = Returned b.
Proof.
  intros H. unfold _parse_connection_response.
  by destruct (Nat.ltb_spec (length data) 18); [|lia].
Qed.

Lemma parse_connection_response_rejected (now : Q) (data : bytes) (b : t)
    (s : byte) :
  data !! 1%nat = Some s -> Z_of_byte s = 0 ->
  _parse_connection_response now data b = Returned b.
Proof.
  intros Hs H0. unfold _parse_connection_response, index, bytes in *.
  rewrite Hs. cbn [mbind outcome_bind]. rewrite H0.
  by destruct (length data <? 18)%nat.
Qed.

Lemma parse_connection_response_accepted (now : Q) (data : bytes) (b : t)
    (s : byte) :
  (18 <= length data)%nat -> data !! 1%nat = Some s -> Z_of_byte s <> 0 ->
  exists b',
    _parse_connection_response now data b = Returned b'
    /\ connected b' = true /\ socket b' = socket b
    /\ connection_id b' = Some (le_value (slice data 2 6))
    /\ entity_id b' = Some (le_value (slice data 6 10))
    /\ server_tick b' = le_value (slice data 10 14)
    /\ server_time b' = le_value (slice data 14 18)
    /\ start_time b' = now
    /\ packets_received b' = packets_received b
    /\ bytes_received b' = bytes_received b.
Proof.
  intros Hlen Hs Hne. unfold _parse_connection_response, index, bytes in *.
  destruct (Nat.ltb_spec (length data) 18); [lia|].
  rewrite Hs. cbn [mbind outcome_bind].
  apply Z.eqb_neq in Hne. rewrite Hne. cbn [negb].
  rewrite (unpack_I_slice data 2 6), (unpack_I_slice data 6 10),
    (unpack_I_slice data 10 14), (unpack_I_slice data 14 18) by lia.
  cbn [mbind outcome_bind mret outcome_ret].
  eexists. split; [reflexivity|]. by repeat split.
Qed.

Lemma parse_connection_response_total (now : Q) (data : bytes) (b : t) :
  exists b', _parse_connection_response now data b = Returned b'.
Proof.
  destruct (Nat.lt_ge_cases (length data) 18) as [Hlt|Hge].
  { exists b. by apply parse_connection_response_short. }
  destruct (index_lt data 1 ltac:(lia)) as (s & Hs & _).
  destruct (Z.eq_dec (Z_of_byte s) 0) as [H0|Hne].
  - exists b. by eapply parse_connection_response_rejected.
  - destruct (parse_connection_response_accepted now data b s)
      as (b' & Hb' & _); eauto.
Qed.

Lemma parse_snapshot_short (data : bytes) (b : t) :
  (length data < 17)%nat -> _parse_snapshot data b = Returned b.
Proof.
  intros H. unfold _parse_snapshot.
  by destruct (Nat.ltb_spec (length data) 17); [|lia].
Qed.

Lemma parse_snapshot_header (data : bytes) (b : t) :
  (17 <= length data)%nat ->
  exists b',
    _parse_snapshot data b = Returned b'
    /\ connection_id b' = connection_id b /\ entity_id b' = entity_id b
    /\ connected b' = connected b /\ socket b' = socket b
    /\ server_tick b' = le_value (slice data 1 5)
    /\ server_time b' = le_value (slice data 9 13)
    /\ last_processed_input b' = le_value (slice data 13 17)
    /\ snapshot_count b' = snapshot_count b + 1.
Proof.
  intros Hlen. unfold _parse_snapshot.
  destruct (Nat.ltb_spec (length data) 17); [lia|].
  rewrite (unpack_I_slice data 1 5), (unpack_I_slice data 5 9),
    (unpack_I_slice data 9 13), (unpack_I_slice data 13 17) by lia.
  cbn [mbind outcome_bind mret outcome_ret].
  eexists. split; [reflexivity|]. by repeat split.
Qed.

Lemma parse_snapshot_total (data : bytes) (b : t) :
  exists b',
    _parse_snapshot data b = Returned b'
    /\ connection_id b' = connection_id b /\ entity_id b' = entity_id b
    /\ connected b' = connected b /\ socket b' = socket b.
Proof.
  destruct (Nat.lt_ge_cases (length data) 17) as [Hlt|Hge].
  - exists b. by rewrite parse_snapshot_short.
  - destruct (parse_snapshot_header data b Hge) as (b' & ? & ? & ? & ? & ? & _).
    by exists b'.
Qed.

Lemma process_packet_total (data : bytes) (b : t) :
  exists b',
    _process_packet data b = Returned b'
    /\ connection_id b' = connection_id b /\ entity_id b' = entity_id b
    /\ connected b' = connected b /\ socket b' = socket b.
Proof.
  unfold _process_packet.
  destruct (Nat.ltb_spec (length data) 1); [by exists b|].
  destruct (index_lt data 0 ltac:(lia)) as (ty & _ & ->).
  cbn [mbind outcome_bind].
  repeat case_match; try apply parse_snapshot_total;
    by eexists; (split; [reflexivity|]).
Qed.

Lemma not_raises_returned {A} (m : outcome A) (x : A) :
  m = Returned x -> ~ raises m.
Proof. intros -> [e He]. discriminate. Qed.

(** C3, as stated, fails: handed an empty buffer, neither decoder
    signals an error of any kind.  Each returns normally with the bot as
    it was, which is also what [_parse_connection_response] does with a
    well-formed 18-byte response that refuses the connection. *)
Lemma short_buffer_counterexample :
  (~ raises (_parse_connection_response 0 [] Sample.bot)
   /\ ~ raises (_parse_snapshot [] Sample.bot))
  /\ _parse_connection_response 0 [] Sample.bot = Returned Sample.bot
  /\ _parse_connection_response 0 (Sample.response 0) Sample.bot
     = Returned Sample.bot
  /\ _parse_snapshot [] Sample.bot = Returned Sample.bot.
Proof.
  assert (H1 : _parse_connection_response 0 [] Sample.bot
               = Returned Sample.bot)
    by (apply parse_connection_response_short; simpl; lia).
  assert (H2 : _parse_snapshot [] Sample.bot = Returned Sample.bot)
    by (apply parse_snapshot_short; simpl; lia).
  split; [split; by eapply not_raises_returned|].
  split; [done|]. split; [|done].
  by apply (parse_connection_response_rejected _ _ _ "000"%byte).
Qed.

(** C3 (amended).  For every inbound byte sequence shorter than the
    minimum header size of its packet type (18 bytes for
    ConnectionResponse, 17 for ServerSnapshot) decoding returns normally
    and leaves the bot as it was, without producing an error value; and for
    every byte sequence whatever, no decoder raises (no index or slice is
    out of bounds). *)
Theorem short_buffer_dropped (now : Q) (data : bytes) (b : t) :
  ((length data < 18)%nat -> _parse_connection_response now data b = Returned b)
  /\ ((length data < 17)%nat -> _parse_snapshot data b = Returned b)
  /\ ~ raises (_parse_connection_response now data b)
  /\ ~ raises (_parse_snapshot data b)
  /\ ~ raises (_process_packet data b).
Proof.
  split; [apply parse_connection_response_short|].
  split; [apply parse_snapshot_short|].
  destruct (parse_connection_response_total now data b) as [b1 H1].
  destruct (parse_snapshot_total data b) as (b2 & H2 & _).
  destruct (process_packet_total data b) as (b3 & H3 & _).
  repeat split; by eapply not_raises_returned.
Qed.

Lemma short_buffer_dropped_witness :
  ((length Sample.snapshot < 18)%nat /\ (length (@nil byte) < 17)%nat)
  /\ _parse_connection_response 0 Sample.snapshot Sample.bot
     = Returned Sample.bot
  /\ _parse_snapshot [] Sample.bot = Returned Sample.bot.
Proof.
  assert (H18 : (length Sample.snapshot < 18)%nat) by (simpl; lia).
  assert (H17 : (length (@nil byte) < 17)%nat) by (simpl; lia).
  split; [by split|]. split.
  - exact (proj1 (short_buffer_dropped 0 Sample.snapshot Sample.bot) H18).
  - exact (proj1 (proj2 (short_buffer_dropped 0 [] Sample.bot)) H17).
Defined.

(** *** Statistics *)

Lemma elapsed_floor (now : Q) (b : t) : (1 # 1000 <= elapsed now b)%Q.
Proof.
  unfold elapsed, max2, ltb.
  destruct (truthy (start_time b)); [|lra].
  destruct (Qle_bool (1 # 1000) (now - start_time b)) eqn:H; cbn [negb];
    [by apply Qle_bool_iff | lra].
Qed.

Lemma truediv_returns (a d : Q) :
  (0 < d)%Q -> truediv a d = Returned (a / d)%Q.
Proof.
  intros Hd. unfold truediv.
  destruct (Qeq_bool d 0) eqn:H; [|done].
  apply Qeq_bool_iff in H. lra.
Qed.

(** C10.  For every bot and every clock reading, the denominator of the
    rates of [get_stats] is at least 0.001 s, also when [start_time] was
    never set, and [get_stats] returns its dictionary, no division raising;
    each rate is the counter over that denominator. *)
Theorem get_stats_never_divides_by_zero (now : Q) (b : t) :
  (1 # 1000 <= elapsed now b)%Q
  /\ exists s,
       get_stats now b = Returned s
       /\ Stats.duration_seconds s = elapsed now b
       /\ Stats.packets_sent_per_sec s
          = (inject_Z (packets_sent b) / elapsed now b)%Q
       /\ Stats.packets_received_per_sec s
          = (inject_Z (packets_received b) / elapsed now b)%Q
       /\ Stats.bytes_sent_per_sec s
          = (inject_Z (bytes_sent b) / elapsed now b)%Q
       /\ Stats.bytes_received_per_sec s
          = (inject_Z (bytes_received b) / elapsed now b)%Q
       /\ Stats.snapshots_per_sec s
          = (inject_Z (snapshot_count b) / elapsed now b)%Q.
Proof.
  pose proof (elapsed_floor now b) as He.
  split; [done|].
  assert (Hpos : (0 < elapsed now b)%Q) by lra.
  unfold get_stats. rewrite !truediv_returns by done.
  cbn [mbind outcome_bind mret outcome_ret].
  eexists. split; [reflexivity|]. by repeat split.
Qed.

(** *** The handshake *)

Lemma wait_when_connected (inbox : list recv_event) (b : t) :
  connected b = true -> _wait_for_connection inbox b = (b, WaitReturned).
Proof. intros H. destruct inbox; simpl; by rewrite H. Qed.

Lemma accepts_iff (now : Q) (data : bytes) :
  Design.accepts (Datagram now data) = true <->
  exists ty s, data !! 0%nat = Some ty /\ data !! 1%nat = Some s
               /\ Z_of_byte ty = PACKET_CONNECTION_RESPONSE
               /\ (18 <= length data)%nat /\ Z_of_byte s <> 0.
Proof.
  unfold Design.accepts. split.
  - destruct (data !! 0%nat) as [ty|]; [|done].
    destruct (data !! 1%nat) as [s|]; [|done].
    rewrite !andb_true_iff, negb_true_iff, Z.eqb_eq, Z.eqb_neq, Nat.leb_le.
    intros [[? ?] ?]. by exists ty, s.
  - intros (ty & s & -> & -> & Hty & Hlen & Hs).
    rewrite !andb_true_iff, negb_true_iff, Z.eqb_eq, Z.eqb_neq, Nat.leb_le.
    done.
Qed.

(** One received datagram during the wait: the bot becomes connected
    exactly when the datagram is an acceptance. *)
Lemma wait_step (now : Q) (data : bytes) (ty : byte) (b : t) :
  connected b = false -> data !! 0%nat = Some ty ->
  exists b',
    (if Z_of_byte ty =? PACKET_CONNECTION_RESPONSE
     then _parse_connection_response now data b else Returned b)
    = Returned b'
    /\ connected b' = Design.accepts (Datagram now data)
    /\ socket b' = socket b.
Proof.
  intros Hc Hty.
  destruct (Design.accepts (Datagram now data)) eqn:Hacc.
  - apply accepts_iff in Hacc as (ty' & s & Hty' & Hs & Htype & Hlen & Hne).
    assert (ty' = ty) as -> by (unfold bytes in *; congruence).
    apply Z.eqb_eq in Htype. rewrite Htype.
    destruct (parse_connection_response_accepted now data b s Hlen Hs Hne)
      as (b' & Hb' & Hcon & Hsock & _).
    by exists b'.
  - exists b. split; [|done].
    destruct (Z.eqb_spec (Z_of_byte ty) PACKET_CONNECTION_RESPONSE) as [Htype|];
      [|done].
    destruct (Nat.lt_ge_cases (length data) 18) as [Hlt|Hge];
      [by apply parse_connection_response_short|].
    destruct (index_lt data 1 ltac:(lia)) as (s & Hs & _).
    destruct (Z.eq_dec (Z_of_byte s) 0) as [H0|Hne];
      [by eapply parse_connection_response_rejected|].
    assert (Design.accepts (Datagram now data) = true); [|congruence].
    apply accepts_iff. by exists ty, s.
Qed.

Lemma wait_for_connection_accepted (inbox : list recv_event) (b : t) :
  connected b = false -> is_Some (socket b) ->
  exists b' res,
    _wait_for_connection inbox b = (b', res)
    /\ connected b' = Design.accepted inbox
    /\ (res = WaitReturned <-> Design.accepted inbox = true).
Proof.
  revert b. induction inbox as [|ev inbox IH]; intros b Hc [sock Hsock].
  { exists b, WaitTimeout. simpl. rewrite Hc, Hsock. by repeat split. }
  destruct ev as [now data| |].
  - cbn [_wait_for_connection]. rewrite Hc, Hsock.
    destruct data as [|ty data'] eqn:Hdata.
    { cbn [length Nat.leb]. apply IH; eauto. }
    rewrite <- Hdata. replace (1 <=? length data)%nat with true
      by (subst data; done).
    assert (Hty : data !! 0%nat = Some ty) by (by subst data).
    unfold index, bytes in *. rewrite Hty. cbn [mbind outcome_bind].
    destruct (wait_step now data ty b Hc Hty) as (b1 & -> & Hc1 & Hs1).
    change (Design.accepted (Datagram now data :: inbox))
      with (Design.accepts (Datagram now data) || Design.accepted inbox).
    destruct (Design.accepts (Datagram now data)).
    + rewrite wait_when_connected by done.
      eexists _, _. split; [reflexivity|]. by repeat split.
    + cbn [orb]. apply IH; [done|]. cbn. rewrite Hs1, Hsock. eauto.
  - cbn [_wait_for_connection]. rewrite Hc, Hsock. apply IH; eauto.
  - exists b, (WaitRaised OSError). simpl. rewrite Hc, Hsock. by repeat split.
Qed.

(** C4, as stated, fails.  A ConnectionResponse whose success byte is 2,
    not 1, connects the bot.  And one whose success byte is 0 is not
    answered by a rejection: the wait goes on until the deadline, and
    [connect] reports a timeout. *)
Lemma connect_success_byte_counterexample :
  (let '(b', ok, _) :=
     connect (Sample.net_answering (Sample.response 2)) Sample.bot in
   Z_of_byte <$> Sample.response 2 !! 1%nat = Some 2
   /\ ok = true /\ connected b' = true)
  /\ (let '(_, _, report) :=
        connect (Sample.net_answering (Sample.response 0)) Sample.bot in
      report = ReportTimeout).
Proof. by vm_compute. Qed.

(** C4 (amended).  [connect], once the socket is open and the request
    sent, transitions the bot to Connected and returns [True] if and only
    if, before the deadline and before any socket error, it receives a
    ConnectionResponse of at least 18 bytes whose success byte is non-zero
    (not only 1); otherwise the bot stays Disconnected and [connect]
    returns [False].  A response whose success byte is 0 is not an
    acceptance and leaves the bot as it was. *)
Theorem connect_iff_accepted (env : ConnectEnv) (b : t) :
  connected b = false -> open_ok env = true -> send_ok env = true ->
  0 <= BotConfig.bot_id (config b) < 2 ^ 64 ->
  (exists b' report,
     connect env b = (b', Design.accepted (inbox env), report)
     /\ connected b' = Design.accepted (inbox env))
  /\ (forall now data s,
        data !! 1%nat = Some s -> Z_of_byte s = 0 ->
        Design.accepts (Datagram now data) = false
        /\ _parse_connection_response now data b = Returned b).
Proof.
  intros Hc Hopen Hsend Hid. split.
  - unfold connect. rewrite Hopen, Hsend. cbn [negb].
    set (b0 := set_socket _ b).
    destruct (connection_request_returns b0 Hid) as (pkt & -> & _).
    cbn [_send_packet socket b0 set_socket].
    match goal with |- context [_wait_for_connection _ ?b1] =>
      destruct (wait_for_connection_accepted (inbox env) b1)
        as (b' & res & -> & Hcon & Hres); [done | by eexists |] end.
    destruct res as [| |e].
    + assert (Hacc : Design.accepted (inbox env) = true) by (by apply Hres).
      rewrite Hacc in *. rewrite Hcon. by eexists _, _.
    + destruct (Design.accepted (inbox env)); [|by eexists _, _].
      destruct Hres as [_ Hres]. by specialize (Hres eq_refl).
    + destruct (Design.accepted (inbox env)); [|by eexists _, _].
      destruct Hres as [_ Hres]. by specialize (Hres eq_refl).
  - intros now data s Hs H0. split.
    + destruct (Design.accepts (Datagram now data)) eqn:Hacc; [|done].
      apply accepts_iff in Hacc as (? & s' & _ & Hs' & _ & _ & ?).
      unfold bytes in *. congruence.
    + by eapply parse_connection_response_rejected.
Qed.

Lemma connect_iff_accepted_witness :
  (connected Sample.bot = false
   /\ open_ok (Sample.net_answering (Sample.response 1)) = true
   /\ send_ok (Sample.net_answering (Sample.response 1)) = true
   /\ 0 <= BotConfig.bot_id (config Sample.bot) < 2 ^ 64)
  /\ exists b' report,
       connect (Sample.net_answering (Sample.response 1)) Sample.bot
       = (b', true, report)
       /\ connected b' = true.
Proof.
  assert (Hid : 0 <= BotConfig.bot_id (config Sample.bot) < 2 ^ 64)
    by (simpl; lia).
  split; [by repeat split|].
  exact (proj1 (connect_iff_accepted
                  (Sample.net_answering (Sample.response 1)) Sample.bot
                  eq_refl eq_refl eq_refl Hid)).
Defined.

(** *** What the run phase leaves alone *)

Lemma same_identity_refl (b : t) : Design.same_identity b b.
Proof. by split. Qed.

Lemma same_identity_trans (b1 b2 b3 : t) :
  Design.same_identity b1 b2 -> Design.same_identity b2 b3 ->
  Design.same_identity b1 b3.
Proof. intros [? ?] [? ?]. split; congruence. Qed.

Lemma update_movement_identity (elapsed : Q) (r : Rng) (b : t) :
  Design.same_identity b (_update_movement elapsed r b).1.
Proof.
  unfold _update_movement, _update_random_movement, _update_circle_movement,
    _update_linear_movement, uniform, random.
  repeat case_match; simplify_eq/=; by split.
Qed.

Lemma create_input_packet_identity (now : Q) (b b' : t) (pkt : bytes) :
  _create_input_packet now b = Returned (pkt, b') -> Design.same_identity b b'.
Proof.
  unfold _create_input_packet. intros H. returned H.
  injection H as _ <-. by split.
Qed.

Lemma send_packet_identity (ok : bool) (data : bytes) (b b' : t) :
  _send_packet ok data b = Returned b' -> Design.same_identity b b'.
Proof.
  unfold _send_packet. repeat case_match; try done.
  intros [= <-]. by split.
Qed.

Lemma disconnect_identity (b : t) : Design.same_identity b (disconnect b).
Proof. unfold disconnect. by destruct (socket b). Qed.

Lemma process_packet_identity (data : bytes) (b b' : t) :
  _process_packet data b = Returned b' -> Design.same_identity b b'.
Proof.
  destruct (process_packet_total data b) as (b1 & -> & ? & ? & _).
  by intros [= <-].
Qed.

Lemma run_loop_identity (duration start last interval : Q) (receiving : bool)
    (sched : list run_event) (r : Rng) (clock : Q) (b : t) :
  Design.same_identity b
    (run_loop duration start last interval receiving sched r clock b).1.1.1.
Proof.
  revert last receiving r clock b.
  induction sched as [|ev sched IH]; intros last receiving r clock b;
    [apply same_identity_refl|].
  destruct ev as [now ok|data|]; cbn [run_loop].
  - destruct (ltb (now - start) duration); [|apply same_identity_refl].
    pose proof (update_movement_identity (now - start) r b) as Hmove.
    destruct (_update_movement (now - start) r b) as [b1 r1].
    cbn [fst] in Hmove.
    destruct (Qle_bool interval (now - last)).
    + destruct (_create_input_packet now b1) as [[pkt b2]|e] eqn:Hpkt;
        [|done].
      apply create_input_packet_identity in Hpkt.
      destruct (_send_packet ok pkt b2) as [b3|e] eqn:Hsend.
      * apply send_packet_identity in Hsend.
        eauto using same_identity_trans.
      * eauto using same_identity_trans.
    + eauto using same_identity_trans.
  - destruct receiving; [|apply IH].
    destruct data as [|x data]; [apply IH|].
    match goal with |- context [_process_packet ?d ?b0] =>
      destruct (process_packet_total d b0) as (b1 & -> & Hc & He & _) end.
    eapply same_identity_trans; [|apply IH]. by split.
  - apply IH.
Qed.

Lemma run_identity (duration now : Q) (sched : list run_event) (r : Rng)
    (b : t) :
  Design.same_identity b (run duration now sched r b).1.1.
Proof.
  unfold run. destruct (connected b); cbn [negb]; [|apply same_identity_refl].
  destruct (truediv 1 (BotConfig.update_rate (config b))) as [interval|e];
    [|apply same_identity_refl].
  pose proof (run_loop_identity duration now now interval true sched r now b)
    as H.
  destruct (run_loop _ _ _ _ _ _ _ _ _) as [[[b' r'] clock] [e|]]; exact H.
Qed.

(** C5, as stated, fails: after the response of [Sample.response] has
    set server tick 1 and server time 5, processing the snapshot of
    [Sample.snapshot] leaves the bot with server tick 2 and server time
    6. *)
Lemma snapshot_overwrites_tick_counterexample :
  match _parse_connection_response 0 (Sample.response 1) Sample.bot with
  | Returned b1 =>
      match _process_packet Sample.snapshot b1 with
      | Returned b2 =>
          (server_tick b1 = 1 /\ server_time b1 = 5)
          /\ (server_tick b2 = 2 /\ server_time b2 = 6)
          /\ server_tick b2 <> server_tick b1
      | Raised _ => False
      end
  | Raised _ => False
  end.
Proof. by vm_compute. Qed.

(** C5 (amended).  After a successful connection response has assigned
    the session identity, no operation of the run phase ([run] with its
    send loop and receive task under any schedule, processing any received
    packet, [disconnect]) modifies connectionID or entityID; serverTick and
    serverTimeMs are not fixed: processing a ServerSnapshot of at least
    17 bytes overwrites them with the values of its header. *)
Theorem identity_fixed_tick_follows_snapshots
    (duration now : Q) (sched : list run_event) (r : Rng) (data : bytes)
    (b : t) :
  Design.same_identity b (run duration now sched r b).1.1
  /\ (exists b', _process_packet data b = Returned b'
                 /\ Design.same_identity b b')
  /\ Design.same_identity b (disconnect b)
  /\ ((17 <= length data)%nat ->
      Z_of_byte <$> data !! 0%nat = Some PACKET_SERVER_SNAPSHOT ->
      exists b', _process_packet data b = Returned b'
                 /\ server_tick b' = le_value (slice data 1 5)
                 /\ server_time b' = le_value (slice data 9 13)).
Proof.
  split; [apply run_identity|].
  split.
  { destruct (process_packet_total data b) as (b' & H & ? & ? & _).
    exists b'. by repeat split. }
  split; [apply disconnect_identity|].
  intros Hlen Hty. unfold _process_packet, index, bytes in *.
  destruct (Nat.ltb_spec (length data) 1); [lia|].
  destruct (data !! 0%nat) as [ty|]; [|done].
  injection Hty as Hty. cbn [mbind outcome_bind]. rewrite Hty. cbn.
  destruct (parse_snapshot_header data b Hlen)
    as (b' & H' & _ & _ & _ & _ & Htick & Htime & _).
  by exists b'.
Qed.

Lemma identity_fixed_tick_follows_snapshots_witness :
  ((17 <= length Sample.snapshot)%nat
   /\ Z_of_byte <$> Sample.snapshot !! 0%nat = Some PACKET_SERVER_SNAPSHOT)
  /\ exists b', _process_packet Sample.snapshot Sample.bot = Returned b'
                /\ server_tick b' = le_value (slice Sample.snapshot 1 5)
                /\ server_time b' = le_value (slice Sample.snapshot 9 13).
Proof.
  assert (Hlen : (17 <= length Sample.snapshot)%nat) by (simpl; lia).
  assert (Hty : Z_of_byte <$> Sample.snapshot !! 0%nat
                = Some PACKET_SERVER_SNAPSHOT) by reflexivity.
  split; [by split|].
  exact (proj2 (proj2 (proj2
           (identity_fixed_tick_follows_snapshots 0 0 []
              {| rng_samples := fun _ => 0%Q; rng_next := 0 |}
              Sample.snapshot Sample.bot))) Hlen Hty).
Defined.

End GameBotFacts.

(** ** The swarm *)

Module BotSwarmFacts.

Import BotSwarm.

Lemma invocations_app (c : call) (l k : list call) :
  invocations c (l ++ k) = (invocations c l + invocations c k)%nat.
Proof. unfold invocations. by rewrite filter_app, length_app. Qed.

Lemma invocations_other (c : call) (f : nat -> call) (l : list nat) :
  (forall i, f i <> c) -> invocations c (f <$> l) = 0%nat.
Proof.
  intros Hf. unfold invocations. induction l as [|i l IH]; [done|].
  rewrite fmap_cons, filter_cons_False; [done | apply Hf].
Qed.

Lemma invocations_disconnect_seq (i n : nat) :
  invocations (CallDisconnect i) (CallDisconnect <$> seq 0 n)
  = if decide (i < n)%nat then 1%nat else 0%nat.
Proof.
  induction n as [|n IH]; [done|].
  rewrite seq_S, fmap_app, invocations_app, IH. cbn [fmap list_fmap Nat.add].
  unfold invocations at 1.
  destruct (decide (n = i)) as [->|Hne].
  - rewrite filter_cons_True by done.
    repeat case_decide; simpl; lia.
  - rewrite filter_cons_False by congruence.
    repeat case_decide; simpl; lia.
Qed.

(** The path of [run] that reaches the run phase tears every bot down:
    [disconnect] is called once on each, whatever the run of each bot
    returned or raised, and leaves it without socket and disconnected. *)
Lemma teardown_after_run_phase (env : nat -> BotEnv) (self : t) :
  ran (run env self) = true ->
  forall i bot, bots (swarm (run env self)) !! i = Some bot ->
    invocations (CallDisconnect i) (calls (run env self)) = 1%nat
    /\ GameBot.socket bot = None /\ GameBot.connected bot = false.
Proof.
  unfold run. cbn zeta.
  destruct (filter _ _) as [|c cs]; [done|].
  cbn [ran calls swarm bots with_bots].
  intros _ i bot Hi.
  rewrite !invocations_app, !(invocations_other _ CallConnect),
    !(invocations_other _ CallRun) by done.
  rewrite invocations_disconnect_seq.
  rewrite list_lookup_fmap in Hi.
  destruct (_ !! i) as [bot0|] eqn:Hbot0; [|done].
  injection Hi as <-.
  apply lookup_lt_Some in Hbot0. rewrite length_fmap in Hbot0.
  case_decide; [|done].
  split; [done|]. unfold GameBot.disconnect.
  by destruct (GameBot.socket bot0) eqn:Hsock.
Qed.

(** The early return of [run] makes no [disconnect] call at all. *)
Lemma no_teardown_on_early_return (env : nat -> BotEnv) (self : t) (i : nat) :
  ran (run env self) = false ->
  invocations (CallDisconnect i) (calls (run env self)) = 0%nat.
Proof.
  unfold run. cbn zeta.
  destruct (filter _ _) as [|c cs]; [|done]. cbn [ran calls].
  intros _. by apply invocations_other.
Qed.

(** C6.  The claim wants [disconnect] called once on every bot on every
    exit path of [run], the one where no bot connects included.  On that
    path [run] returns early, before the teardown loop the other path
    runs: for a swarm of one bot that gets no answer from the server the
    calls made are the [connect] alone, [disconnect] is called zero times,
    and the socket [connect] opened stays open. *)
Theorem teardown_skipped_when_no_bot_connects :
  let res := run Sample.env_silent (Sample.swarm 1) in
  ran res = false /\ returned res = []
  /\ calls res = [CallConnect 0]
  /\ invocations (CallDisconnect 0) (calls res) = 0%nat
  /\ GameBot.socket <$> bots (swarm res)
     = [Some (GameBot.UdpSocket "127.0.0.1" 7777)].
Proof. by vm_compute. Qed.

(** The run phase is reached exactly when some bot connected. *)
Lemma ran_iff_some_connected (env : nat -> BotEnv) (self : t) :
  ran (run env self) = true <->
  exists i bot, create_bots env self !! i = Some bot
                /\ (GameBot.connect (connect_env (env i)) bot).1.2 = true.
Proof.
  unfold run. cbn zeta. cbn [bots with_bots].
  set (results := imap _ (create_bots env self)).
  assert (Hin : forall p, p ∈ results <->
            exists i bot, create_bots env self !! i = Some bot
              /\ p = ((GameBot.connect (connect_env (env i)) bot).1.1,
                      (GameBot.connect (connect_env (env i)) bot).1.2)).
  { intros p. unfold results. rewrite elem_of_lookup_imap.
    split; intros (i & bot & H1 & H2); exists i, bot.
    - split; [done|]. subst p.
      by destruct (GameBot.connect _ bot) as [[? ?] ?].
    - split; [|done]. subst p.
      by destruct (GameBot.connect _ bot) as [[? ?] ?]. }
  destruct (filter _ results) as [|c cs] eqn:Hf; cbn [ran]; split.
  - done.
  - intros (i & bot & Hbot & Hok). exfalso.
    eapply (filter_nil_not_elem_of _ results); [exact Hf| |].
    2:{ apply Hin. by exists i, bot. }
    done.
  - intros _. assert (Hc : c ∈ filter (fun p => p.2 = true) results)
      by (rewrite Hf; left).
    apply list_elem_of_filter in Hc as [Hok Hc].
    apply Hin in Hc as (i & bot & Hbot & ->). by exists i, bot.
  - done.
Qed.

End BotSwarmFacts.

(** ** The connection phase of the 1000-connection test *)

Module StressTestFacts.

Import StressTest.

Section Run.

Variable connect : nat -> outcome bool.
Variable run_and_verify : list nat -> bool.

Lemma successes_app (l k : list (outcome bool)) :
  successes (l ++ k) = successes l + successes k.
Proof. unfold successes. rewrite filter_app, length_app. lia. Qed.

Lemma count_results (results : list (outcome bool)) (connected : Z) :
  foldl (fun connected result =>
           match result with
           | Returned true => connected + 1
           | _ => connected
           end) connected results
  = connected + successes results.
Proof.
  revert connected. induction results as [|r rs IH]; intros connected.
  { unfold successes. simpl. lia. }
  cbn [foldl]. rewrite IH. change (r :: rs) with ([r] ++ rs).
  rewrite successes_app. unfold successes at 2.
  destruct r as [[|]|e]; simpl; lia.
Qed.

Lemma batches_cover (clients : list nat) (m : nat) (connected : Z) :
  foldl (fun connected i =>
           let batch := take batch_size (drop i clients) in
           let results := connect <$> batch in
           foldl (fun connected result =>
                    match result with
                    | Returned true => connected + 1
                    | _ => connected
                    end) connected results)
        connected ((fun k => k * batch_size)%nat <$> seq 0 m)
  = connected + successes (connect <$> take (m * batch_size) clients).
Proof.
  induction m as [|m IH].
  { simpl. unfold successes. simpl. lia. }
  rewrite seq_S, fmap_app, foldl_app, IH. cbn [fmap list_fmap foldl Nat.add].
  rewrite count_results.
  replace (S m * batch_size)%nat with (m * batch_size + batch_size)%nat by lia.
  rewrite <- take_take_drop, fmap_app, successes_app. lia.
Qed.

(** The batched loop counts every client once. *)
Lemma connect_in_batches_counts (clients : list nat) :
  connect_in_batches connect clients = successes (connect <$> clients).
Proof.
  unfold connect_in_batches, batch_starts. rewrite batches_cover.
  rewrite take_ge; [lia|].
  unfold batch_size.
  pose proof (Nat.div_mod_eq (length clients + 100 - 1) 100).
  pose proof (Nat.mod_upper_bound (length clients + 100 - 1) 100).
  lia.
Qed.

(** The comparison of [run] against 95% is the integer one. *)
Lemma below_95_percent (connected n : Z) :
  ltb (inject_Z connected) (inject_Z n * (95 # 100)) = false
  <-> 95 * n <= 100 * connected.
Proof.
  unfold ltb. rewrite negb_false_iff, Qle_bool_iff.
  unfold Qle. cbn. lia.
Qed.

Lemma run_reaches_run_phase_iff (self : t) :
  clients self = [] ->
  (run connect run_and_verify self).1 = true
  <-> 95 * num_connections self
      <= 100 * successes (connect <$> seq 0 (Z.to_nat (num_connections self))).
Proof.
  intros Hfresh. unfold run. rewrite Hfresh, app_nil_l.
  rewrite connect_in_batches_counts, <- below_95_percent.
  by destruct (ltb _ _).
Qed.

Lemma run_refusal_returns_false (self : t) :
  (run connect run_and_verify self).1 = false ->
  (run connect run_and_verify self).2 = false.
Proof. unfold run. by destruct (ltb _ _). Qed.

End Run.

(** C7, as stated, fails: neither orchestrator has a configured
    threshold.  With 50 clients of which 44 connect, 88% reaches an 80%
    threshold, yet [StressTest.run] refuses to run (it wants 95%); and 88%
    is below a 90% threshold, yet [BotSwarm.run] runs (it wants one
    bot). *)
Lemma acceptance_threshold_counterexample :
  (Design.viable (80 # 100) 50 44
   /\ (run (Sample.connect_first 44) (fun _ => true)
         (Sample.stress_test 50)).1 = false)
  /\ (~ Design.viable (90 # 100) 50 44
      /\ length (BotSwarm.returned
                   (BotSwarm.run (Sample.env_first 44) (Sample.swarm 50)))
         = 44%nat
      /\ BotSwarm.ran (BotSwarm.run (Sample.env_first 44) (Sample.swarm 50))
         = true).
Proof.
  split.
  - split; [|by vm_compute]. unfold Design.viable.
    apply Qle_bool_iff. by vm_compute.
  - split; [|by vm_compute]. unfold Design.viable.
    intros H%Qle_bool_iff. by vm_compute in H.
Qed.

(** C7 (amended).  The acceptance threshold is fixed by each
    orchestrator, not configured.  [BotSwarm.run] proceeds to the run phase
    if and only if at least one bot connected.  [StressTest.run] proceeds
    if and only if the clients whose [connect] returned [True] are at
    least 95% of the configured connections, and otherwise returns [False]
    without running.  With 50 bots of which exactly 44 connect (88%),
    [BotSwarm.run] proceeds and [StressTest.run] does not. *)
Theorem acceptance_is_fixed_per_orchestrator
    (env : nat -> BotSwarm.BotEnv) (swarm : BotSwarm.t)
    (connect : nat -> outcome bool) (run_and_verify : list nat -> bool)
    (test : t) :
  clients test = [] ->
  (BotSwarm.ran (BotSwarm.run env swarm) = true <->
   exists i bot,
     BotSwarm.create_bots env swarm !! i = Some bot
     /\ (GameBot.connect (BotSwarm.connect_env (env i)) bot).1.2 = true)
  /\ ((run connect run_and_verify test).1 = true <->
      95 * num_connections test
      <= 100 * successes
                 (connect <$> seq 0 (Z.to_nat (num_connections test))))
  /\ ((run connect run_and_verify test).1 = false ->
      (run connect run_and_verify test).2 = false)
  /\ BotSwarm.ran (BotSwarm.run (Sample.env_first 44) (Sample.swarm 50))
     = true
  /\ run (Sample.connect_first 44) (fun _ => true) (Sample.stress_test 50)
     = (false, false).
Proof.
  intros Hfresh.
  split; [apply BotSwarmFacts.ran_iff_some_connected|].
  split; [by apply run_reaches_run_phase_iff|].
  split; [apply run_refusal_returns_false|].
  split; by vm_compute.
Qed.

Lemma acceptance_is_fixed_per_orchestrator_witness :
  clients (Sample.stress_test 20) = []
  /\ (run (Sample.connect_first 19) (fun _ => true)
        (Sample.stress_test 20)).1 = true.
Proof.
  split; [reflexivity|].
  apply (proj1 (proj2 (acceptance_is_fixed_per_orchestrator
                         Sample.env_silent (Sample.swarm 1)
                         (Sample.connect_first 19) (fun _ => true)
                         (Sample.stress_test 20) eq_refl))).
  vm_compute. congruence.
Defined.

End StressTestFacts.

(** ** Percentiles *)

Module EnhancedFacts.

Import Enhanced.

Lemma truncated_scaled_index (n p : Z) :
  0 <= n -> 0 <= p -> Py.int (inject_Z (n * p) / 100) = n * p / 100.
Proof.
  intros Hn Hp. rewrite PyFacts.int_floor_nonneg.
  - symmetry. apply (Zdiv_Qdiv (n * p) 100).
  - apply Qle_shift_div_l; [reflexivity|].
    rewrite Qmult_0_l. change 0%Q with (inject_Z 0).
    rewrite <- Zle_Qle. nia.
Qed.

Lemma floor_scaled_index (n : Z) (p : Z) :
  Qfloor (inject_Z n * (p # 100)) = n * p / 100.
Proof. unfold Qfloor, Qmult, inject_Z. cbn. by rewrite Z.mul_comm. Qed.

Section Percentile.

Context {A : Type} (R : relation A) `{!forall x y, Decision (R x y)}.
Context `{!PartialOrder R} `{!Total R}.
Variable zero : A.

Lemma getitem_in_range (l : list A) (j : Z) :
  0 <= j < Z.of_nat (length l) ->
  exists x, l !! Z.to_nat j = Some x /\ getitem l j = Returned x.
Proof.
  intros Hj. unfold getitem.
  destruct (Z.ltb_spec j 0); [lia|].
  destruct (Z.leb_spec 0 j); [|lia].
  destruct (Z.ltb_spec j (Z.of_nat (length l))); [|lia]. cbn [andb].
  destruct (l !! Z.to_nat j) as [x|] eqn:Hx; [by exists x|].
  apply lookup_ge_None in Hx. lia.
Qed.

(** [sorted(data)] is the ascending arrangement of [data]. *)
Lemma sorted_unique (data s : list A) :
  Sorted R s -> s ≡ₚ data -> sorted R data = s.
Proof.
  intros Hs Hperm. unfold sorted.
  apply (Sorted_unique R); [apply Sorted_merge_sort; apply _ | done |].
  by rewrite merge_sort_Permutation.
Qed.

Lemma percentile_is_rank (data s : list A) (p : Z) :
  data <> [] -> 0 <= p <= 100 -> Sorted R s -> s ≡ₚ data ->
  exists x, s !! Design.rank (length data) (p # 100) = Some x
            /\ _percentile R zero data p = Returned x.
Proof.
  intros Hne Hp Hs Hperm. unfold _percentile.
  destruct data as [|d data']; [done|].
  set (data := d :: data') in *.
  rewrite (sorted_unique data s Hs Hperm).
  assert (Hlen : length s = length data) by (by rewrite Hperm).
  rewrite Hlen.
  rewrite truncated_scaled_index by lia.
  unfold Design.rank. rewrite floor_scaled_index.
  apply getitem_in_range. rewrite Hlen.
  assert (0 < Z.of_nat (length data)) by (subst data; simpl; lia).
  assert (0 <= Z.of_nat (length data) * p / 100) by (apply Z.div_pos; lia).
  lia.
Qed.

End Percentile.

(** C8.  For every non-empty list of samples and every ascending
    arrangement [s] of it, [_percentile] with 95 (with 99) returns the
    element of [s] at index [floor(n * 0.95)] ([floor(n * 0.99)]) clamped
    to the last index; for the ten values 10, 20, ..., 100 that index is 9
    and the p95 is 100. *)
Theorem percentile_nearest_rank {A : Type} (R : relation A)
    `{!forall x y, Decision (R x y)} `{!PartialOrder R} `{!Total R}
    (zero : A) (data s : list A) :
  data <> [] -> Sorted R s -> s ≡ₚ data ->
  (exists x, s !! Design.rank (length data) (95 # 100) = Some x
             /\ _percentile R zero data 95 = Returned x)
  /\ (exists x, s !! Design.rank (length data) (99 # 100) = Some x
                /\ _percentile R zero data 99 = Returned x)
  /\ Design.rank 10 (95 # 100) = 9%nat
  /\ _percentile Z.le 0 [10; 20; 30; 40; 50; 60; 70; 80; 90; 100] 95
     = Returned 100.
Proof.
  intros Hne Hs Hperm.
  split; [by apply percentile_is_rank|].
  split; [by apply percentile_is_rank|].
  split; by vm_compute.
Qed.

Lemma percentile_nearest_rank_witness :
  exists x,
    [10; 20; 30; 40; 50; 60; 70; 80; 90; 100]
      !! Design.rank (length [30; 10; 20; 100; 90; 80; 70; 60; 50; 40])
           (95 # 100) = Some x
    /\ _percentile Z.le 0 [30; 10; 20; 100; 90; 80; 70; 60; 50; 40] 95
       = Returned x.
Proof.
  refine (proj1 (percentile_nearest_rank Z.le 0
                   [30; 10; 20; 100; 90; 80; 70; 60; 50; 40]
                   [10; 20; 30; 40; 50; 60; 70; 80; 90; 100] _ _ _)).
  - discriminate.
  - repeat constructor; lia.
  - assert (E : merge_sort Z.le [30; 10; 20; 100; 90; 80; 70; 60; 50; 40]
                = [10; 20; 30; 40; 50; 60; 70; 80; 90; 100]) by reflexivity.
    rewrite <- E. apply merge_sort_Permutation.
Defined.

End EnhancedFacts.

(** ** Budget compliance *)

Module SummaryFacts.

Import Summary.

Lemma max2_ge_l (x y : Q) : (x <= max2 x y)%Q.
Proof.
  unfold max2, ltb. destruct (Qle_bool y x) eqn:H; cbn [negb]; [lra|].
  destruct (Qlt_le_dec x y) as [Hlt|Hle]; [lra|].
  apply Qle_bool_iff in Hle. congruence.
Qed.


Lemma max_of_ge_first (x : Q) (l : list Q) : (x <= max_of x l)%Q.
Proof.
  unfold max_of. revert x. induction l as [|y l IH]; intros x; cbn [foldl].
  - lra.
  - pose proof (max2_ge_l x y). pose proof (IH (max2 x y)). lra.
Qed.




End SummaryFacts.

(** ** The wire format: bytes and little-endian integers *)

Module WireFacts.

Import PyFacts.

Lemma Z_of_byte_range (b : byte) : 0 <= Z_of_byte b < 256.
Proof.
  unfold Z_of_byte. pose proof (Byte.to_N_bounded b). lia.
Qed.

Lemma Z_of_byte_of_Z (z : Z) : Z_of_byte (byte_of_Z z) = z mod 256.
Proof.
  unfold Z_of_byte, byte_of_Z.
  pose proof (Z.mod_pos_bound z 256 ltac:(lia)) as Hz.
  destruct (Byte.of_N (Z.to_N (z mod 256))) as [b|] eqn:Hb.
  - apply Byte.to_of_N in Hb. simpl. rewrite Hb. lia.
  - apply Byte.of_N_None_iff in Hb. lia.
Qed.

Lemma byte_of_Z_of_byte (b : byte) : byte_of_Z (Z_of_byte b) = b.
Proof.
  unfold byte_of_Z. pose proof (Z_of_byte_range b) as Hb.
  rewrite Z.mod_small by done. unfold Z_of_byte.
  rewrite N2Z.id, Byte.of_to_N. done.
Qed.

Lemma le_value_range (bs : bytes) :
  0 <= le_value bs < 2 ^ (8 * Z.of_nat (length bs)).
Proof.
  induction bs as [|b bs IH]; [simpl; lia|].
  cbn [le_value length]. pose proof (Z_of_byte_range b).
  replace (8 * Z.of_nat (S (length bs))) with (8 + 8 * Z.of_nat (length bs))
    by lia.
  rewrite Z.pow_add_r by lia. change (2 ^ 8) with 256. nia.
Qed.

(** Packing [n] bytes keeps the value modulo [256^n]. *)
Lemma le_value_le_bytes (n : nat) (v : Z) :
  le_value (le_bytes n v) = v mod 2 ^ (8 * Z.of_nat n).
Proof.
  revert v. induction n as [|n IH]; intros v.
  { simpl. by rewrite Z.mod_1_r. }
  cbn [le_bytes le_value]. rewrite Z_of_byte_of_Z, IH, Zmod_mod.
  replace (8 * Z.of_nat (S n)) with (8 + 8 * Z.of_nat n) by lia.
  rewrite Z.pow_add_r by lia. change (2 ^ 8) with 256.
  rewrite Z.rem_mul_r by lia. lia.
Qed.

Lemma le_bytes_le_value (bs : bytes) : le_bytes (length bs) (le_value bs) = bs.
Proof.
  induction bs as [|b bs IH]; [done|].
  cbn [le_value length le_bytes]. pose proof (Z_of_byte_range b) as Hb.
  replace ((Z_of_byte b + 256 * le_value bs) mod 256) with (Z_of_byte b).
  2:{ rewrite (Z.mul_comm 256), Z_mod_plus_full.
      by rewrite Z.mod_small. }
  replace ((Z_of_byte b + 256 * le_value bs) / 256) with (le_value bs).
  2:{ rewrite (Z.mul_comm 256), Z_div_plus_full by lia.
      rewrite (Z.div_small (Z_of_byte b)) by done. lia. }
  by rewrite byte_of_Z_of_byte, IH.
Qed.

(** A field is read back from the place where it was laid. *)
Lemma slice_app_middle (l1 l2 l3 : bytes) (a b : nat) :
  a = length l1 -> b = (a + length l2)%nat ->
  slice (l1 ++ l2 ++ l3) a b = l2.
Proof.
  intros -> ->. unfold slice.
  rewrite drop_app_length.
  replace (length l1 + length l2 - length l1)%nat with (length l2) by lia.
  apply take_app_length.
Qed.

Lemma unpack_I_le_bytes (v : Z) :
  0 <= v < 2 ^ 32 -> unpack_I (le_bytes 4 v) = Returned v.
Proof.
  intros Hv. unfold unpack_I. rewrite length_le_bytes. cbn [Nat.eqb].
  rewrite le_value_le_bytes. change (2 ^ (8 * Z.of_nat 4)) with (2 ^ 32).
  by rewrite Z.mod_small.
Qed.

End WireFacts.

(** ** The packets on the wire *)

Module CodecFacts.

Import PyFacts WireFacts GameBot GameBotFacts.

Lemma pack_unsigned_inv (n : nat) (v : Z) (bs : bytes) :
  pack_unsigned n v = Returned bs ->
  bs = le_bytes n v /\ 0 <= v < 2 ^ (8 * Z.of_nat n).
Proof.
  unfold pack_unsigned.
  destruct (Z.leb_spec 0 v), (Z.ltb_spec v (2 ^ (8 * Z.of_nat n)));
    cbn [andb]; intros [= <-]; split; (done || lia).
Qed.

Lemma pack_signed_inv (n : nat) (v : Z) (bs : bytes) :
  pack_signed n v = Returned bs ->
  bs = le_bytes n v
  /\ - 2 ^ (8 * Z.of_nat n - 1) <= v < 2 ^ (8 * Z.of_nat n - 1).
Proof.
  unfold pack_signed.
  destruct (Z.leb_spec (- 2 ^ (8 * Z.of_nat n - 1)) v),
           (Z.ltb_spec v (2 ^ (8 * Z.of_nat n - 1)));
    cbn [andb]; intros [= <-]; split; (done || lia).
Qed.

Lemma pack_unsigned_refuses (n : nat) (v : Z) :
  ~ 0 <= v < 2 ^ (8 * Z.of_nat n) -> pack_unsigned n v = Raised StructError.
Proof.
  intros H. unfold pack_unsigned.
  destruct (Z.leb_spec 0 v), (Z.ltb_spec v (2 ^ (8 * Z.of_nat n)));
    cbn [andb]; (done || lia).
Qed.

Lemma pack_signed_refuses (n : nat) (v : Z) :
  ~ - 2 ^ (8 * Z.of_nat n - 1) <= v < 2 ^ (8 * Z.of_nat n - 1) ->
  pack_signed n v = Raised StructError.
Proof.
  intros H. unfold pack_signed.
  destruct (Z.leb_spec (- 2 ^ (8 * Z.of_nat n - 1)) v),
           (Z.ltb_spec v (2 ^ (8 * Z.of_nat n - 1)));
    cbn [andb]; (done || lia).
Qed.

Lemma unpack_h_le_bytes (v : Z) :
  -32768 <= v <= 32767 -> Wire.unpack_h (le_bytes 2 v) = Returned v.
Proof.
  intros Hv. unfold Wire.unpack_h. rewrite length_le_bytes. cbn [Nat.eqb].
  rewrite le_value_le_bytes. change (2 ^ (8 * Z.of_nat 2)) with 65536.
  f_equal. destruct (Z_lt_le_dec v 0) as [Hneg|Hpos].
  - replace (v mod 65536) with (v + 65536)
      by (rewrite <- (Z_mod_plus_full v 1 65536), Z.mod_small; lia).
    destruct (Z.gtb_spec (v + 65536) 32767); lia.
  - rewrite Z.mod_small by lia. destruct (Z.gtb_spec v 32767); lia.
Qed.

Lemma unpack_Q_le_bytes (v : Z) :
  0 <= v < 2 ^ 64 -> Wire.unpack_Q (le_bytes 8 v) = Returned v.
Proof.
  intros Hv. unfold Wire.unpack_Q. rewrite length_le_bytes. cbn [Nat.eqb].
  rewrite le_value_le_bytes. change (2 ^ (8 * Z.of_nat 8)) with (2 ^ 64).
  by rewrite Z.mod_small.
Qed.

Lemma Z_of_byte_small (v : Z) : 0 <= v < 256 -> Z_of_byte (byte_of_Z (v mod 256)) = v.
Proof. intros Hv. by rewrite Z_of_byte_of_Z, Zmod_mod, Z.mod_small. Qed.

Lemma getitem_returned {V} (d : gmap string V) (k : string) (v : V) :
  getitem d k = Returned v -> d !! k = Some v.
Proof. unfold getitem. by destruct (d !! k); intros [= <-]. Qed.

(** The flag byte, bit by bit. *)
Lemma build_flags_inv (st : gmap string bool) (flags : Z) :
  build_flags st = Returned flags ->
  has_all_keys st /\ 0 <= flags < 256
  /\ st !! "forward" = Some (Z.testbit flags 0)
  /\ st !! "backward" = Some (Z.testbit flags 1)
  /\ st !! "left" = Some (Z.testbit flags 2)
  /\ st !! "right" = Some (Z.testbit flags 3)
  /\ st !! "jump" = Some (Z.testbit flags 4)
  /\ st !! "attack" = Some (Z.testbit flags 5)
  /\ st !! "block" = Some (Z.testbit flags 6)
  /\ st !! "sprint" = Some (Z.testbit flags 7).
Proof.
  unfold build_flags. intros H. returned H.
  apply getitem_returned in Hx, Hx0, Hx1, Hx2, Hx3, Hx4, Hx5, Hx6.
  unfold has_all_keys. rewrite Hx, Hx0, Hx1, Hx2, Hx3, Hx4, Hx5, Hx6.
  injection H as <-.
  split; [by repeat split; eexists|].
  destruct x, x0, x1, x2, x3, x4, x5, x6; by vm_compute.
Qed.

(** X1.  Every field of a ClientInput packet is read back from its place:
    the type byte 1 at offset 0, the sequence number at 1..4, the
    timestamp at 5..8, the flag byte at 9, the quantized yaw and pitch as
    signed 16-bit at 10..11 and 12..13, the target entity at 14..17, all
    little-endian; and the bot's sequence number goes up by one. *)
Theorem input_packet_round_trip (now : Q) (b b' : t) (pkt : bytes) :
  _create_input_packet now b = Returned (pkt, b') ->
  Z_of_byte <$> pkt !! 0%nat = Some PACKET_CLIENT_INPUT
  /\ unpack_I (slice pkt 1 5) = Returned (sequence b)
  /\ unpack_I (slice pkt 5 9) = Returned (timestamp_ms now)
  /\ (exists flags, build_flags (input_state b) = Returned flags
                     /\ Z_of_byte <$> pkt !! 9%nat = Some flags)
  /\ Wire.unpack_h (slice pkt 10 12) = Returned (yaw_quantized (yaw b))
  /\ Wire.unpack_h (slice pkt 12 14) = Returned (pitch_quantized (pitch b))
  /\ unpack_I (slice pkt 14 18) = Returned (target_entity b)
  /\ b' = set_sequence (sequence b + 1) b.
Proof.
  unfold _create_input_packet. intros H. returned H.
  injection H as <- <-.
  destruct (build_flags_inv _ _ Hx) as (_ & Hf0 & Hf1).
  apply pack_unsigned_inv in Hx0 as [-> _], Hx1 as [-> Hseq],
    Hx2 as [-> Htime], Hx3 as [-> _], Hx6 as [-> Htarget].
  apply pack_signed_inv in Hx4 as [-> Hyaw], Hx5 as [-> Hpitch].
  change (2 ^ (8 * Z.of_nat 4)) with (2 ^ 32) in *.
  change (2 ^ (8 * Z.of_nat 2 - 1)) with 32768 in *.
  split; [done|].
  split; [by apply unpack_I_le_bytes|].
  split; [by apply unpack_I_le_bytes|].
  split.
  { exists x. split; [done|]. cbn. by rewrite Z_of_byte_small. }
  split; [apply unpack_h_le_bytes; lia|].
  split; [apply unpack_h_le_bytes; lia|].
  split; [by apply unpack_I_le_bytes | done].
Qed.

Lemma getitem_missing {V} (d : gmap string V) (k : string) :
  d !! k = None -> getitem d k = Raised KeyError.
Proof. unfold getitem. by intros ->. Qed.

Lemma build_flags_raises_KeyError (st : gmap string bool) (e : exn) :
  build_flags st = Raised e -> e = KeyError /\ ~ has_all_keys st.
Proof.
  unfold build_flags, has_all_keys, getitem. intros H.
  repeat match type of H with
         | context [st !! ?k] =>
             destruct (st !! k) as [?|] eqn:?; cbn [mbind outcome_bind] in H
         end;
    try discriminate;
    (split; [congruence|]); intros (? & ? & ? & ? & ? & ? & ? & ?);
    repeat match goal with H' : is_Some None |- _ => by destruct H' end.
Qed.

(** X2.  The flag byte of a ClientInput is bit-exact: when the dictionary
    of inputs has its eight keys the byte is returned, lies in 0..255, and
    its bits 0 to 7 are the inputs forward, backward, left, right, jump,
    attack, block, sprint; when a key is missing, building the byte raises
    [KeyError]. *)
Theorem input_flags_bit_exact (st : gmap string bool) :
  (has_all_keys st ->
   exists flags,
     build_flags st = Returned flags /\ 0 <= flags < 256
     /\ st !! "forward" = Some (Z.testbit flags 0)
     /\ st !! "backward" = Some (Z.testbit flags 1)
     /\ st !! "left" = Some (Z.testbit flags 2)
     /\ st !! "right" = Some (Z.testbit flags 3)
     /\ st !! "jump" = Some (Z.testbit flags 4)
     /\ st !! "attack" = Some (Z.testbit flags 5)
     /\ st !! "block" = Some (Z.testbit flags 6)
     /\ st !! "sprint" = Some (Z.testbit flags 7))
  /\ (~ has_all_keys st -> build_flags st = Raised KeyError).
Proof.
  split.
  - intros Hkeys. destruct (build_flags_byte st Hkeys) as (flags & Hflags & _).
    exists flags. split; [done|]. by apply build_flags_inv in Hflags as [_ ?].
  - intros Hkeys. destruct (build_flags st) as [flags|e] eqn:Hflags.
    + by apply build_flags_inv in Hflags as [? _].
    + by apply build_flags_raises_KeyError in Hflags as [-> _].
Qed.

Lemma input_flags_bit_exact_witness :
  has_all_keys (input_state Sample.bot)
  /\ exists flags, build_flags (input_state Sample.bot) = Returned flags
                   /\ 0 <= flags < 256.
Proof.
  assert (Hkeys : has_all_keys (input_state Sample.bot))
    by (repeat split; by vm_compute; eexists).
  split; [exact Hkeys|].
  destruct (proj1 (input_flags_bit_exact (input_state Sample.bot)) Hkeys)
    as (flags & Hflags & Hrange & _).
  by exists flags.
Defined.

Lemma input_packet_round_trip_witness :
  exists pkt b',
    _create_input_packet 0 Sample.bot = Returned (pkt, b')
    /\ unpack_I (slice pkt 1 5) = Returned (sequence Sample.bot).
Proof.
  eexists _, _. split; [by vm_compute|].
  refine (proj1 (proj2 (input_packet_round_trip 0 Sample.bot _ _ _))).
  by vm_compute.
Defined.

(** X3.  With the eight input keys present, [_create_input_packet]
    raises exactly when a field does not fit its wire type: a sequence
    number or target entity outside 0..2^32-1, or a pitch whose quantized
    value is outside -32768..32767.  The exception is [struct.error].
    Neither the yaw nor the timestamp, whatever their values, makes it
    raise. *)
Theorem input_packet_raises_iff (now : Q) (b : t) :
  has_all_keys (input_state b) ->
  (raises (_create_input_packet now b) <-> ~ valid_input_fields b)
  /\ (forall e, _create_input_packet now b = Raised e -> e = StructError).
Proof.
  intros Hkeys.
  destruct (build_flags_byte _ Hkeys) as (flags & Hflags & Hrange).
  pose proof (yaw_quantized_i16 (yaw b)) as Hyaw.
  pose proof (timestamp_ms_u32 now) as Htime.
  assert (Hcases :
    valid_input_fields b
    \/ (~ valid_input_fields b
        /\ _create_input_packet now b = Raised StructError)).
  { destruct (decide (0 <= sequence b < 2 ^ 32)) as [Hseq|Hseq];
      [destruct (decide (-32768 <= pitch_quantized (pitch b) <= 32767))
         as [Hpitch|Hpitch];
       [destruct (decide (0 <= target_entity b < 2 ^ 32)) as [Htgt|Htgt]|]|].
    - left. split; [done|]. split; [done|]. by split.
    - right. split; [by intros (_ & _ & ? & _)|].
      unfold _create_input_packet, pack_B, pack_I, pack_h.
      rewrite Hflags. cbn [mbind outcome_bind].
      rewrite (pack_unsigned_returns 1 PACKET_CLIENT_INPUT) by in_range.
      rewrite (pack_unsigned_returns 4 (sequence b)) by in_range.
      rewrite (pack_unsigned_returns 4 (timestamp_ms now)) by in_range.
      rewrite (pack_unsigned_returns 1 flags) by in_range.
      rewrite (pack_signed_returns 2 (yaw_quantized _)) by in_range.
      rewrite (pack_signed_returns 2 (pitch_quantized _)) by in_range.
      by rewrite (pack_unsigned_refuses 4 (target_entity b)) by in_range.
    - right. split; [by intros (_ & _ & _ & ?)|].
      unfold _create_input_packet, pack_B, pack_I, pack_h.
      rewrite Hflags. cbn [mbind outcome_bind].
      rewrite (pack_unsigned_returns 1 PACKET_CLIENT_INPUT) by in_range.
      rewrite (pack_unsigned_returns 4 (sequence b)) by in_range.
      rewrite (pack_unsigned_returns 4 (timestamp_ms now)) by in_range.
      rewrite (pack_unsigned_returns 1 flags) by in_range.
      rewrite (pack_signed_returns 2 (yaw_quantized _)) by in_range.
      by rewrite (pack_signed_refuses 2 (pitch_quantized _)) by in_range.
    - right. split; [by intros (_ & ? & _)|].
      unfold _create_input_packet, pack_B, pack_I, pack_h.
      rewrite Hflags. cbn [mbind outcome_bind].
      rewrite (pack_unsigned_returns 1 PACKET_CLIENT_INPUT) by in_range.
      by rewrite (pack_unsigned_refuses 4 (sequence b)) by in_range. }
  destruct Hcases as [Hvalid | [Hinvalid Hraised]].
  - destruct (input_packet_returns now b Hvalid) as (pkt & Hpkt & _).
    split; [|intros e; by rewrite Hpkt].
    split; [intros [e He]; by rewrite Hpkt in He | done].
  - split; [|intros e; rewrite Hraised; by intros [= <-]].
    split; [done | intros _; by eexists].
Qed.

Lemma input_packet_raises_iff_witness :
  has_all_keys (input_state Sample.bot)
  /\ ~ raises (_create_input_packet 0 Sample.bot).
Proof.
  assert (Hkeys : has_all_keys (input_state Sample.bot))
    by (repeat split; by vm_compute; eexists).
  split; [exact Hkeys|].
  intros Hr.
  apply (proj1 (proj1 (input_packet_raises_iff 0 Sample.bot Hkeys)) Hr).
  repeat split; try (vm_compute; congruence); by vm_compute; eexists.
Defined.

(** X4.  A ConnectionRequest is the type byte 3, the protocol version 1
    as a little-endian u32 and the bot id as a little-endian u64, each
    read back from its place; and [_create_connection_request] raises
    exactly when the bot id is outside 0..2^64-1. *)
Theorem connection_request_round_trip (b : t) :
  (forall pkt,
     _create_connection_request b = Returned pkt ->
     Z_of_byte <$> pkt !! 0%nat = Some PACKET_CONNECTION_REQUEST
     /\ unpack_I (slice pkt 1 5) = Returned PROTOCOL_VERSION
     /\ Wire.unpack_Q (slice pkt 5 13) = Returned (BotConfig.bot_id (config b)))
  /\ (raises (_create_connection_request b)
      <-> ~ 0 <= BotConfig.bot_id (config b) < 2 ^ 64).
Proof.
  split.
  - unfold _create_connection_request. intros pkt H. returned H.
    injection H as <-.
    apply pack_unsigned_inv in Hx as [-> _], Hx0 as [-> _], Hx1 as [-> Hid].
    change (2 ^ (8 * Z.of_nat 8)) with (2 ^ 64) in Hid.
    split; [done|]. split; [done|]. by apply unpack_Q_le_bytes.
  - split.
    + intros [e He] Hid.
      destruct (connection_request_returns b Hid) as (pkt & Hpkt & _).
      by rewrite Hpkt in He.
    + intros Hid. exists StructError.
      unfold _create_connection_request, pack_B, pack_I, pack_Q.
      rewrite (pack_unsigned_returns 1 PACKET_CONNECTION_REQUEST) by in_range.
      rewrite (pack_unsigned_returns 4 PROTOCOL_VERSION) by in_range.
      by rewrite (pack_unsigned_refuses 8 (BotConfig.bot_id _)) by in_range.
Qed.

Lemma connection_request_round_trip_witness :
  exists pkt,
    _create_connection_request Sample.bot = Returned pkt
    /\ Wire.unpack_Q (slice pkt 5 13) = Returned 1.
Proof.
  eexists. split; [by vm_compute|].
  refine (proj2 (proj2 (proj1 (connection_request_round_trip Sample.bot) _ _))).
  by vm_compute.
Defined.

(** X5.  [_parse_connection_response] reads a response laid out as type
    byte, non-zero success byte and four little-endian u32 (connection id,
    entity id, server tick, server time): the bot takes exactly these four
    values, becomes connected and starts its clock; whatever follows the
    18th byte is ignored, and so is the type byte. *)
Theorem connection_response_decodes (now : Q) (b : t) (ty s : byte)
    (cid eid tick time : Z) (rest : bytes) :
  Z_of_byte s <> 0 ->
  0 <= cid < 2 ^ 32 -> 0 <= eid < 2 ^ 32 ->
  0 <= tick < 2 ^ 32 -> 0 <= time < 2 ^ 32 ->
  exists b',
    _parse_connection_response now
      (ty :: s :: le_bytes 4 cid ++ le_bytes 4 eid ++ le_bytes 4 tick
          ++ le_bytes 4 time ++ rest) b
    = Returned b'
    /\ connection_id b' = Some cid /\ entity_id b' = Some eid
    /\ server_tick b' = tick /\ server_time b' = time
    /\ connected b' = true /\ start_time b' = now.
Proof.
  intros Hs Hcid Heid Htick Htime.
  set (data := ty :: s :: _).
  destruct (parse_connection_response_accepted now data b s)
    as (b' & Hb' & Hcon & _ & Hc & He & Hk & Ht & Hst & _);
    [subst data; simpl; lia | done | done |].
  exists b'. split; [done|].
  change (slice data 2 6) with (le_bytes 4 cid) in Hc.
  change (slice data 6 10) with (le_bytes 4 eid) in He.
  change (slice data 10 14) with (le_bytes 4 tick) in Hk.
  change (slice data 14 18) with (le_bytes 4 time) in Ht.
  rewrite le_value_le_bytes in Hc, He, Hk, Ht.
  change (2 ^ (8 * Z.of_nat 4)) with (2 ^ 32) in *.
  rewrite Z.mod_small in Hc, He, Hk, Ht by done.
  by repeat split.
Qed.

Lemma connection_response_decodes_witness :
  exists b',
    _parse_connection_response 100 (Sample.response 1) Sample.bot
    = Returned b'
    /\ connection_id b' = Some 7 /\ entity_id b' = Some 9
    /\ server_tick b' = 1 /\ server_time b' = 5
    /\ connected b' = true /\ start_time b' = 100%Q.
Proof.
  exact (connection_response_decodes 100 Sample.bot "004" "001" 7 9 1 5 []
           ltac:(discriminate) ltac:(lia) ltac:(lia) ltac:(lia) ltac:(lia)).
Defined.

(** X6.  [_parse_snapshot] reads a header laid out as type byte and four
    little-endian u32 (server tick, baseline tick, server time, last
    processed input): the bot takes the tick, the time and the last
    processed input, counts one more snapshot, drops the baseline tick and
    ignores the entity payload that follows the 17th byte. *)
Theorem snapshot_header_decodes (b : t) (ty : byte)
    (tick baseline time lpi : Z) (payload : bytes) :
  0 <= tick < 2 ^ 32 -> 0 <= baseline < 2 ^ 32 ->
  0 <= time < 2 ^ 32 -> 0 <= lpi < 2 ^ 32 ->
  _parse_snapshot
    (ty :: le_bytes 4 tick ++ le_bytes 4 baseline ++ le_bytes 4 time
        ++ le_bytes 4 lpi ++ payload) b
  = Returned
      (set_last_processed_input lpi
         (set_server_time time
            (set_server_tick tick
               (set_snapshot_count (snapshot_count b + 1) b)))).
Proof.
  intros Htick Hbase Htime Hlpi.
  set (data := ty :: _).
  unfold _parse_snapshot.
  assert (Hlen : (17 <= length data)%nat)
    by (subst data; simpl; lia).
  destruct (Nat.ltb_spec (length data) 17); [lia|].
  rewrite (unpack_I_slice data 1 5), (unpack_I_slice data 5 9),
    (unpack_I_slice data 9 13), (unpack_I_slice data 13 17) by lia.
  cbn [mbind outcome_bind mret outcome_ret].
  change (slice data 1 5) with (le_bytes 4 tick).
  change (slice data 9 13) with (le_bytes 4 time).
  change (slice data 13 17) with (le_bytes 4 lpi).
  rewrite !le_value_le_bytes.
  change (2 ^ (8 * Z.of_nat 4)) with (2 ^ 32).
  by rewrite !Z.mod_small by done.
Qed.

Lemma snapshot_header_decodes_witness :
  _parse_snapshot Sample.snapshot Sample.bot
  = Returned
      (set_last_processed_input 3
         (set_server_time 6
            (set_server_tick 2
               (set_snapshot_count (snapshot_count Sample.bot + 1)
                  Sample.bot)))).
Proof.
  exact (snapshot_header_decodes Sample.bot "002" 2 0 6 3 []
           ltac:(lia) ltac:(lia) ltac:(lia) ltac:(lia)).
Defined.

End CodecFacts.

(** ** Movement patterns *)

Module MovementFacts.

Import PyFacts GameBot GameBotFacts CodecFacts.


Lemma update_movement_frame (elapsed : Q) (r : Rng) (b : t) :
  Session.same_but_movement b (_update_movement elapsed r b).1.
Proof.
  unfold Session.same_but_movement, _update_movement,
    _update_random_movement, _update_circle_movement,
    _update_linear_movement, uniform, random, set_input.
  destruct b. repeat case_match; simplify_eq/=; reflexivity.
Qed.

Lemma lookup_reset (st : gmap string bool) (k : string) :
  is_Some (st !! k) -> ((fun _ => false) <$> st) !! k = Some false.
Proof. intros [v Hv]. by rewrite lookup_fmap, Hv. Qed.

Lemma movement_untouched_key (elapsed : Q) (r : Rng) (b : t) (k : string) :
  k <> "forward" -> k <> "left" -> k <> "right" -> k <> "sprint" ->
  k <> "jump" -> is_Some (input_state b !! k) ->
  input_state (_update_movement elapsed r b).1 !! k = Some false.
Proof.
  intros ? ? ? ? ? Hk.
  unfold _update_movement, _update_random_movement, _update_circle_movement,
    _update_linear_movement, uniform, random, set_input.
  repeat case_match; simplify_eq/=;
    rewrite ?lookup_insert_ne by done; by apply lookup_reset.
Qed.

Lemma movement_keeps_keys (elapsed : Q) (r : Rng) (b : t) (k : string) :
  is_Some (input_state b !! k) ->
  is_Some (input_state (_update_movement elapsed r b).1 !! k).
Proof.
  intros Hk.
  unfold _update_movement, _update_random_movement, _update_circle_movement,
    _update_linear_movement, uniform, random, set_input.
  repeat case_match; simplify_eq/=;
    rewrite ?lookup_insert_is_Some';
    repeat (first [right | fail]); 
    try (eexists; by apply lookup_reset).
  all: try (repeat right; eexists; by apply lookup_reset).
Qed.

Ltac map_lookups :=
  repeat first
    [ rewrite lookup_insert_eq
    | rewrite lookup_insert_ne by done
    | rewrite lookup_reset by done ].

Ltac map_lookups_in H :=
  repeat first
    [ rewrite lookup_insert_eq in H
    | rewrite lookup_insert_ne in H by done
    | rewrite lookup_reset in H by done ].

Lemma movement_touched_keys (elapsed : Q) (r : Rng) (b : t) :
  has_all_keys (input_state b) ->
  exists f l rt j s,
    let st := input_state (_update_movement elapsed r b).1 in
    st !! "forward" = Some f /\ st !! "left" = Some l
    /\ st !! "right" = Some rt /\ st !! "jump" = Some j
    /\ st !! "sprint" = Some s
    /\ (s = true -> f = true) /\ ~ (l = true /\ rt = true)
    /\ (BotConfig.movement_pattern (config b) = "circle" ->
        f = true /\ l = false /\ rt = false /\ j = false /\ s = false)
    /\ (BotConfig.movement_pattern (config b) = "linear" ->
        f = true /\ l = false /\ rt = false /\ j = false)
    /\ (BotConfig.movement_pattern (config b) <> "random" ->
        BotConfig.movement_pattern (config b) <> "circle" ->
        BotConfig.movement_pattern (config b) <> "linear" ->
        f = false /\ l = false /\ rt = false /\ j = false /\ s = false).
Proof.
  intros (Hf & _ & Hl & Hr & Hj & _ & _ & Hs).
  unfold _update_movement, _update_random_movement, _update_circle_movement,
    _update_linear_movement, uniform, random, set_input.
  repeat case_match; simplify_eq/=;
    repeat match goal with
           | H : bool_decide _ = true |- _ => apply bool_decide_eq_true in H
           | H : bool_decide _ = false |- _ => apply bool_decide_eq_false in H
           end;
    repeat match goal with
           | H : context [_ !! _] |- _ => progress map_lookups_in H
           end;
    eexists _, _, _, _, _; map_lookups;
    (split; [reflexivity|]); (split; [reflexivity|]); (split; [reflexivity|]);
    (split; [reflexivity|]); (split; [reflexivity|]);
    repeat split; try congruence; try (intros [? ?]; congruence).
Qed.

Lemma build_flags_of_lookups (st : gmap string bool)
    (f bk l rt j a k s : bool) :
  st !! "forward" = Some f -> st !! "backward" = Some bk ->
  st !! "left" = Some l -> st !! "right" = Some rt ->
  st !! "jump" = Some j -> st !! "attack" = Some a ->
  st !! "block" = Some k -> st !! "sprint" = Some s ->
  build_flags st
  = Returned (Z.b2z f + 2 * Z.b2z bk + 4 * Z.b2z l + 8 * Z.b2z rt
              + 16 * Z.b2z j + 32 * Z.b2z a + 64 * Z.b2z k + 128 * Z.b2z s).
Proof.
  intros Hf Hbk Hl Hr Hj Ha Hk Hs. unfold build_flags, getitem.
  rewrite Hf, Hbk, Hl, Hr, Hj, Ha, Hk, Hs.
  by destruct f, bk, l, rt, j, a, k, s.
Qed.

(** X7.  Whatever the pattern and the random draws, one movement update
    keeps the eight input keys (so the flag byte can be built) and yields
    an intent that never has backward, attack or block set, never sprints
    without going forward, and never strafes left and right at once.  The
    circle pattern yields forward alone, the linear pattern forward with or
    without sprint, and a pattern that is none of random, circle and
    linear (stationary among them) yields no input at all. *)
Theorem movement_intent_well_formed (elapsed : Q) (r : Rng) (b : t) :
  has_all_keys (input_state b) ->
  has_all_keys (input_state (_update_movement elapsed r b).1)
  /\ exists flags,
       build_flags (input_state (_update_movement elapsed r b).1)
       = Returned flags
       /\ Z.land flags
            (Z.lor INPUT_BACKWARD (Z.lor INPUT_ATTACK INPUT_BLOCK)) = 0
       /\ (Z.land flags INPUT_SPRINT <> 0 -> Z.land flags INPUT_FORWARD <> 0)
       /\ Z.land flags (Z.lor INPUT_LEFT INPUT_RIGHT)
          <> Z.lor INPUT_LEFT INPUT_RIGHT
       /\ (BotConfig.movement_pattern (config b) = "circle" ->
           flags = INPUT_FORWARD)
       /\ (BotConfig.movement_pattern (config b) = "linear" ->
           flags = INPUT_FORWARD \/ flags = Z.lor INPUT_FORWARD INPUT_SPRINT)
       /\ (BotConfig.movement_pattern (config b) <> "random" ->
           BotConfig.movement_pattern (config b) <> "circle" ->
           BotConfig.movement_pattern (config b) <> "linear" ->
           flags = 0).
Proof.
  intros Hkeys.
  assert (Hkeys' : has_all_keys (input_state (_update_movement elapsed r b).1)).
  { destruct Hkeys as (? & ? & ? & ? & ? & ? & ? & ?).
    repeat split; by apply movement_keeps_keys. }
  split; [done|].
  destruct (movement_touched_keys elapsed r b Hkeys)
    as (f & l & rt & j & s & Hf & Hl & Hr & Hj & Hs & Hsf & Hlr & Hcircle
        & Hlinear & Hstill).
  destruct Hkeys as (_ & Hbk & _ & _ & _ & Ha & Hk & _).
  eexists. split.
  { apply (build_flags_of_lookups _ f false l rt j false false s); try done;
      by apply movement_untouched_key. }
  assert (Hsf' : s = false \/ f = true)
    by (destruct s; [right; by apply Hsf | by left]).
  assert (Hlr' : l = false \/ rt = false).
  { destruct l, rt; try (by left); try (by right). exfalso. by apply Hlr. }
  split; [by destruct f, l, rt, j, s|].
  split.
  { destruct Hsf' as [-> | ->]; destruct l, rt, j; try destruct s;
      try destruct f; vm_compute; congruence. }
  split.
  { destruct Hlr' as [-> | ->]; destruct f, j, s; try destruct l;
      try destruct rt; vm_compute; congruence. }
  split.
  { intros Hp. by destruct (Hcircle Hp) as (-> & -> & -> & -> & ->). }
  split.
  { intros Hp. destruct (Hlinear Hp) as (-> & -> & -> & ->).
    destruct s; [by right | by left]. }
  intros H1 H2 H3. by destruct (Hstill H1 H2 H3) as (-> & -> & -> & -> & ->).
Qed.

Lemma movement_intent_well_formed_witness :
  has_all_keys (input_state Sample.bot)
  /\ has_all_keys
       (input_state (_update_movement 1 Sample.rng_half Sample.bot).1).
Proof.
  assert (Hkeys : has_all_keys (input_state Sample.bot))
    by (repeat split; by vm_compute; eexists).
  split; [exact Hkeys|].
  exact (proj1 (movement_intent_well_formed 1 Sample.rng_half Sample.bot
                  Hkeys)).
Defined.



End MovementFacts.

(** ** The run loop *)

Module RunFacts.

Import PyFacts GameBot GameBotFacts CodecFacts MovementFacts.

Lemma create_input_packet_state (now : Q) (b b' : t) (pkt : bytes) :
  _create_input_packet now b = Returned (pkt, b') ->
  b' = set_sequence (sequence b + 1) b /\ length pkt = 18%nat.
Proof.
  intros H. split; [|by eapply input_packet_length].
  unfold _create_input_packet in H. returned H. by injection H as _ <-.
Qed.

Lemma send_packet_state (ok : bool) (data : bytes) (b b' : t) :
  _send_packet ok data b = Returned b' ->
  b' = set_bytes_sent (bytes_sent b + Z.of_nat (length data))
         (set_packets_sent (packets_sent b + 1) b)
  /\ is_Some (socket b) /\ ok = true.
Proof.
  unfold _send_packet. destruct (socket b) as [sock|]; [|done].
  destruct ok; [|done]. intros [= <-]. by eauto.
Qed.

Lemma process_packet_effect (data : bytes) (b : t) :
  exists b',
    _process_packet data b = Returned b'
    /\ Session.same_but_inbound b b'
    /\ packets_sent b' = packets_sent b
    /\ bytes_sent b' = bytes_sent b
    /\ sequence b' = sequence b
    /\ packets_received b' = packets_received b
    /\ bytes_received b' = bytes_received b
    /\ snapshot_count b <= snapshot_count b'
    /\ correction_count b <= correction_count b'
    /\ event_count b <= event_count b'
    /\ (snapshot_count b' - snapshot_count b)
       + (correction_count b' - correction_count b)
       + (event_count b' - event_count b) <= 1.
Proof.
  unfold _process_packet, Session.same_but_inbound.
  destruct (Nat.ltb_spec (length data) 1).
  { exists b. destruct b; cbn. repeat split; (done || lia). }
  destruct (index_lt data 0 ltac:(lia)) as (ty & _ & ->).
  cbn [mbind outcome_bind].
  repeat case_match.
  - destruct (Nat.lt_ge_cases (length data) 17) as [Hlt|Hge].
    + rewrite parse_snapshot_short by done. exists b. destruct b; cbn.
      repeat split; (done || lia).
    + unfold _parse_snapshot. destruct (Nat.ltb_spec (length data) 17); [lia|].
      rewrite (unpack_I_slice data 1 5), (unpack_I_slice data 5 9),
        (unpack_I_slice data 9 13), (unpack_I_slice data 13 17) by lia.
      cbn [mbind outcome_bind mret outcome_ret].
      eexists. split; [reflexivity|]. destruct b; cbn.
      repeat split; (done || lia).
  - eexists. split; [reflexivity|]. destruct b; cbn.
    repeat split; (done || lia).
  - eexists. split; [reflexivity|]. destruct b; cbn.
    repeat split; (done || lia).
  - exists b. destruct b; cbn. repeat split; (done || lia).
Qed.

Lemma movement_ledger (elapsed : Q) (r : Rng) (b : t) :
  Ledger.read (_update_movement elapsed r b).1 = Ledger.read b.
Proof.
  pose proof (f_equal Ledger.read (update_movement_frame elapsed r b)) as H.
  exact H.
Qed.

Lemma run_loop_accounted (duration start last interval : Q) (receiving : bool)
    (sched : list run_event) (r : Rng) (clock : Q) (b : t) :
  Accounting.accounted 1 (Ledger.read b)
    (Ledger.read
       (run_loop duration start last interval receiving sched r clock b).1.1.1).
Proof.
  revert last receiving r clock b.
  induction sched as [|ev sched IH]; intros last receiving r clock b.
  { unfold Accounting.accounted. cbn. lia. }
  destruct ev as [now ok|data|]; cbn [run_loop].
  - destruct (ltb (now - start) duration);
      [|unfold Accounting.accounted; cbn; lia].
    pose proof (movement_ledger (now - start) r b) as Hmove.
    destruct (_update_movement (now - start) r b) as [b1 r1].
    cbn [fst] in Hmove.
    destruct (Qle_bool interval (now - last)).
    + destruct (_create_input_packet now b1) as [[pkt b2]|e] eqn:Hpkt.
      * apply create_input_packet_state in Hpkt as [-> Hlen].
        destruct (_send_packet ok pkt _) as [b3|e] eqn:Hsend.
        -- apply send_packet_state in Hsend as (-> & _ & _).
           specialize (IH now receiving r1 now
             (set_bytes_sent
                (bytes_sent (set_sequence (sequence b1 + 1) b1)
                 + Z.of_nat (length pkt))
                (set_packets_sent
                   (packets_sent (set_sequence (sequence b1 + 1) b1) + 1)
                   (set_sequence (sequence b1 + 1) b1)))).
           revert IH. injection Hmove. unfold Accounting.accounted. cbn.
           rewrite Hlen. lia.
        -- cbn [fst]. injection Hmove. unfold Accounting.accounted. cbn. lia.
      * cbn [fst]. injection Hmove. unfold Accounting.accounted. cbn. lia.
    + specialize (IH last receiving r1 now b1). revert IH.
      injection Hmove. unfold Accounting.accounted. cbn. lia.
  - destruct receiving; [|apply IH].
    destruct data as [|x data]; [apply IH|].
    match goal with |- context [_process_packet ?d ?b0] =>
      destruct (process_packet_effect d b0)
        as (b1 & -> & _ & Hps & Hbs & Hsq & Hpr & Hbr & Hs & Hc & He & Hsum)
      end.
    specialize (IH last true r clock b1). revert IH.
    cbn in Hps, Hbs, Hsq, Hpr, Hbr, Hs, Hc, He, Hsum.
    unfold Accounting.accounted. cbn. lia.
  - apply IH.
Qed.

(** X9.  Under any schedule of its send loop and receive task, and
    whether or not it ends by an exception, [run] only adds to the
    counters, and what it adds is accounted for: 18 bytes for every packet
    sent; one sequence number for every packet sent, and one more only
    when the last send failed; at least one byte for every datagram
    received; at most one snapshot, correction or event for every datagram
    received. *)
Theorem run_counters_accounted (duration now : Q) (sched : list run_event)
    (r : Rng) (b : t) :
  Accounting.accounted 1 (Ledger.read b)
    (Ledger.read (run duration now sched r b).1.1)
  /\ Session.counters_le b (run duration now sched r b).1.1.
Proof.
  assert (H : Accounting.accounted 1 (Ledger.read b)
                (Ledger.read (run duration now sched r b).1.1)).
  { unfold run. destruct (connected b); cbn [negb];
      [|unfold Accounting.accounted; cbn; lia].
    destruct (truediv 1 (BotConfig.update_rate (config b))) as [interval|e];
      [|unfold Accounting.accounted; cbn; lia].
    pose proof (run_loop_accounted duration now now interval true sched r now b)
      as H.
    destruct (run_loop _ _ _ _ _ _ _ _ _) as [[[b' r'] clock] [e|]]; exact H. }
  split; [exact H|].
  revert H. unfold Accounting.accounted, Session.counters_le. cbn. lia.
Qed.

Lemma movement_keeps_valid (elapsed : Q) (r : Rng) (b : t) :
  valid_input_fields b ->
  valid_input_fields (_update_movement elapsed r b).1
  /\ sequence (_update_movement elapsed r b).1 = sequence b
  /\ socket (_update_movement elapsed r b).1 = socket b.
Proof.
  intros (Hkeys & Hseq & Htgt & Hpitch).
  pose proof (update_movement_frame elapsed r b) as H.
  pose proof (f_equal sequence H) as Hs.
  pose proof (f_equal target_entity H) as Ht.
  pose proof (f_equal pitch H) as Hp.
  pose proof (f_equal socket H) as Hk.
  cbn in Hs, Ht, Hp, Hk.
  split; [|done].
  split; [|by rewrite Hs, Ht, Hp].
  destruct Hkeys as (? & ? & ? & ? & ? & ? & ? & ?).
  repeat split; by apply movement_keeps_keys.
Qed.

Lemma run_loop_completes (duration start last interval : Q) (receiving : bool)
    (sched : list run_event) (r : Rng) (clock : Q) (b : t) :
  is_Some (socket b) -> has_all_keys (input_state b) ->
  0 <= target_entity b < 2 ^ 32 ->
  -32768 <= pitch_quantized (pitch b) <= 32767 ->
  0 <= sequence b -> sequence b + Z.of_nat (length sched) <= 2 ^ 32 ->
  Session.sends_succeed sched ->
  (run_loop duration start last interval receiving sched r clock b).2 = None.
Proof.
  revert last receiving r clock b.
  induction sched as [|ev sched IH];
    intros last receiving r clock b Hsock Hkeys Htgt Hpitch Hseq0 Hseq Hsends;
    [done|].
  apply Forall_cons in Hsends as [Hev Hsends].
  cbn [length] in Hseq.
  destruct ev as [now ok|data|]; cbn [run_loop].
  - subst ok. destruct (ltb (now - start) duration); [|done].
    assert (Hvalid : valid_input_fields b).
    { split; [done|]. split; [lia|]. by split. }
    destruct (movement_keeps_valid (now - start) r b Hvalid)
      as (Hvalid1 & Hseq1 & Hsock1).
    destruct (_update_movement (now - start) r b) as [b1 r1].
    cbn [fst] in Hvalid1, Hseq1, Hsock1.
    destruct Hvalid1 as (Hkeys1 & Hs1 & Htgt1 & Hpitch1).
    destruct (Qle_bool interval (now - last)).
    + destruct (input_packet_returns now b1) as (pkt & -> & _);
        [split; [done|]; split; [done|]; by split|].
      unfold _send_packet. rewrite <- Hsock1 in Hsock.
      destruct Hsock as [sock Hsock']. cbn [socket set_sequence].
      rewrite Hsock'.
      apply IH; cbn; (done || eauto || lia).
    + apply IH; (done || lia || by rewrite Hsock1).
  - destruct receiving; [|apply IH; (done || lia)].
    destruct data as [|x data]; [apply IH; (done || lia)|].
    match goal with |- context [_process_packet ?d ?b0] =>
      destruct (process_packet_effect d b0)
        as (b1 & -> & Hframe & _ & _ & Hsq & _) end.
    pose proof (f_equal socket Hframe) as Hk.
    pose proof (f_equal input_state Hframe) as Hi.
    pose proof (f_equal target_entity Hframe) as Ht.
    pose proof (f_equal pitch Hframe) as Hp.
    cbn in Hk, Hi, Ht, Hp, Hsq.
    apply IH; rewrite ?Hk, ?Hi, ?Ht, ?Hp, ?Hsq; (done || lia).
  - apply IH; (done || lia).
Qed.

(** X10.  [run] returns its statistics, no exception escaping, for a
    bot that has its socket and valid input fields, a non-zero update
    rate, enough sequence numbers left below 2^32 for the schedule, and a
    socket that accepts every send: no movement pattern, received packet
    or clock reading can make it raise. *)
Theorem run_returns_statistics (duration now : Q) (sched : list run_event)
    (r : Rng) (b : t) :
  is_Some (socket b) -> valid_input_fields b ->
  sequence b + Z.of_nat (length sched) <= 2 ^ 32 ->
  ~ (BotConfig.update_rate (config b) == 0)%Q ->
  Session.sends_succeed sched ->
  exists stats, (run duration now sched r b).2 = Returned stats.
Proof.
  intros Hsock Hvalid Hseq Hrate Hsends. unfold run.
  assert (Hstats : forall clock b0, exists stats,
            get_stats clock b0 = Returned stats).
  { intros clock b0. unfold get_stats.
    pose proof (elapsed_floor clock b0).
    rewrite !truediv_returns by lra.
    cbn [mbind outcome_bind mret outcome_ret]. by eexists. }
  destruct (connected b); cbn [negb]; [|apply Hstats].
  unfold truediv. destruct (Qeq_bool _ 0) eqn:Hz;
    [by apply Qeq_bool_iff in Hz|].
  destruct Hvalid as (Hkeys & Hs & Htgt & Hpitch).
  pose proof (run_loop_completes duration now now
                (1 / BotConfig.update_rate (config b)) true sched r now b
                Hsock Hkeys Htgt Hpitch (proj1 Hs) Hseq Hsends) as Hloop.
  destruct (run_loop _ _ _ _ _ _ _ _ _) as [[[b' r'] clock] [e|]];
    [done | apply Hstats].
Qed.

Lemma run_returns_statistics_witness :
  exists stats,
    (run 10 100 (BotSwarm.run_sched (Sample.env_first 1 0%nat)) Sample.rng_half
       (connect (Sample.net_answering (Sample.response 1)) Sample.bot).1.1).2
    = Returned stats.
Proof.
  apply run_returns_statistics.
  - by vm_compute; eexists.
  - repeat split; try (vm_compute; congruence); by vm_compute; eexists.
  - vm_compute. congruence.
  - intros H. by vm_compute in H.
  - repeat constructor.
Defined.

End RunFacts.

(** ** The handshake and the teardown *)

Module HandshakeFacts.

Import PyFacts GameBot GameBotFacts CodecFacts.

(** What a parsed response leaves alone. *)
Lemma parse_connection_response_frame (now : Q) (data : bytes) (b : t) :
  exists b',
    _parse_connection_response now data b = Returned b'
    /\ config b' = config b /\ socket b' = socket b
    /\ Ledger.read b' = Ledger.read b.
Proof.
  destruct (Nat.lt_ge_cases (length data) 18) as [Hlt|Hge].
  { exists b. by rewrite parse_connection_response_short. }
  destruct (index_lt data 1 ltac:(lia)) as (s & Hs & _).
  destruct (Z.eq_dec (Z_of_byte s) 0) as [H0|Hne].
  { exists b. by rewrite (parse_connection_response_rejected now data b s). }
  unfold _parse_connection_response, index, bytes in *.
  destruct (Nat.ltb_spec (length data) 18); [lia|].
  rewrite Hs. cbn [mbind outcome_bind].
  apply Z.eqb_neq in Hne. rewrite Hne. cbn [negb].
  rewrite (unpack_I_slice data 2 6), (unpack_I_slice data 6 10),
    (unpack_I_slice data 10 14), (unpack_I_slice data 14 18) by lia.
  cbn [mbind outcome_bind mret outcome_ret].
  eexists. split; [reflexivity|]. by repeat split.
Qed.

Lemma wait_for_connection_frame (inbox : list recv_event) (b : t) :
  let b' := (_wait_for_connection inbox b).1 in
  config b' = config b /\ socket b' = socket b
  /\ packets_sent b' = packets_sent b /\ bytes_sent b' = bytes_sent b
  /\ sequence b' = sequence b
  /\ packets_received b <= packets_received b'
  /\ packets_received b' - packets_received b
     <= bytes_received b' - bytes_received b
  /\ snapshot_count b' = snapshot_count b.
Proof.
  cbn zeta. revert b. induction inbox as [|ev inbox IH]; intros b.
  { simpl. destruct (connected b), (socket b) eqn:Hs; cbn; rewrite ?Hs;
      repeat split; lia. }
  cbn [_wait_for_connection].
  destruct (connected b); [cbn; repeat split; lia|].
  destruct (socket b) as [sock|] eqn:Hsock; [|cbn; repeat split; (done || lia)].
  destruct ev as [now data| |].
  - destruct data as [|ty data'] eqn:Hdata.
    { cbn [length Nat.leb]. specialize (IH b). rewrite Hsock in IH. exact IH. }
    rewrite <- Hdata.
    replace (1 <=? length data)%nat with true by (subst data; done).
    assert (Hty : index data 0 = Returned ty) by (by subst data).
    rewrite Hty. cbn [mbind outcome_bind].
    assert (exists b1,
              (if Z_of_byte ty =? PACKET_CONNECTION_RESPONSE
               then _parse_connection_response now data b else Returned b)
              = Returned b1
              /\ config b1 = config b /\ socket b1 = socket b
              /\ Ledger.read b1 = Ledger.read b)
      as (b1 & -> & Hc & Hs & Hl).
    { destruct (Z_of_byte ty =? PACKET_CONNECTION_RESPONSE);
        [apply parse_connection_response_frame | by exists b]. }
    match goal with |- context [_wait_for_connection inbox ?b2] =>
      specialize (IH b2) end.
    cbn in IH. injection Hl as ? ? ? ? ? ? ? ?.
    assert (0 < Z.of_nat (length data)) by (subst data; cbn; lia).
    destruct IH as (Ec & Es & Eps & Ebs & Esq & Hr1 & Hr2 & Esn).
    rewrite Hsock in Hs. cbn. repeat split; try congruence; lia.
  - specialize (IH b). rewrite Hsock in IH. exact IH.
  - cbn. rewrite Hsock. repeat split; lia.
Qed.

Lemma connect_keeps_socket (env : ConnectEnv) (b : t) :
  open_ok env = true ->
  socket (connect env b).1.1
  = Some (UdpSocket (BotConfig.host (config b)) (BotConfig.port (config b))).
Proof.
  unfold connect. intros ->. cbn [negb].
  destruct (_create_connection_request _) as [pkt|e]; [|done].
  unfold _send_packet. cbn [socket set_socket].
  destruct (send_ok env); [|done].
  match goal with |- context [_wait_for_connection ?i ?b1] =>
    pose proof (wait_for_connection_frame i b1) as (_ & Hs & _);
    destruct (_wait_for_connection i b1) as [b' [| |e]] end;
    cbn [fst] in Hs; try done.
  by destruct (connected b').
Qed.

(** X11.  What [connect] does to the bot whatever the outcome.  When the
    socket cannot be opened the bot is left as it was.  Once the socket is
    open it is never closed by [connect]: after a timeout, a socket error,
    a refused send or a success, the bot still holds it.  When the request
    is sent it is counted as one packet of 13 bytes, and no sequence
    number is used. *)
Theorem connect_effects (env : ConnectEnv) (b : t) :
  let sock := UdpSocket (BotConfig.host (config b)) (BotConfig.port (config b)) in
  (open_ok env = false -> connect env b = (b, false, ReportFailed OSError))
  /\ (open_ok env = true -> socket (connect env b).1.1 = Some sock)
  /\ (open_ok env = true -> send_ok env = false ->
      0 <= BotConfig.bot_id (config b) < 2 ^ 64 ->
      connect env b = (set_socket (Some sock) b, false, ReportFailed OSError))
  /\ (open_ok env = true -> send_ok env = true ->
      0 <= BotConfig.bot_id (config b) < 2 ^ 64 ->
      packets_sent (connect env b).1.1 = packets_sent b + 1
      /\ bytes_sent (connect env b).1.1 = bytes_sent b + 13
      /\ sequence (connect env b).1.1 = sequence b).
Proof.
  cbn zeta.
  split; [unfold connect; by intros ->|].
  split; [apply connect_keeps_socket|].
  unfold connect.
  split.
  { intros -> -> Hid. cbn [negb].
    destruct (connection_request_returns (set_socket (Some (UdpSocket
                (BotConfig.host (config b)) (BotConfig.port (config b)))) b)
                Hid) as (pkt & -> & _).
    done. }
  intros -> -> Hid. cbn [negb].
  destruct (connection_request_returns (set_socket (Some (UdpSocket
              (BotConfig.host (config b)) (BotConfig.port (config b)))) b)
              Hid) as (pkt & -> & Hlen).
  unfold _send_packet. cbn [socket set_socket]. rewrite Hlen.
  match goal with |- context [_wait_for_connection ?i ?b1] =>
    pose proof (wait_for_connection_frame i b1) as (_ & _ & Hps & Hbs & Hsq & _);
    destruct (_wait_for_connection i b1) as [b' [| |e]] end;
    cbn in Hps, Hbs, Hsq; try (cbn; repeat split; lia).
  destruct (connected b'); cbn; repeat split; lia.
Qed.

Lemma connect_effects_witness :
  open_ok Sample.net_silent = true
  /\ (connect Sample.net_silent Sample.bot).1.2 = false
  /\ socket (connect Sample.net_silent Sample.bot).1.1
     = Some (UdpSocket "127.0.0.1" 7777).
Proof.
  split; [reflexivity|]. split; [reflexivity|].
  exact (proj1 (proj2 (connect_effects Sample.net_silent Sample.bot)) eq_refl).
Defined.

Lemma wait_takes_first_acceptance (inbox : list recv_event) (b : t)
    (now : Q) (data : bytes) :
  connected b = false -> is_Some (socket b) ->
  Handshake.first_acceptance inbox = Some (now, data) ->
  let b' := (_wait_for_connection inbox b).1 in
  connected b' = true
  /\ connection_id b' = Some (le_value (slice data 2 6))
  /\ entity_id b' = Some (le_value (slice data 6 10))
  /\ server_tick b' = le_value (slice data 10 14)
  /\ server_time b' = le_value (slice data 14 18)
  /\ start_time b' = now.
Proof.
  cbn zeta. revert b.
  induction inbox as [|ev inbox IH]; intros b Hc [sock Hsock] Hfirst; [done|].
  cbn [_wait_for_connection]. rewrite Hc, Hsock.
  destruct ev as [now' data'| |]; [| by apply IH; eauto | done].
  cbn [Handshake.first_acceptance] in Hfirst.
  destruct data' as [|ty rest] eqn:Hdata.
  { cbn [length Nat.leb]. apply IH; eauto. }
  rewrite <- Hdata in *.
  replace (1 <=? length data')%nat with true by (subst data'; done).
  assert (Hty : data' !! 0%nat = Some ty) by (by subst data').
  unfold index, bytes in *. rewrite Hty. cbn [mbind outcome_bind].
  destruct (Design.accepts (Datagram now' data')) eqn:Hacc.
  - injection Hfirst as -> ->.
    apply accepts_iff in Hacc as (ty' & s & Hty' & Hs & Htype & Hlen & Hne).
    assert (ty' = ty) as -> by (unfold bytes in *; congruence).
    apply Z.eqb_eq in Htype. rewrite Htype.
    destruct (parse_connection_response_accepted now data b s Hlen Hs Hne)
      as (b1 & -> & Hcon & _ & Hcid & Heid & Htick & Htime & Hst & _).
    rewrite wait_when_connected by done. by cbn.
  - destruct (wait_step now' data' ty b Hc Hty) as (b1 & -> & Hc1 & Hs1).
    rewrite Hacc in Hc1.
    apply IH; [done | cbn; rewrite Hs1, Hsock; eauto | done].
Qed.

(** X12.  A handshake ends on the first acceptance it receives: [connect]
    returns [True] and the bot holds the connection id, entity id, server
    tick and server time of that datagram (little-endian u32 at offsets 2,
    6, 10 and 14) and the clock reading of its reception as start time;
    whatever follows it in the inbox does not change them. *)
Theorem connect_takes_first_acceptance (env : ConnectEnv) (b : t)
    (now : Q) (data : bytes) :
  connected b = false -> open_ok env = true -> send_ok env = true ->
  0 <= BotConfig.bot_id (config b) < 2 ^ 64 ->
  Handshake.first_acceptance (inbox env) = Some (now, data) ->
  (connect env b).1.2 = true
  /\ connected (connect env b).1.1 = true
  /\ connection_id (connect env b).1.1 = Some (le_value (slice data 2 6))
  /\ entity_id (connect env b).1.1 = Some (le_value (slice data 6 10))
  /\ server_tick (connect env b).1.1 = le_value (slice data 10 14)
  /\ server_time (connect env b).1.1 = le_value (slice data 14 18)
  /\ start_time (connect env b).1.1 = now.
Proof.
  intros Hc Hopen Hsend Hid Hfirst. unfold connect.
  rewrite Hopen, Hsend. cbn [negb].
  destruct (connection_request_returns (set_socket (Some (UdpSocket
              (BotConfig.host (config b)) (BotConfig.port (config b)))) b)
              Hid) as (pkt & -> & _).
  unfold _send_packet. cbn [socket set_socket].
  match goal with |- context [_wait_for_connection ?i ?b1] =>
    pose proof (wait_takes_first_acceptance i b1 now data) as H;
    pose proof (wait_when_connected [] b1) as Hw;
    destruct (_wait_for_connection i b1) as [b' res] eqn:Hwait end.
  cbn [fst] in H. destruct H as (Hcon & Hrest); [done | by eexists | done |].
  assert (res = WaitReturned) as ->.
  { match type of Hwait with _wait_for_connection ?i ?b1 = _ =>
      destruct (wait_for_connection_accepted i b1) as (b2 & res2 & Hw2 & Hc2 & Hr2);
        [done | by eexists |] end.
    rewrite Hwait in Hw2. injection Hw2 as <- <-.
    apply Hr2. by rewrite <- Hc2. }
  rewrite Hcon. by cbn.
Qed.

Lemma connect_takes_first_acceptance_witness :
  (connect (Sample.net_answering (Sample.response 1)) Sample.bot).1.2 = true
  /\ connection_id
       (connect (Sample.net_answering (Sample.response 1)) Sample.bot).1.1
     = Some 7.
Proof.
  destruct (connect_takes_first_acceptance
              (Sample.net_answering (Sample.response 1)) Sample.bot
              100 (Sample.response 1) eq_refl eq_refl eq_refl
              ltac:(simpl; lia) eq_refl) as (Hok & _ & Hcid & _).
  split; [exact Hok | exact Hcid].
Defined.

(** X13.  [disconnect] is idempotent and final: from any state it leaves
    the bot without socket and not connected, a second call changes
    nothing, no counter is touched (so [get_stats] reports the same), a
    later send raises, and a later [run] does nothing but return the
    statistics. *)
Theorem disconnect_is_final (b : t) :
  disconnect (disconnect b) = disconnect b
  /\ socket (disconnect b) = None /\ connected (disconnect b) = false
  /\ Ledger.read (disconnect b) = Ledger.read b
  /\ (forall now, get_stats now (disconnect b) = get_stats now b)
  /\ (forall ok data, _send_packet ok data (disconnect b) = Raised AttributeError)
  /\ (forall duration now sched r,
        run duration now sched r (disconnect b)
        = (disconnect b, r, get_stats now b)).
Proof.
  assert (Hsock : socket (disconnect b) = None).
  { unfold disconnect. by destruct (socket b) eqn:Hs. }
  assert (Hstats : forall now, get_stats now (disconnect b) = get_stats now b).
  { intros now. unfold disconnect. by destruct (socket b). }
  split.
  { unfold disconnect at 1. rewrite Hsock. unfold disconnect.
    by destruct (socket b), b. }
  split; [done|]. split; [unfold disconnect; by destruct (socket b)|].
  split; [unfold disconnect; by destruct (socket b)|].
  split; [done|].
  split; [intros ok data; unfold _send_packet; by rewrite Hsock|].
  intros duration now sched r. unfold run.
  replace (connected (disconnect b)) with false
    by (unfold disconnect; by destruct (socket b)).
  cbn [negb]. by rewrite Hstats.
Qed.

End HandshakeFacts.

(** ** The swarm, end to end *)

Module SwarmFacts.

Import PyFacts GameBotFacts CodecFacts BotSwarm BotSwarmFacts.

Lemma get_stats_inv (now : Q) (b : GameBot.t) (s : Stats.t) :
  GameBot.get_stats now b = Returned s ->
  (1 # 1000 <= Stats.duration_seconds s)%Q
  /\ Stats.connection_id s = GameBot.connection_id b
  /\ Stats.entity_id s = GameBot.entity_id b
  /\ Stats.bot_id s = BotConfig.bot_id (GameBot.config b).
Proof.
  pose proof (elapsed_floor now b) as He. unfold GameBot.get_stats.
  rewrite !truediv_returns by lra.
  cbn [mbind outcome_bind mret outcome_ret]. by intros [= <-].
Qed.

Lemma run_stats_inv (duration now : Q) (sched : list GameBot.run_event)
    (r : Rng) (b : GameBot.t) (s : Stats.t) :
  (GameBot.run duration now sched r b).2 = Returned s ->
  (1 # 1000 <= Stats.duration_seconds s)%Q
  /\ Stats.connection_id s = GameBot.connection_id b
  /\ Stats.entity_id s = GameBot.entity_id b.
Proof.
  pose proof (run_identity duration now sched r b) as [Hc He].
  unfold GameBot.run in *.
  destruct (GameBot.connected b); cbn [negb] in *.
  2:{ intros (? & ? & ? & _)%get_stats_inv. done. }
  destruct (truediv 1 _) as [interval|e]; [|done].
  destruct (GameBot.run_loop _ _ _ _ _ _ _ _ _) as [[[b' r'] clock] [e|]];
    [done|].
  cbn [fst snd] in *. intros (? & ? & ? & _)%get_stats_inv.
  split; [done|]. split; congruence.
Qed.

Lemma returned_from_runs (env : nat -> BotEnv) (self : t) (s : Stats.t) :
  s ∈ returned (run env self) ->
  exists i bot,
    (GameBot.run (duration self) (run_start (env i)) (run_sched (env i))
       (rng (env i)) bot).2 = Returned s
    /\ exists bot0 report,
         create_bots env self !! i = Some bot0
         /\ GameBot.connect (connect_env (env i)) bot0 = (bot, true, report).
Proof.
  unfold run. cbn zeta. cbn [bots with_bots duration].
  destruct (filter _ _) as [|c cs]; cbn [returned]; [by intros ?%elem_of_nil|].
  intros (p & Hp & Hs)%list_elem_of_omap.
  unfold run_connected in Hp.
  apply elem_of_lookup_imap in Hp as (i & [bot1 ok] & -> & Hi).
  rewrite list_lookup_imap in Hi.
  destruct (create_bots env self !! i) as [bot0|] eqn:Hbot0; [|done].
  cbn in Hi.
  destruct (GameBot.connect (connect_env (env i)) bot0) as [[bot2 ok2] rep]
    eqn:Hconn.
  injection Hi as <- <-.
  destruct ok2; [|done].
  destruct (GameBot.run _ _ _ _ bot2) as [[bot3 r3] st] eqn:Hrun.
  cbn [snd] in Hs. destruct st as [s'|e]; [|done]. injection Hs as ->.
  exists i, bot2. rewrite Hrun. split; [done|]. by exists bot0, rep.
Qed.

Lemma print_summary_returns (stats : list Stats.t) :
  Forall (fun s => (0 < Stats.duration_seconds s)%Q) stats ->
  exists r, Summary.print_summary stats = Returned r
            /\ (stats <> [] -> is_Some r).
Proof.
  intros Hpos. destruct stats as [|s0 rest]; [by exists None|].
  unfold Summary.print_summary.
  set (d := Summary.max_of (Stats.duration_seconds s0)
              (Stats.duration_seconds <$> rest)).
  set (len := inject_Z (Z.of_nat (length (s0 :: rest)))).
  assert (Hd : (0 < d)%Q).
  { pose proof (SummaryFacts.max_of_ge_first (Stats.duration_seconds s0)
                  (Stats.duration_seconds <$> rest)) as Hge.
    apply Forall_cons in Hpos as [H0 _]. fold d in Hge. lra. }
  assert (Hlen : (0 < len)%Q).
  { subst len. change 0%Q with (inject_Z 0). rewrite <- Zlt_Qlt. simpl. lia. }
  repeat (rewrite truediv_returns by (assumption || reflexivity);
          cbn [mbind outcome_bind]).
  cbn [mret outcome_ret]. eexists. split; [reflexivity|]. by eexists.
Qed.

(** X15.  Whatever the network does, the statistics [BotSwarm.run]
    returns can be handed to [print_summary], as [main] does: every
    record has a duration of at least 0.001 s, so no division of
    [print_summary] raises; it prints its figures when the list is not
    empty. *)
Theorem swarm_statistics_printable (env : nat -> BotEnv) (self : t) :
  Forall (fun s => (1 # 1000 <= Stats.duration_seconds s)%Q)
    (returned (run env self))
  /\ exists r, Summary.print_summary (returned (run env self)) = Returned r
               /\ (returned (run env self) <> [] -> is_Some r).
Proof.
  assert (H : Forall (fun s => (1 # 1000 <= Stats.duration_seconds s)%Q)
                (returned (run env self))).
  { apply Forall_forall. intros s Hs.
    apply returned_from_runs in Hs as (i & bot & Hrun & _).
    by apply run_stats_inv in Hrun as [? _]. }
  split; [done|]. apply print_summary_returns.
  eapply Forall_impl; [exact H|]. intros s Hs. cbn in Hs. lra.
Qed.

Lemma length_omap_le {A B} (f : A -> option B) (l : list A) :
  (length (omap f l) <= length l)%nat.
Proof.
  induction l as [|x l IH]; [done|]. cbn. destruct (f x); cbn; lia.
Qed.

Lemma accepted_first (inbox : list GameBot.recv_event) :
  Design.accepted inbox = true ->
  exists now data, Handshake.first_acceptance inbox = Some (now, data).
Proof.
  induction inbox as [|ev inbox IH]; [done|].
  destruct ev as [now data| |]; cbn [Design.accepted Handshake.first_acceptance];
    [|done..].
  destruct (Design.accepts (GameBot.Datagram now data)); [by eexists _, _|].
  done.
Qed.

Lemma connect_ok_ids (env : GameBot.ConnectEnv) (b b' : GameBot.t)
    (report : GameBot.connect_report) :
  GameBot.connected b = false ->
  GameBot.connect env b = (b', true, report) ->
  is_Some (GameBot.connection_id b') /\ is_Some (GameBot.entity_id b').
Proof.
  intros Hc. unfold GameBot.connect.
  destruct (GameBot.open_ok env); cbn [negb]; [|done].
  destruct (GameBot._create_connection_request _) as [pkt|e]; [|done].
  unfold GameBot._send_packet. cbn [GameBot.socket GameBot.set_socket].
  destruct (GameBot.send_ok env); [|done].
  match goal with |- context [GameBot._wait_for_connection ?i ?b1] =>
    destruct (wait_for_connection_accepted i b1)
      as (b2 & res & Hw & Hc2 & Hres); [done | by eexists |];
    pose proof (HandshakeFacts.wait_takes_first_acceptance i b1) as Hfirst;
    rewrite Hw in Hfirst |- *; cbn [fst] in Hfirst end.
  destruct res as [| |e]; [|done..].
  destruct (GameBot.connected b2) eqn:Hcon; [|done].
  intros [= <- _].
  destruct (accepted_first (GameBot.inbox env)) as (now & data & Hf);
    [congruence|].
  destruct (Hfirst now data) as (_ & -> & -> & _); [done | by eexists | done |].
  by eauto.
Qed.

(** X16.  For a swarm as its constructor leaves it, [run] returns at
    most one record per configured bot, and every record returned is of a
    bot that completed its handshake: it carries the connection id and the
    entity id the server assigned. *)
Theorem returned_statistics_are_of_connected_bots
    (env : nat -> BotEnv) (self : t) :
  bots self = [] ->
  (length (returned (run env self)) <= Z.to_nat (bot_count self))%nat
  /\ Forall (fun s => is_Some (Stats.connection_id s)
                      /\ is_Some (Stats.entity_id s))
       (returned (run env self)).
Proof.
  intros Hfresh. split.
  - unfold run. cbn zeta. cbn [bots with_bots duration].
    destruct (filter _ _) as [|c cs]; cbn [returned length]; [lia|].
    etrans; [apply length_omap_le|].
    unfold run_connected. rewrite !length_imap.
    unfold create_bots. rewrite Hfresh, app_nil_l, length_fmap, length_seq.
    done.
  - apply Forall_forall. intros s Hs.
    apply returned_from_runs in Hs
      as (i & bot & Hrun & bot0 & report & Hbot0 & Hconn).
    apply run_stats_inv in Hrun as (_ & -> & ->).
    eapply connect_ok_ids; [|exact Hconn].
    unfold create_bots in Hbot0. rewrite Hfresh, app_nil_l in Hbot0.
    apply list_lookup_fmap_Some in Hbot0 as (j & -> & _). done.
Qed.

(** X14.  The two ends of [BotSwarm.run].  When the run phase is
    reached, [disconnect] is called once on every bot, whatever its run
    returned or raised, and every bot ends without socket and not
    connected.  When no bot connected, [run] returns the empty list and
    calls [disconnect] on no bot: every bot whose socket could be opened
    still holds it. *)
Theorem teardown_on_each_path (env : nat -> BotEnv) (self : t) :
  (ran (run env self) = true ->
   forall i bot, bots (swarm (run env self)) !! i = Some bot ->
     invocations (CallDisconnect i) (calls (run env self)) = 1%nat
     /\ GameBot.socket bot = None /\ GameBot.connected bot = false)
  /\ (ran (run env self) = false ->
      returned (run env self) = []
      /\ forall i bot0,
           create_bots env self !! i = Some bot0 ->
           GameBot.open_ok (connect_env (env i)) = true ->
           invocations (CallDisconnect i) (calls (run env self)) = 0%nat
           /\ exists bot, bots (swarm (run env self)) !! i = Some bot
                          /\ is_Some (GameBot.socket bot)).
Proof.
  split; [apply teardown_after_run_phase|].
  intros Hran. split.
  { revert Hran. unfold run. cbn zeta. by destruct (filter _ _). }
  intros i bot0 Hbot0 Hopen.
  split; [by apply no_teardown_on_early_return|].
  revert Hran. unfold run. cbn zeta. cbn [bots with_bots].
  destruct (filter _ _) as [|c cs]; [|done]. intros _.
  cbn [swarm bots with_bots].
  rewrite list_lookup_fmap, list_lookup_imap, Hbot0. cbn.
  pose proof (HandshakeFacts.connect_keeps_socket (connect_env (env i)) bot0
                Hopen) as Hsock.
  destruct (GameBot.connect (connect_env (env i)) bot0) as [[bot ok] rep].
  cbn in *. eexists. split; [reflexivity|]. by rewrite Hsock.
Qed.

Lemma teardown_on_each_path_witness :
  ran (run (Sample.env_first 1) (Sample.swarm 1)) = true
  /\ invocations (CallDisconnect 0)
       (calls (run (Sample.env_first 1) (Sample.swarm 1))) = 1%nat.
Proof.
  assert (Hran : ran (run (Sample.env_first 1) (Sample.swarm 1)) = true)
    by reflexivity.
  split; [exact Hran|].
  destruct (bots (swarm (run (Sample.env_first 1) (Sample.swarm 1))) !! 0%nat)
    as [bot|] eqn:Hbot; [|by vm_compute in Hbot].
  exact (proj1 (proj1 (teardown_on_each_path (Sample.env_first 1)
                         (Sample.swarm 1)) Hran 0%nat bot Hbot)).
Defined.

Lemma returned_statistics_are_of_connected_bots_witness :
  bots (Sample.swarm 2) = []
  /\ (length (returned (run (Sample.env_first 1) (Sample.swarm 2))) <= 2)%nat.
Proof.
  split; [reflexivity|].
  exact (proj1 (returned_statistics_are_of_connected_bots
                  (Sample.env_first 1) (Sample.swarm 2) eq_refl)).
Defined.

End SwarmFacts.

(** ** The batches of the 1000-connection test *)

Module BatchFacts.

Import StressTest.

Lemma batches_concat (clients : list nat) (m : nat) :
  concat ((fun i => take batch_size (drop i clients))
          <$> ((fun k => k * batch_size)%nat <$> seq 0 m))
  = take (m * batch_size) clients.
Proof.
  induction m as [|m IH]; [done|].
  rewrite seq_S, !fmap_app, concat_app, IH. cbn [fmap list_fmap concat Nat.add].
  rewrite app_nil_r, take_take_drop. f_equal. lia.
Qed.

(** X17.  The batches of the connection loop of [StressTest.run]
    partition the clients: put end to end, in order, they are the list of
    clients, and each holds at least one and at most 100 clients. *)
Theorem batches_partition_clients (clients : list nat) :
  let batches := (fun i => take batch_size (drop i clients))
                 <$> batch_starts (length clients) in
  concat batches = clients
  /\ Forall (fun batch => (0 < length batch <= batch_size)%nat) batches.
Proof.
  cbn zeta. unfold batch_starts. split.
  - rewrite batches_concat. apply take_ge. unfold batch_size.
    pose proof (Nat.div_mod_eq (length clients + 100 - 1) 100).
    pose proof (Nat.mod_upper_bound (length clients + 100 - 1) 100). lia.
  - apply Forall_forall. intros batch Hbatch.
    apply list_elem_of_fmap in Hbatch as (i & -> & Hi).
    apply list_elem_of_fmap in Hi as (k & -> & Hk).
    apply elem_of_seq in Hk as [_ Hk].
    rewrite length_take, length_drop. unfold batch_size in *.
    pose proof (Nat.div_mod_eq (length clients + 100 - 1) 100).
    pose proof (Nat.mod_upper_bound (length clients + 100 - 1) 100). lia.
Qed.

End BatchFacts.

(** ** The stand-in clients and the quality gate of
       [test_1000_connections.py] *)

Module QualityGateFacts.

Import Statistics StressTestClient QualityGate.

(** How many samples the loop of [run] takes over iterations
    [s, s + n): one for every multiple of 60. *)
Lemma multiples_step (s : Z) :
  0 <= s ->
  (s + 1 + 59) / 60 = (s + 59) / 60 + (if s mod 60 =? 0 then 1 else 0).
Proof.
  intros Hs. destruct (Z.eqb_spec (s mod 60) 0); Z.div_mod_to_equations; lia.
Qed.

Lemma run_loop_effect (ticks : list tick) (c : t) :
  0 <= sequence c ->
  let c' := run_loop ticks c in
  let n := Z.of_nat (length ticks) in
  running c' = running c
  /\ sequence c' = sequence c + n
  /\ ConnectionStats.connected_at (stats c')
     = ConnectionStats.connected_at (stats c)
  /\ ConnectionStats.disconnected_at (stats c')
     = ConnectionStats.disconnected_at (stats c)
  /\ ConnectionStats.packets_sent (stats c')
     = ConnectionStats.packets_sent (stats c) + n
  /\ ConnectionStats.bytes_sent (stats c')
     = ConnectionStats.bytes_sent (stats c) + 17 * n
  /\ ConnectionStats.packets_received (stats c')
     = ConnectionStats.packets_received (stats c) + n
  /\ ConnectionStats.bytes_received (stats c')
     = ConnectionStats.bytes_received (stats c) + received ticks
  /\ Z.of_nat (length (ConnectionStats.rtt_samples (stats c')))
     = Z.of_nat (length (ConnectionStats.rtt_samples (stats c)))
       + ((sequence c + n + 59) / 60 - (sequence c + 59) / 60).
Proof.
  revert c. induction ticks as [|tk ticks IH]; intros c Hs.
  - cbn [run_loop length]. change (Z.of_nat 0) with 0. cbn zeta.
    cbn [received foldr]. rewrite !Z.add_0_r. repeat split; lia.
  - cbn [run_loop].
    set (c1 := with_sequence _ _).
    assert (Hs1 : sequence c1 = sequence c + 1) by
      (subst c1; cbn; by destruct (_ =? _)).
    specialize (IH c1 ltac:(lia)). cbn zeta in IH.
    destruct IH as (Hr & Hq & Hc & Hd & Hps & Hbs & Hpr & Hbr & Hl).
    cbn zeta. rewrite Hr, Hq, Hc, Hd, Hps, Hbs, Hpr, Hbr, Hl, Hs1.
    rewrite length_cons, Nat2Z.inj_succ.
    pose proof (multiples_step (sequence c) Hs) as Hstep.
    subst c1. cbn [received foldr].
    change (sequence (receive_snapshot (snapshot_size tk) (send_input c)))
      with (sequence c) in *.
    replace (sequence c + 1 + Z.of_nat (length ticks))
      with (sequence c + Z.succ (Z.of_nat (length ticks))) by lia.
    revert Hstep. unfold received.
    destruct (sequence c mod 60 =? 0); intros Hstep; cbn;
      rewrite ?length_app, ?Nat2Z.inj_add; cbn [length];
      repeat split; try lia; try reflexivity.
Qed.

Lemma received_bounds (ticks : list tick) :
  Forall (fun tk => 100 <= snapshot_size tk <= 1500) ticks ->
  100 * Z.of_nat (length ticks) <= received ticks
  <= 1500 * Z.of_nat (length ticks).
Proof.
  induction 1 as [|tk ticks Htk _ IH]; cbn [received foldr length]; [lia|].
  fold (received ticks). lia.
Qed.

Lemma run_disconnects (ticks : list tick) (finish : Q) (c : t) :
  running c = true -> 0 <= sequence c ->
  ConnectionStats.disconnected_at
    (stats (StressTestClient.run ticks finish c)) = Some finish.
Proof.
  intros Hrun Hs.
  destruct (run_loop_effect ticks c Hs) as (Hr & _).
  unfold StressTestClient.run. rewrite Hrun. cbn [negb].
  unfold disconnect. rewrite Hr, Hrun. reflexivity.
Qed.

(** X18.  A connected client, with a sequence number that is not negative,
    that runs for [n] iterations of its 60 Hz loop ends disconnected,
    with the clock reading of the end as its disconnection time; it has
    then counted [n] more packets sent and 17 bytes for each, [n] more
    snapshots received and, when every snapshot size is drawn from 100
    to 1500, between [100 n] and [1500 n] bytes for them, and one more
    round-trip sample for every iteration whose sequence number is a
    multiple of 60. *)
Theorem client_run_accounting (ticks : list tick) (finish : Q) (c : t) :
  running c = true ->
  0 <= sequence c ->
  Forall (fun tk => 100 <= snapshot_size tk <= 1500) ticks ->
  let c' := StressTestClient.run ticks finish c in
  let n := Z.of_nat (length ticks) in
  running c' = false
  /\ ConnectionStats.disconnected_at (stats c') = Some finish
  /\ ConnectionStats.connected_at (stats c')
     = ConnectionStats.connected_at (stats c)
  /\ sequence c' = sequence c + n
  /\ ConnectionStats.packets_sent (stats c')
     = ConnectionStats.packets_sent (stats c) + n
  /\ ConnectionStats.bytes_sent (stats c')
     = ConnectionStats.bytes_sent (stats c) + 17 * n
  /\ ConnectionStats.packets_received (stats c')
     = ConnectionStats.packets_received (stats c) + n
  /\ 100 * n
     <= ConnectionStats.bytes_received (stats c')
        - ConnectionStats.bytes_received (stats c)
     <= 1500 * n
  /\ Z.of_nat (length (ConnectionStats.rtt_samples (stats c')))
     = Z.of_nat (length (ConnectionStats.rtt_samples (stats c)))
       + ((sequence c + n + 59) / 60 - (sequence c + 59) / 60).
Proof.
  intros Hrun Hs Hsizes. cbn zeta.
  destruct (run_loop_effect ticks c Hs)
    as (Hr & Hq & Hc & Hd & Hps & Hbs & Hpr & Hbr & Hl).
  pose proof (received_bounds ticks Hsizes) as Hb.
  unfold StressTestClient.run. rewrite Hrun. cbn [negb].
  unfold disconnect. rewrite Hr, Hrun. cbn.
  repeat split; try assumption; lia.
Qed.

Lemma client_run_accounting_witness :
  let c := (connect (Returned 5%Q) (init "127.0.0.1" 7777 0)).1 in
  let ticks := replicate 61 {| snapshot_size := 100; rtt := 10 |} in
  let c' := StressTestClient.run ticks 7 c in
  running c' = false
  /\ ConnectionStats.packets_sent (stats c') = 61
  /\ ConnectionStats.bytes_sent (stats c') = 1037
  /\ Z.of_nat (length (ConnectionStats.rtt_samples (stats c'))) = 2.
Proof.
  cbn zeta.
  pose proof (client_run_accounting
                (replicate 61 {| snapshot_size := 100; rtt := 10 |}) 7
                (connect (Returned 5%Q) (init "127.0.0.1" 7777 0)).1
                eq_refl ltac:(cbn; lia)
                ltac:(apply Forall_replicate; cbn; lia)) as H.
  cbn zeta in H.
  destruct H as (Hr & _ & _ & _ & Hps & Hbs & _ & _ & Hl).
  split; [exact Hr|]. split; [exact Hps|]. split; [exact Hbs|]. exact Hl.
Defined.

(** *** The reports *)

Lemma mean_returns (x : Q) (xs : list Q) :
  mean (x :: xs)
  = Value (fsum (x :: xs) / inject_Z (Z.of_nat (length (x :: xs))))%Q.
Proof. reflexivity. Qed.

Lemma length_positive_Q (n : nat) : (0 < inject_Z (Z.of_nat (S n)))%Q.
Proof. change 0%Q with (inject_Z 0). rewrite <- Zlt_Qlt. lia. Qed.

Lemma ltb_true (x y : Q) : ltb x y = true -> (x < y)%Q.
Proof.
  unfold ltb. rewrite negb_true_iff. intros H.
  apply Qnot_le_lt. intros Hle. apply Qle_bool_iff in Hle. congruence.
Qed.

(** The index of the 95th percentile of [print_results] is in range. *)
Lemma p95_index_in_range (n : nat) :
  0 <= Py.int (inject_Z (Z.of_nat (S n)) * (95 # 100)) < Z.of_nat (S n).
Proof.
  rewrite PyFacts.int_floor_nonneg.
  - rewrite EnhancedFacts.floor_scaled_index.
    split; [apply Z.div_pos; lia|].
    apply Z.div_lt_upper_bound; lia.
  - apply Qmult_le_0_compat; [|discriminate].
    change 0%Q with (inject_Z 0). rewrite <- Zle_Qle. lia.
Qed.

Lemma p95_returns (x : Q) (xs : list Q) :
  exists p,
    Enhanced.getitem (merge_sort Qle (x :: xs))
      (Py.int (inject_Z (Z.of_nat (length (x :: xs))) * (95 # 100)))
    = Returned p.
Proof.
  destruct (EnhancedFacts.getitem_in_range (merge_sort Qle (x :: xs))
              (Py.int (inject_Z (Z.of_nat (length (x :: xs))) * (95 # 100))))
    as (p & _ & Hp).
  - rewrite (Permutation_length (merge_sort_Permutation Qle (x :: xs))).
    apply p95_index_in_range.
  - by exists p.
Qed.

Lemma durations_length (clock : nat -> Q) (clients : list t) :
  length (durations clock clients) = length clients.
Proof. apply length_imap. Qed.

Lemma print_results_returns (clock : nat -> Q) (c : t) (clients : list t) :
  exists p, print_results clock (c :: clients) = Value p.
Proof.
  assert (Hlen : (0 < inject_Z (Z.of_nat (length (c :: clients))))%Q)
    by apply length_positive_Q.
  unfold print_results.
  destruct (all_rtts (c :: clients)) as [|x xs] eqn:Er.
  - cbn [mbind result_bind].
    destruct (durations clock (c :: clients)) as [|d ds] eqn:Ed;
      [by apply (f_equal length) in Ed|].
    rewrite mean_returns. cbn [mbind result_bind].
    destruct (ltb 0 _) eqn:Epos; [|by eexists].
    apply ltb_true in Epos.
    rewrite !(GameBotFacts.truediv_returns _ _ Hlen).
    cbn [builtin mbind result_bind].
    rewrite !(GameBotFacts.truediv_returns _ _ Epos).
    cbn [builtin mbind result_bind]. by eexists.
  - rewrite mean_returns. cbn [mbind result_bind].
    destruct (p95_returns x xs) as (p & ->). cbn [builtin mbind result_bind].
    destruct (durations clock (c :: clients)) as [|d ds] eqn:Ed;
      [by apply (f_equal length) in Ed|].
    rewrite mean_returns. cbn [mbind result_bind].
    destruct (ltb 0 _) eqn:Epos; [|by eexists].
    apply ltb_true in Epos.
    rewrite !(GameBotFacts.truediv_returns _ _ Hlen).
    cbn [builtin mbind result_bind].
    rewrite !(GameBotFacts.truediv_returns _ _ Epos).
    cbn [builtin mbind result_bind]. by eexists.
Qed.

(** [verify_requirements] on a non-empty list returns; its verdict is
    [False] with fewer than 1000 active clients. *)
Lemma verify_requirements_returns (clock : nat -> Q) (c : t)
    (clients : list t) :
  exists passed,
    verify_requirements clock (c :: clients) = Value passed
    /\ (passed = true -> 1000 <= active (c :: clients)).
Proof.
  assert (Hlen : (0 < inject_Z (Z.of_nat (length (c :: clients))))%Q)
    by apply length_positive_Q.
  unfold verify_requirements.
  destruct (Z.leb_spec 1000 (active (c :: clients))) as [Ha|Ha].
  - destruct (durations clock (c :: clients)) as [|d ds] eqn:Ed;
      [by apply (f_equal length) in Ed|].
    destruct (all_rtts (c :: clients)) as [|x xs] eqn:Er;
      [|rewrite mean_returns]; cbn [mbind result_bind];
      rewrite mean_returns; cbn [mbind result_bind];
      (destruct (ltb 0 _) eqn:Epos; [|by eexists]);
      apply ltb_true in Epos;
      rewrite !(GameBotFacts.truediv_returns _ _ Hlen);
      cbn [builtin mbind result_bind];
      rewrite !(GameBotFacts.truediv_returns _ _ Epos);
      cbn [builtin mbind result_bind]; by eexists.
  - assert (Hno : forall b : bool,
               (if b then false else false) = true -> 1000 <= active (c :: clients))
      by (by intros []).
    destruct (durations clock (c :: clients)) as [|d ds] eqn:Ed;
      [by apply (f_equal length) in Ed|].
    destruct (all_rtts (c :: clients)) as [|x xs] eqn:Er;
      [|rewrite mean_returns]; cbn [mbind result_bind];
      rewrite mean_returns; cbn [mbind result_bind];
      (destruct (ltb 0 _) eqn:Epos;
       [|eexists; split; [reflexivity|first [discriminate | apply Hno]]]);
      apply ltb_true in Epos;
      rewrite !(GameBotFacts.truediv_returns _ _ Hlen);
      cbn [builtin mbind result_bind];
      rewrite !(GameBotFacts.truediv_returns _ _ Epos);
      cbn [builtin mbind result_bind];
      eexists; (split; [reflexivity|]);
      repeat match goal with |- context [if ?b then _ else _] => destruct b end;
      discriminate.
Qed.

(** X19.  The two reports raise exactly when the list of clients is empty,
    and then [StatisticsError], from the mean of no durations; on any
    other list both return: the index of the 95th percentile is in range
    and no division is by zero. *)
Theorem reports_raise_iff_no_clients (clock : nat -> Q) (clients : list t) :
  match clients with
  | [] =>
      print_results clock clients = Raise StatisticsError
      /\ verify_requirements clock clients = Raise StatisticsError
  | _ :: _ =>
      (exists p, print_results clock clients = Value p)
      /\ (exists passed, verify_requirements clock clients = Value passed)
  end.
Proof.
  destruct clients as [|c clients]; [by split|].
  split; [apply print_results_returns|].
  destruct (verify_requirements_returns clock c clients) as (b & Hb & _).
  by exists b.
Qed.

(** *** The whole test *)

Lemma imap_fmap_seq {A B : Type} (g : nat -> A -> B) (h : nat -> A)
    (j n : nat) :
  imap (fun i => g (j + i)%nat) (h <$> seq j n)
  = (fun i => g i (h i)) <$> seq j n.
Proof.
  revert j g. induction n as [|n IH]; intros j g; [done|].
  cbn [seq fmap list_fmap]. rewrite imap_cons, Nat.add_0_r. f_equal.
  rewrite <- IH. apply imap_ext. intros i x _. cbn.
  by replace (j + S i)%nat with (S j + i)%nat by lia.
Qed.

Lemma final_clients (env : Env) (host : string) (port : Z) (n : nat) :
  run_all env
    (connect_all env ((fun i => init host port (Z.of_nat i)) <$> seq 0 n))
  = final env host port <$> seq 0 n.
Proof.
  unfold run_all, connect_all.
  rewrite (imap_fmap_seq (fun i c => (connect (wake env i) c).1) _ 0 n).
  rewrite (imap_fmap_seq
             (fun i c => StressTestClient.run (ticks env i) (finish env i) c) _ 0 n).
  reflexivity.
Qed.

Lemma final_disconnected (env : Env) (host : string) (port : Z) (i : nat) :
  ConnectionStats.disconnected_at (stats (final env host port i))
  = match wake env i with
    | Returned _ => Some (finish env i)
    | Raised _ => None
    end.
Proof.
  unfold final. destruct (wake env i) as [now|e]; cbn [connect fst].
  - apply run_disconnects; cbn; [reflexivity|lia].
  - reflexivity.
Qed.

(** A client is counted as active after the run phase exactly when its
    [connect] did not return [True]. *)
Lemma active_or_connected (env : Env) (host : string) (port : Z)
    (connect_result : nat -> outcome bool) (l : list nat) :
  (forall i, i ∈ l ->
     connect_result i
     = (connect (wake env i) (init host port (Z.of_nat i))).2) ->
  active (final env host port <$> l)
  + StressTest.successes (connect_result <$> l)
  = Z.of_nat (length l).
Proof.
  unfold active, StressTest.successes.
  induction l as [|i l IH]; intros Hc; [done|].
  rewrite !fmap_cons.
  specialize (IH (fun j Hj => Hc j (list_elem_of_further _ _ _ Hj))).
  pose proof (final_disconnected env host port i) as Hf.
  pose proof (Hc i (list_elem_of_here _ _)) as Hi.
  destruct (wake env i) as [now|e]; cbn [connect fst snd] in Hi.
  - rewrite (filter_cons_False _ (final env host port i)) by congruence.
    rewrite (filter_cons_True _ (connect_result i)) by congruence.
    cbn [length] in *. lia.
  - rewrite (filter_cons_True _ (final env host port i)) by congruence.
    rewrite (filter_cons_False _ (connect_result i)) by congruence.
    cbn [length] in *. lia.
Qed.

Lemma run_unfold (env : Env) (host : string) (port : Z) (n : Z) :
  exists connected,
    connected + active (final env host port <$> seq 0 (Z.to_nat n))
    = Z.of_nat (Z.to_nat n)
    /\ QualityGate.run env host port n
       = if ltb (inject_Z connected) (inject_Z n * (95 # 100))%Q
         then Value false
         else
           _printed ← print_results (print_clock env)
                         (final env host port <$> seq 0 (Z.to_nat n));
           verify_requirements (verify_clock env)
             (final env host port <$> seq 0 (Z.to_nat n)).
Proof.
  unfold QualityGate.run.
  rewrite final_clients, StressTestFacts.connect_in_batches_counts.
  rewrite length_fmap, length_seq.
  eexists. split; [|reflexivity].
  match goal with
  | |- StressTest.successes (?f <$> _) + _ = _ =>
      pose proof (active_or_connected env host port f (seq 0 (Z.to_nat n)))
        as Hsum
  end.
  rewrite length_seq in Hsum. rewrite Z.add_comm. apply Hsum.
  intros i Hi. apply elem_of_seq in Hi.
  rewrite list_lookup_fmap, lookup_seq_lt by lia. reflexivity.
Qed.

(** X20.  The test as [main] starts it returns [False] for every number of
    connections from 1 to 19999, whatever the clients measure: a client
    that connected has disconnected when its run ends, so only clients
    that failed to connect count as active, at most 5% of them may fail,
    and the gate wants 1000 active clients. *)
Theorem gate_fails_below_20000_connections (env : Env) (host : string)
    (port : Z) (num_connections : Z) :
  0 < num_connections < 20000 ->
  QualityGate.run env host port num_connections = Value false.
Proof.
  intros Hn.
  destruct (run_unfold env host port num_connections)
    as (connected & Hsum & ->).
  destruct (ltb _ _) eqn:Erate; [reflexivity|].
  apply StressTestFacts.below_95_percent in Erate.
  destruct (Z.to_nat num_connections) as [|m] eqn:Em; [lia|].
  rewrite <- Em in *.
  destruct (seq 0 (Z.to_nat num_connections)) as [|i l] eqn:El;
    [apply (f_equal length) in El; rewrite length_seq in El; cbn in El; lia|].
  rewrite fmap_cons in *.
  destruct (print_results_returns (print_clock env) (final env host port i)
              (final env host port <$> l)) as (p & ->).
  cbn [mbind result_bind].
  destruct (verify_requirements_returns (verify_clock env)
              (final env host port i) (final env host port <$> l))
    as (passed & -> & Hpassed).
  destruct passed; [|reflexivity].
  specialize (Hpassed eq_refl). lia.
Qed.

Lemma gate_fails_below_20000_connections_witness :
  QualityGate.run
    {| wake := fun i => Returned (inject_Z (Z.of_nat i));
       ticks := fun _ => [{| snapshot_size := 100; rtt := 10 |}];
       finish := fun _ => 60%Q;
       print_clock := fun _ => 61%Q;
       verify_clock := fun _ => 62%Q |}
    "127.0.0.1" 7777 1000
  = Value false.
Proof.
  apply gate_fails_below_20000_connections. lia.
Defined.

(** X21.  With no connections to open (a count of zero, or a negative one)
    the test does not return: no client is created, the 95% check
    passes on 0 of 0, and the report raises [StatisticsError] on the mean
    of no durations. *)
Theorem empty_test_raises (env : Env) (host : string) (port : Z)
    (num_connections : Z) :
  num_connections <= 0 ->
  QualityGate.run env host port num_connections = Raise StatisticsError.
Proof.
  intros Hn. unfold QualityGate.run.
  replace (Z.to_nat num_connections) with 0%nat by lia.
  cbn [seq fmap list_fmap length].
  rewrite StressTestFacts.connect_in_batches_counts. cbn [fmap list_fmap seq].
  change (StressTest.successes []) with 0.
  assert (Erate : ltb (inject_Z 0) (inject_Z num_connections * (95 # 100))
                  = false)
    by (apply StressTestFacts.below_95_percent; lia).
  rewrite Erate. reflexivity.
Qed.

Lemma empty_test_raises_witness :
  QualityGate.run
    {| wake := fun _ => Returned 0%Q;
       ticks := fun _ => [];
       finish := fun _ => 60%Q;
       print_clock := fun _ => 61%Q;
       verify_clock := fun _ => 62%Q |}
    "127.0.0.1" 7777 0
  = Raise StatisticsError.
Proof.
  apply empty_test_raises. lia.
Defined.

End QualityGateFacts.

(** ** The simulated players of [enhanced_bot_swarm.py] *)

Module EnhancedBotFacts.

Import EnhancedBot Lifecycle.

Lemma frame_refl (b : t) : behaviour_frame b b.
Proof. by repeat split. Qed.

Lemma frame_trans (b1 b2 b3 : t) :
  behaviour_frame b1 b2 -> behaviour_frame b2 b3 -> behaviour_frame b1 b3.
Proof.
  unfold behaviour_frame. intros H1 H2.
  destruct H1 as (?&?&?&?&?&?&?&?), H2 as (?&?&?&?&?&?&?&?).
  repeat split; congruence.
Qed.

Ltac draws :=
  repeat match goal with
         | |- context [Dice.uniform ?a ?b ?d] =>
             destruct (Dice.uniform a b d)
         | |- context [Dice.choice ?a ?b ?d] =>
             destruct (Dice.choice a b d)
         | |- context [Dice.random ?d] =>
             destruct (Dice.random d)
         end.

Lemma clamp_in_range (lo hi v : Q) :
  (lo <= hi)%Q -> (lo <= clamp lo hi v <= hi)%Q.
Proof.
  intros Hle. unfold clamp, max2, Statistics.min2, ltb.
  destruct (Qle_bool hi v) eqn:E1; cbn [negb].
  - destruct (Qle_bool hi lo) eqn:E2; cbn [negb].
    + apply Qle_bool_iff in E2. split; [apply Qle_refl|assumption].
    + split; [assumption|apply Qle_refl].
  - assert (Hv : (v < hi)%Q).
    { apply Qnot_le_lt. intros H. apply Qle_bool_iff in H. congruence. }
    destruct (Qle_bool v lo) eqn:E2; cbn [negb].
    + split; [apply Qle_refl|assumption].
    + assert (Hl : (lo < v)%Q).
      { apply Qnot_le_lt. intros H. apply Qle_bool_iff in H. congruence. }
      split; apply Qlt_le_weak; assumption.
Qed.

Section Behaviour.

Variable sqrt : Q -> Q.
Variable json_length : input_packet -> Z.

Lemma start_wandering_effect (d : Dice.t) (b : t) :
  let b' := (_start_wandering d b).1 in
  behaviour_frame b b' /\ health b' = health b
  /\ state b' = BotState.WANDERING
  /\ position b' = position b
  /\ aimed b'
  /\ exists target,
       target_position b' = Some target /\ Position.y target = 0%Q.
Proof.
  unfold _start_wandering. draws. cbn.
  split; [by repeat split|]. do 3 (split; [reflexivity|]).
  split; [|eexists; split; reflexivity].
  intros _. eexists. split; [reflexivity|]. cbn.
  intros [Hx Hz]. split; cbn; by apply clamp_in_range.
Qed.

Lemma start_social_effect (other_bots : list t) (d : Dice.t) (b : t) :
  let b' := (_start_social sqrt other_bots d b).1 in
  behaviour_frame b b' /\ health b' = health b
  /\ (state b' = BotState.WANDERING \/ state b' = BotState.SOCIAL)
  /\ aimed b'.
Proof.
  unfold _start_social. destruct (filter _ other_bots) as [|o os].
  - destruct (start_wandering_effect d b) as (Hf & Hh & Hs & _ & Ha & _).
    cbn zeta in *. auto.
  - draws. cbn. split; [by repeat split|]. repeat split; auto.
    intros H. discriminate H.
Qed.

Lemma try_enter_combat_effect (other_bots : list t) (d : Dice.t) (b : t) :
  let b' := (_try_enter_combat sqrt other_bots d b).1 in
  behaviour_frame b b' /\ health b' = health b
  /\ (state b' = state b \/ state b' = BotState.IN_COMBAT)
  /\ target_position b' = target_position b.
Proof.
  unfold _try_enter_combat. destruct (Dice.random d) as [r d1].
  destruct (ltb _ r); [cbn; split; [apply frame_refl|auto]|].
  destruct (filter _ other_bots) as [|o os];
    [cbn; split; [apply frame_refl|auto]|].
  draws. cbn. split; [by repeat split|]. auto.
Qed.

Lemma aimed_elsewhere (b : t) : state b <> BotState.WANDERING -> aimed b.
Proof. intros H E. contradiction. Qed.

Lemma transition_effect (dt : Q) (other_bots : list t) (d : Dice.t) (b : t) :
  let b' := (transition sqrt dt other_bots d b).1 in
  behaviour_frame b b' /\ (lively b -> lively b') /\ (aimed b -> aimed b').
Proof.
  unfold transition, lively.
  destruct (state b) eqn:Es.
  - (* IDLE *)
    destruct (Qle_bool _ _);
      [|cbn; rewrite Es; split; [apply frame_refl|auto]].
    destruct (Dice.random d) as [r d1].
    destruct (ltb r (6 # 10)).
    { destruct (start_wandering_effect d1 b) as (Hf & Hh & Hs' & _ & Ha & _).
      cbn zeta in *. split; [exact Hf|]. rewrite Hh, Hs'. tauto. }
    destruct (ltb r (8 # 10)).
    { destruct (start_social_effect other_bots d1 b) as (Hf & Hh & Hs' & Ha).
      cbn zeta in *. split; [exact Hf|]. rewrite Hh. tauto. }
    draws. cbn. rewrite Es. split; [by repeat split|]. split; [auto|].
    intros _. apply aimed_elsewhere. cbn. by rewrite Es.
  - (* WANDERING *)
    destruct (target_position b) as [target|] eqn:Et;
      [|cbn; rewrite Es; split; [apply frame_refl|auto]].
    destruct (ltb _ 1).
    + draws. cbn. split; [by repeat split|]. split; [tauto|].
      intros _. by apply aimed_elsewhere.
    + cbn. rewrite Es. split; [by repeat split|]. split; [auto|].
      intros Ha _. destruct (Ha Es) as (t0 & Ht0 & Hin).
      exists t0. cbn. by rewrite <- Ht0.
  - (* MOVING_TO_TARGET *)
    cbn. rewrite Es. split; [apply frame_refl|auto].
  - (* IN_COMBAT *)
    destruct (Qle_bool _ _ || _);
      [|cbn; rewrite Es; split; [apply frame_refl|auto]].
    destruct (Z.leb_spec (health b) 0) as [Hdead|Halive].
    + cbn. split; [by repeat split|]. split; [intros [Hh _]; lia|].
      intros _. by apply aimed_elsewhere.
    + draws. cbn. split; [by repeat split|]. split; [tauto|].
      intros _. by apply aimed_elsewhere.
  - (* DEAD *)
    destruct (Qle_bool _ _); cbn; (split; [by repeat split|]);
      (split; [intros [_ H]; rewrite ?Es in H;
               destruct H as [H|[H|[H|H]]]; discriminate|]);
      intros _; apply aimed_elsewhere; cbn; by rewrite ?Es.
  - (* RESPAWNING *)
    destruct (Qle_bool _ _); [draws|]; cbn; (split; [by repeat split|]);
      (split; [first [tauto | rewrite Es; auto]|]);
      intros _; apply aimed_elsewhere; cbn; by rewrite ?Es.
  - (* SOCIAL *)
    destruct (Qle_bool _ _); [draws|]; cbn; (split; [by repeat split|]);
      (split; [first [tauto | rewrite Es; auto]|]);
      intros _; apply aimed_elsewhere; cbn; by rewrite ?Es.
Qed.

Lemma update_state_effect (dt : Q) (other_bots : list t) (d : Dice.t)
    (b : t) :
  let b' := (_update_state sqrt dt other_bots d b).1 in
  behaviour_frame b b' /\ (lively b -> lively b') /\ (aimed b -> aimed b').
Proof.
  unfold _update_state.
  pose proof (transition_effect dt other_bots d
                (set_state_timer (state_timer b - dt) b)) as Ht.
  cbn zeta in Ht.
  destruct (transition sqrt dt other_bots d _) as [b1 d1].
  cbn [fst] in Ht. destruct Ht as (Hf & Hl & Ha).
  assert (Hf0 : behaviour_frame b b1)
    by (eapply frame_trans; [|exact Hf]; by repeat split).
  assert (Hl0 : lively b -> lively b1) by (intros H; apply Hl; exact H).
  assert (Ha0 : aimed b -> aimed b1) by (intros H; apply Ha; exact H).
  assert (Hcombat :
            forall d2,
              let b' := (_try_enter_combat sqrt other_bots d2 b1).1 in
              behaviour_frame b b' /\ (lively b -> lively b')
              /\ (aimed b -> aimed b')).
  { intros d2.
    destruct (try_enter_combat_effect other_bots d2 b1)
      as (Hf2 & Hh & Hs & Ht).
    cbn zeta in *. split; [by eapply frame_trans|]. split.
    - intros H. destruct (Hl0 H) as [H1 H2]. unfold lively.
      rewrite Hh. split; [exact H1|]. destruct Hs as [-> | ->]; tauto.
    - intros H E. destruct Hs as [Hs|Hs]; [|congruence].
      rewrite Hs in E. destruct (Ha0 H E) as (t0 & Ht0 & Hin).
      exists t0. rewrite Ht. split; [exact Ht0|].
      destruct Hf2 as (_ & _ & -> & _). exact Hin. }
  assert (Hstay : behaviour_frame b b1 /\ (lively b -> lively b1)
                  /\ (aimed b -> aimed b1)) by auto.
  destruct (state b1) eqn:Es; try exact Hstay;
    destruct (Dice.random d1) as [r d2];
    (destruct (ltb r (1 # 100)); [apply Hcombat|exact Hstay]).
Qed.

Lemma simulate_network_effect (d : Dice.t) (b : t) :
  let b' := (_simulate_network d b).1 in
  let old := BotMetrics.latency_samples (metrics b) in
  let new := BotMetrics.latency_samples (metrics b') in
  state b' = state b /\ health b' = health b /\ id b' = id b
  /\ config b' = config b /\ connected b' = connected b
  /\ world_bounds b' = world_bounds b
  /\ target_position b' = target_position b
  /\ pending_inputs b' = pending_inputs b
  /\ last_input_time b' = last_input_time b
  /\ BotMetrics.messages_sent (metrics b')
     = BotMetrics.messages_sent (metrics b)
  /\ (new = old
      \/ exists latency,
           (1 <= latency)%Q
           /\ new = drop (length (old ++ [latency]) - 100) (old ++ [latency])).
Proof.
  unfold _simulate_network. destruct (Dice.random d) as [r d1].
  destruct (ltb r _); [cbn; repeat split; by left|].
  destruct (Dice.uniform _ _ d1) as [jitter d2].
  set (latency := max2 1 _).
  assert (Hlat : (1 <= latency)%Q).
  { subst latency. unfold max2, ltb.
    destruct (Qle_bool _ 1) eqn:E; cbn [negb]; [apply Qle_refl|].
    apply Qlt_le_weak, Qnot_le_lt. intros H.
    apply Qle_bool_iff in H. congruence. }
  cbn [set_latency_samples metrics set_metrics BotMetrics.latency_samples].
  destruct (Nat.ltb_spec 100 (length (BotMetrics.latency_samples (metrics b)
                                       ++ [latency]))) as [Hlong|Hshort];
    cbn; repeat split; right; exists latency; (split; [exact Hlat|]).
  - reflexivity.
  - replace (length _ - 100)%nat with 0%nat by lia. reflexivity.
Qed.

(** The window of latency samples. *)
Lemma window_kept (old : list Q) (latency : Q) :
  (length old <= 100)%nat -> Forall (fun s => (1 <= s)%Q) old ->
  (1 <= latency)%Q ->
  let new := drop (length (old ++ [latency]) - 100) (old ++ [latency]) in
  (length new <= 100)%nat /\ Forall (fun s => (1 <= s)%Q) new.
Proof.
  intros Hlen Hall Hlat. cbn zeta. split.
  - rewrite length_drop. lia.
  - apply Forall_drop, Forall_app. split; [exact Hall|].
    by apply Forall_singleton.
Qed.

Section Sending.

Variable clock : nat -> Q.

Lemma send_loop_effect (fuel k : nat) (current_time input_interval : Q)
    (b b' : t) :
  send_loop json_length clock fuel k current_time input_interval b = Some b' ->
  state b' = state b /\ health b' = health b /\ id b' = id b
  /\ config b' = config b /\ connected b' = connected b
  /\ world_bounds b' = world_bounds b
  /\ target_position b' = target_position b
  /\ BotMetrics.latency_samples (metrics b')
     = BotMetrics.latency_samples (metrics b)
  /\ Z.of_nat (length (pending_inputs b'))
     - Z.of_nat (length (pending_inputs b))
     = BotMetrics.messages_sent (metrics b')
       - BotMetrics.messages_sent (metrics b).
Proof.
  revert k b. induction fuel as [|fuel IH]; intros k b; cbn [send_loop].
  - destruct (Qle_bool _ _); [discriminate|].
    intros [= <-]. repeat split; lia.
  - destruct (Qle_bool _ _); [|intros [= <-]; repeat split; lia].
    intros H. apply IH in H. cbn in H.
    destruct H as (Hs & Hh & Hi & Hc & Hn & Hw & Ht & Hl & Hp).
    repeat split; try assumption.
    rewrite length_app in Hp. cbn in Hp. lia.
Qed.

Lemma update_keeps (fuel : nat) (current_time dt : Q) (other_bots : list t)
    (d d' : Dice.t) (b b' : t) (r : outcome unit) :
  update sqrt json_length clock fuel current_time dt other_bots d b
  = Some (b', d', r) ->
  id b' = id b /\ (lively b -> lively b') /\ (aimed b -> aimed b')
  /\ (windowed b -> windowed b').
Proof.
  unfold update. destruct (connected b); cbn [negb];
    [|by intros [= <- _ _]].
  pose proof (update_state_effect dt other_bots d b) as Hu.
  destruct (_update_state sqrt dt other_bots d b) as [b1 d1].
  pose proof (simulate_network_effect d1 b1) as Hn.
  destruct (_simulate_network d1 b1) as [b2 d2].
  cbn [fst] in *. destruct Hu as (Hf & Hl & Ha).
  destruct Hn as (Hs & Hh & Hid & _ & _ & Hwb & Htp & _ & _ & _ & Hsamples).
  assert (Hid2 : id b2 = id b)
    by (destruct Hf as (Hid1 & _); congruence).
  assert (Hl2 : lively b -> lively b2).
  { intros H. destruct (Hl H) as [H1 H2]. unfold lively.
    by rewrite Hs, Hh. }
  assert (Ha2 : aimed b -> aimed b2).
  { intros H. unfold aimed. rewrite Hs, Htp, Hwb. by apply Ha. }
  assert (Hw2 : windowed b -> windowed b2).
  { unfold windowed. destruct Hf as (_ & _ & _ & _ & Hm & _).
    rewrite <- Hm. intros [Hlen Hall].
    destruct Hsamples as [-> | (latency & Hlat & ->)]; [by split|].
    by apply window_kept. }
  unfold _send_inputs.
  destruct (truediv 1 _) as [interval|e]; [|by intros [= <- _ _]].
  destruct (send_loop _ _ _ _ _ _ _) as [b3|] eqn:E3; [|discriminate].
  cbn. intros [= <- _ _].
  apply send_loop_effect in E3.
  destruct E3 as (Hs3 & Hh3 & Hid3 & _ & _ & Hwb3 & Htp3 & Hls3 & _).
  unfold lively, aimed, windowed in *.
  rewrite Hs3, Hh3, Hwb3, Htp3, Hls3. split; [congruence|auto].
Qed.

End Sending.

Lemma reachable_keeps (b : t) :
  reachable sqrt json_length b -> lively b /\ aimed b /\ windowed b.
Proof.
  intros (bot_id & cfg & wb & d & Hsteps).
  revert b Hsteps. apply rtc_ind_r.
  - unfold init. draws. cbn. split; [split; [reflexivity|by left]|].
    split; [by apply aimed_elsewhere|]. split; cbn; [lia|constructor].
  - intros b1 b2 _ Hstep IH.
    destruct Hstep as [ct b1|ct b1|clock fuel ct dt others d1 d2 b1 b2 r Hu].
    + exact IH.
    + exact IH.
    + apply update_keeps in Hu. tauto.
Qed.

(** X22.  No bot ever dies: whatever the sequence of calls, the random
    draws and the other bots, a bot keeps the 100 health points it is
    created with and is idle, wandering, in combat or social; the states
    [DEAD], [RESPAWNING] and [MOVING_TO_TARGET] are never entered. *)
Theorem bots_never_die (b : t) :
  reachable sqrt json_length b -> lively b.
Proof. intros H. by apply reachable_keeps in H as (? & _). Qed.

(** X23.  A wandering bot always has a target, and the target lies inside
    the world bounds when these are in order: it is set by
    [_start_wandering] alone, which clamps it. *)
Theorem wandering_bots_aim_inside_bounds (b : t) :
  reachable sqrt json_length b ->
  state b = BotState.WANDERING ->
  ordered (world_bounds b) ->
  exists target,
    target_position b = Some target /\ in_bounds (world_bounds b) target.
Proof.
  intros H Es Ho. apply reachable_keeps in H as (_ & Ha & _).
  destruct (Ha Es) as (target & Ht & Hin). exists target. auto.
Qed.

(** X24.  A bot keeps a window of at most 100 latency samples, none below
    1 ms. *)
Theorem latency_window_bounded (b : t) :
  reachable sqrt json_length b ->
  (length (BotMetrics.latency_samples (metrics b)) <= 100)%nat
  /\ Forall (fun s => (1 <= s)%Q) (BotMetrics.latency_samples (metrics b)).
Proof. intros H. by apply reachable_keeps in H as (_ & _ & ?). Qed.

End Behaviour.

Lemma sample_reachable :
  reachable EnhancedSample.sqrt EnhancedSample.json_length
    EnhancedSample.updated.
Proof.
  exists 0, EnhancedBotConfig.default, EnhancedBotSwarm.default_bounds,
    EnhancedSample.dice.
  eapply rtc_l; [apply (step_connect _ _ 0)|].
  eapply rtc_l; [|apply rtc_refl].
  apply (step_update _ _ EnhancedSample.clock 10 (1 # 10) (1 # 60)
           [EnhancedSample.connected] EnhancedSample.dice
           EnhancedSample.updated_dice EnhancedSample.connected
           EnhancedSample.updated EnhancedSample.updated_outcome).
  vm_compute. reflexivity.
Defined.

Lemma bots_never_die_witness : lively EnhancedSample.updated.
Proof.
  apply (bots_never_die EnhancedSample.sqrt EnhancedSample.json_length).
  exact sample_reachable.
Defined.

Lemma wandering_bots_aim_inside_bounds_witness :
  exists target,
    target_position EnhancedSample.updated = Some target
    /\ in_bounds (world_bounds EnhancedSample.updated) target.
Proof.
  apply (wandering_bots_aim_inside_bounds EnhancedSample.sqrt
           EnhancedSample.json_length).
  - exact sample_reachable.
  - vm_compute. reflexivity.
  - split; apply Qle_bool_iff; vm_compute; reflexivity.
Defined.

Lemma latency_window_bounded_witness :
  (length (BotMetrics.latency_samples (metrics EnhancedSample.updated))
   <= 100)%nat
  /\ Forall (fun s => (1 <= s)%Q)
            (BotMetrics.latency_samples (metrics EnhancedSample.updated)).
Proof.
  apply (latency_window_bounded EnhancedSample.sqrt
           EnhancedSample.json_length).
  exact sample_reachable.
Defined.

End EnhancedBotFacts.
(** ** The input loop of the simulated players *)

Module InputLoopFacts.

Import EnhancedBot Lifecycle.





Section Sending.

Variable json_length : input_packet -> Z.
Variable clock : nat -> Q.


(** A loop that cannot end: with an interval below zero the last input
    time only moves away from the current time. *)
Lemma send_loop_diverges (fuel : nat) :
  forall (k : nat) (current_time i : Q) (b : t),
    (i < 0)%Q -> (last_input_time b <= current_time)%Q ->
    send_loop json_length clock fuel k current_time i b = None.
Proof.
  induction fuel as [|fuel IH]; intros k ct i b Hi Hlast; cbn [send_loop].
  - assert (E : Qle_bool i (ct - last_input_time b) = true)
      by (apply Qle_bool_iff; lra).
    by rewrite E.
  - assert (E : Qle_bool i (ct - last_input_time b) = true)
      by (apply Qle_bool_iff; lra).
    rewrite E. apply IH; [exact Hi|]. cbn. lra.
Qed.



(** X26.  Input rates that are not positive: with a rate of zero
    [_send_inputs] raises [ZeroDivisionError]; with a rate below zero and
    a last input time that is not in the future it never returns. *)
Theorem input_loop_without_positive_rate (current_time : Q) (b : t)
    (fuel : nat) :
  (EnhancedBotConfig.input_rate_hz (config b) <= 0)%Q ->
  (last_input_time b <= current_time)%Q ->
  _send_inputs json_length clock fuel current_time b
  = if Qeq_bool (EnhancedBotConfig.input_rate_hz (config b)) 0
    then Some (Raised ZeroDivisionError)
    else None.
Proof.
  intros Hrate Hlast. unfold _send_inputs, truediv.
  destruct (Qeq_bool _ 0) eqn:E; [reflexivity|].
  assert (Hneg : (EnhancedBotConfig.input_rate_hz (config b) < 0)%Q).
  { apply Qle_lteq in Hrate as [H|H]; [exact H|].
    apply Qeq_bool_iff in H. congruence. }
  rewrite send_loop_diverges; [reflexivity| |exact Hlast].
  assert (Heq : (1 / EnhancedBotConfig.input_rate_hz (config b)
                 == - (1 / - EnhancedBotConfig.input_rate_hz (config b)))%Q).
  { field. intros E0. rewrite E0 in Hneg. discriminate. }
  assert (H : (0 < 1 / - EnhancedBotConfig.input_rate_hz (config b))%Q)
    by (apply Qlt_shift_div_l; lra).
  revert Heq H.
  generalize (1 / EnhancedBotConfig.input_rate_hz (config b))%Q.
  generalize (1 / - EnhancedBotConfig.input_rate_hz (config b))%Q.
  intros u v Heq H. lra.
Qed.

End Sending.


Lemma input_loop_without_positive_rate_witness :
  _send_inputs EnhancedSample.json_length EnhancedSample.clock 1000 100
    EnhancedSample.backwards = None.
Proof.
  apply (input_loop_without_positive_rate EnhancedSample.json_length
           EnhancedSample.clock 100 EnhancedSample.backwards 1000).
  - apply Qle_bool_iff. vm_compute. reflexivity.
  - apply Qle_bool_iff. vm_compute. reflexivity.
Defined.

End InputLoopFacts.
(** ** The swarm of [enhanced_bot_swarm.py] *)

Module EnhancedBotSwarmFacts.

Import EnhancedBotSwarm Population.

(** *** The distribution of states *)

Lemma distribution_step (key : string) (bot : EnhancedBot.t)
    (dist : gmap string Z) :
  let name := BotState.name (EnhancedBot.state bot) in
  <[name := default 0 (dist !! name) + 1]> dist !! key
  = if decide (name = key) then Some (default 0 (dist !! key) + 1)
    else dist !! key.
Proof.
  cbn zeta. case_decide as E.
  - subst key. by rewrite lookup_insert_eq.
  - by rewrite lookup_insert_ne.
Qed.

Lemma distribution_counts (key : string) (l : list EnhancedBot.t) :
  forall dist : gmap string Z,
    let count :=
      Z.of_nat
        (length (filter (fun b => BotState.name (EnhancedBot.state b) = key)
                        l)) in
    foldl (fun distribution bot =>
             let state_name := BotState.name (EnhancedBot.state bot) in
             <[state_name := default 0 (distribution !! state_name) + 1]>
               distribution) dist l !! key
    = if count =? 0 then dist !! key
      else Some (default 0 (dist !! key) + count).
Proof.
  induction l as [|bot l IH]; intros dist; [done|].
  cbn [foldl]. cbn zeta in *. rewrite IH, distribution_step.
  rewrite filter_cons.
  destruct (decide (BotState.name (EnhancedBot.state bot) = key)) as [E|E];
    [|reflexivity].
  cbn [length default].
  set (n := length (filter _ l)).
  destruct (Z.eqb_spec (Z.of_nat n) 0) as [E0|E0];
    destruct (Z.eqb_spec (Z.of_nat (S n)) 0) as [E1|E1]; try lia;
    unfold id; apply f_equal; lia.
Qed.

(** X27.  The distribution of states has an entry for a name exactly when
    some bot is in that state, and the entry is the number of these
    bots. *)
Theorem state_distribution_counts (key : string) (self : t) :
  _get_state_distribution self !! key
  = if in_state key self =? 0 then None else Some (in_state key self).
Proof.
  unfold _get_state_distribution, in_state.
  rewrite distribution_counts. cbn zeta.
  rewrite lookup_empty. cbn. by destruct (_ =? 0).
Qed.

(** *** The report *)

Lemma sorted_length (data : list Q) :
  length (merge_sort Qle data) = length data.
Proof. apply Permutation_length, merge_sort_Permutation. Qed.

Lemma median_returns (x : Q) (xs : list Q) :
  exists m, median (x :: xs) = Statistics.Value m.
Proof.
  unfold median. rewrite sorted_length.
  set (n := Z.of_nat (length (x :: xs))).
  assert (Hn : 1 <= n) by (subst n; cbn [length]; lia).
  destruct (Z.eqb_spec n 0); [lia|].
  assert (Hget : forall j, 0 <= j < n ->
            exists v, Enhanced.getitem (merge_sort Qle (x :: xs)) j
                      = Returned v).
  { intros j Hj.
    destruct (EnhancedFacts.getitem_in_range (merge_sort Qle (x :: xs)) j)
      as (v & _ & Hv); [by rewrite sorted_length|]. by exists v. }
  destruct (Z.eqb_spec (n mod 2) 1) as [Hodd|Heven].
  - destruct (Hget (n / 2)) as (v & ->);
      [split; [apply Z.div_pos|apply Z.div_lt_upper_bound]; lia|].
    by eexists.
  - assert (Hmod : n mod 2 = 0)
      by (pose proof (Z.mod_pos_bound n 2); lia).
    assert (Hhalf : 1 <= n / 2 < n).
    { pose proof (Z.div_mod n 2). split; [|apply Z.div_lt_upper_bound]; lia. }
    destruct (Hget (n / 2 - 1)) as (lo & ->); [lia|].
    destruct (Hget (n / 2)) as (hi & ->); [lia|].
    by eexists.
Qed.

Lemma percentile_returns (x : Q) (xs : list Q) (p : Z) :
  0 <= p ->
  exists v, Enhanced._percentile Qle 0%Q (x :: xs) p = Returned v.
Proof.
  intros Hp. unfold Enhanced._percentile, Enhanced.sorted.
  rewrite sorted_length.
  set (n := Z.of_nat (length (x :: xs))).
  assert (Hn : 1 <= n) by (subst n; cbn [length]; lia).
  rewrite EnhancedFacts.truncated_scaled_index by lia.
  destruct (EnhancedFacts.getitem_in_range (merge_sort Qle (x :: xs))
              (Z.min (n * p / 100) (n - 1))) as (v & _ & Hv).
  - rewrite sorted_length. fold n.
    assert (0 <= n * p / 100) by (apply Z.div_pos; nia). lia.
  - by exists v.
Qed.

Lemma max2_one_positive (x : Q) : (0 < max2 1 x)%Q.
Proof.
  unfold max2. destruct (ltb 1 x) eqn:E; [|reflexivity].
  apply QualityGateFacts.ltb_true in E. lra.
Qed.

Lemma shares_return (count : Z) (entries : list (string * Z)) :
  0 < count ->
  exists lines,
    mapM (M := Statistics.result)
         (fun entry : string * Z =>
            share ← Statistics.builtin
                      (truediv (inject_Z entry.2) (inject_Z count));
            Statistics.Value (entry.1, entry.2, (share * 100)%Q))
         entries
    = Statistics.Value lines.
Proof.
  intros Hcount.
  assert (Hpos : (0 < inject_Z count)%Q)
    by (change 0%Q with (inject_Z 0); by rewrite <- Zlt_Qlt).
  induction entries as [|entry entries (lines & IH)]; [by eexists|].
  cbn [mapM]. rewrite (GameBotFacts.truediv_returns _ _ Hpos).
  cbn [Statistics.builtin mbind Statistics.result_bind].
  rewrite IH. by eexists.
Qed.

Lemma get_report_returns (now : report_clock) (self : t) (bot : EnhancedBot.t)
    (rest : list EnhancedBot.t) :
  bots self = bot :: rest ->
  exists r,
    get_report now self = Statistics.Value (FullReport r)
    /\ bot_count r = Z.of_nat (length (bots self))
    /\ state_distribution r = _get_state_distribution self
    /\ report_total_messages_sent r = total_messages_sent (stats self)
    /\ report_total_errors r = errors (stats self).
Proof.
  intros Hbots. unfold get_report. rewrite Hbots.
  assert (Hlat : exists part,
            match (bot :: rest) ≫=
                  (fun b => BotMetrics.latency_samples (EnhancedBot.metrics b))
            with
            | [] => Statistics.Value
                      {| mean_ms := 0; median_ms := 0; p95_ms := 0;
                         p99_ms := 0; max_ms := 0 |}
            | x :: xs =>
                mean ← Statistics.mean
                         ((bot :: rest) ≫=
                          (fun b => BotMetrics.latency_samples
                                      (EnhancedBot.metrics b)));
                med ← median
                        ((bot :: rest) ≫=
                         (fun b => BotMetrics.latency_samples
                                     (EnhancedBot.metrics b)));
                p95 ← Statistics.builtin
                        (Enhanced._percentile Qle 0%Q
                           ((bot :: rest) ≫=
                            (fun b => BotMetrics.latency_samples
                                        (EnhancedBot.metrics b))) 95);
                p99 ← Statistics.builtin
                        (Enhanced._percentile Qle 0%Q
                           ((bot :: rest) ≫=
                            (fun b => BotMetrics.latency_samples
                                        (EnhancedBot.metrics b))) 99);
                Statistics.Value
                  {| mean_ms := mean; median_ms := med; p95_ms := p95;
                     p99_ms := p99; max_ms := Statistics.fmax x xs |}
            end = Statistics.Value part).
  { destruct (_ ≫= _) as [|x xs]; [by eexists|].
    rewrite QualityGateFacts.mean_returns.
    cbn [mbind Statistics.result_bind].
    destruct (median_returns x xs) as (med & ->).
    cbn [mbind Statistics.result_bind].
    destruct (percentile_returns x xs 95 ltac:(lia)) as (p95 & ->).
    destruct (percentile_returns x xs 99 ltac:(lia)) as (p99 & ->).
    cbn [Statistics.builtin mbind Statistics.result_bind]. by eexists. }
  destruct Hlat as (part & ->). cbn [mbind Statistics.result_bind].
  rewrite (GameBotFacts.truediv_returns _ _ (max2_one_positive _)).
  cbn [Statistics.builtin mbind Statistics.result_bind].
  cbn [fmap list_fmap]. rewrite QualityGateFacts.mean_returns.
  cbn [mbind Statistics.result_bind].
  rewrite imap_cons. rewrite QualityGateFacts.mean_returns.
  cbn [mbind Statistics.result_bind].
  eexists. split; [reflexivity|]. cbn. by repeat split.
Qed.

(** X28.  The report of a swarm without bots has only the key ["error"],
    and printing it raises [KeyError]; with any bot in the swarm both the
    report and its printing return: no mean or median is taken of an
    empty sequence, the percentile indices are in range and no division
    is by zero. *)
Theorem report_raises_iff_no_bots (now : report_clock) (self : t) :
  match bots self with
  | [] =>
      get_report now self
      = Statistics.Value (ErrorReport "No bots were created")
      /\ print_report now self = Statistics.Raise (Statistics.Builtin KeyError)
  | _ :: _ =>
      (exists r,
         get_report now self = Statistics.Value (FullReport r)
         /\ bot_count r = Z.of_nat (length (bots self))
         /\ state_distribution r = _get_state_distribution self)
      /\ exists lines, print_report now self = Statistics.Value lines
  end.
Proof.
  destruct (bots self) as [|bot rest] eqn:Hbots.
  - unfold print_report, get_report. rewrite Hbots. by split.
  - destruct (get_report_returns now self bot rest Hbots)
      as (r & Hr & Hcount & Hdist & _).
    rewrite Hbots in Hcount.
    split; [by exists r|].
    unfold print_report. rewrite Hr. cbn [mbind Statistics.result_bind].
    apply shares_return. rewrite Hcount. cbn [length]. lia.
Qed.

(** *** Creating the bots *)

Lemma store_at (bot : EnhancedBot.t) (i : nat) :
  forall (l : list EnhancedBot.t) (k len : nat),
    EnhancedBot.id <$> l = Z.of_nat <$> seq k len ->
    EnhancedBot.id bot = Z.of_nat i ->
    (k <= i <= k + len)%nat ->
    store bot l
    = if (i <? k + len)%nat then <[(i - k)%nat := bot]> l else l ++ [bot].
Proof.
  induction l as [|b rest IH]; intros k len Hids Hid Hi.
  - destruct len; [|discriminate].
    destruct (Nat.ltb_spec i (k + 0)); [lia|reflexivity].
  - destruct len as [|len]; [discriminate|].
    cbn [seq fmap list_fmap] in Hids. injection Hids as Hb Hrest.
    cbn [store]. rewrite Hb, Hid.
    destruct (decide (Z.of_nat k = Z.of_nat i)) as [E|E].
    + assert (i = k) as -> by lia.
      destruct (Nat.ltb_spec k (k + S len)); [|lia].
      by rewrite Nat.sub_diag.
    + rewrite (IH (S k) len Hrest Hid) by lia.
      replace (k + S len)%nat with (S k + len)%nat by lia.
      destruct (Nat.ltb_spec i (S k + len)); [|reflexivity].
      replace (i - k)%nat with (S (i - S k)) by lia. reflexivity.
Qed.

Lemma ids_length (self : t) (m : nat) :
  ids self = Z.of_nat <$> seq 0 m -> length (bots self) = m.
Proof.
  unfold ids. intros H. apply (f_equal length) in H.
  by rewrite !length_fmap, length_seq in H.
Qed.

Lemma create_loop_effect (clock : nat -> Q) (n : nat) :
  forall (i : nat) (d : Dice.t) (self : t) (m : nat),
    ids self = Z.of_nat <$> seq 0 m ->
    (i <= m)%nat ->
    let self' := (create_loop clock n i d self).1 in
    ids self' = Z.of_nat <$> seq 0 (m `max` (i + n))
    /\ total_connections (stats self')
       = total_connections (stats self) + Z.of_nat n
    /\ errors (stats self') = errors (stats self)
    /\ total_messages_sent (stats self') = total_messages_sent (stats self)
    /\ config self' = config self /\ world_bounds self' = world_bounds self
    /\ running self' = running self /\ start_time self' = start_time self
    /\ (forall j, (i <= j < i + n)%nat ->
          exists d0,
            bots self' !! j
            = Some (EnhancedBot.connect (clock j)
                      (EnhancedBot.init (Z.of_nat j) (config self)
                         (world_bounds self) d0).1))
    /\ (forall j, (j < i \/ i + n <= j)%nat ->
          bots self' !! j = bots self !! j).
Proof.
  induction n as [|n IH]; intros i d self m Hids Hi; cbn [create_loop].
  - cbn [fst]. rewrite Nat.add_0_r, Nat.max_l by lia.
    repeat split; try done; [lia|]. intros j Hj. lia.
  - destruct (EnhancedBot.init (Z.of_nat i) (config self)
                (world_bounds self) d) as [bot d1] eqn:Einit.
    set (new := EnhancedBot.connect (clock i) bot).
    assert (Hnew : EnhancedBot.id new = Z.of_nat i).
    { subst new. unfold EnhancedBot.init in Einit.
      repeat match type of Einit with
             | context [Dice.uniform ?a ?b ?d] => destruct (Dice.uniform a b d)
             end.
      injection Einit as <- _. reflexivity. }
    pose proof (ids_length self m Hids) as Hlen.
    pose proof (store_at new i (bots self) 0 m Hids Hnew ltac:(lia)) as Hstore.
    rewrite Nat.add_0_l, Nat.sub_0_r in Hstore.
    set (self1 := set_stats _ _).
    assert (Hbots1 : bots self1 = store new (bots self)) by reflexivity.
    assert (Hids1 : ids self1 = Z.of_nat <$> seq 0 (m `max` S i)).
    { unfold ids. rewrite Hbots1, Hstore.
      destruct (Nat.ltb_spec i m) as [Hlt|Hge].
      - rewrite Nat.max_l by lia. rewrite list_fmap_insert, Hnew.
        fold (ids self). rewrite Hids. apply list_insert_id.
        by rewrite list_lookup_fmap, lookup_seq_lt by lia.
      - assert (i = m) as -> by lia. rewrite Nat.max_r by lia.
        rewrite fmap_app. fold (ids self). rewrite Hids.
        rewrite seq_S, fmap_app. f_equal.
        change (EnhancedBot.id <$> [new]) with [EnhancedBot.id new].
        by rewrite Hnew. }
    destruct (IH (S i) d1 self1 (m `max` S i)%nat Hids1 ltac:(lia))
      as (Hi1 & Ht1 & He1 & Hm1 & Hc1 & Hw1 & Hr1 & Hs1 & Hnew1 & Hold1).
    cbn zeta in *.
    split; [rewrite Hi1; f_equal; f_equal; lia|].
    split; [rewrite Ht1; subst self1; cbn; lia|].
    do 6 (split; [by first [rewrite He1 | rewrite Hm1 | rewrite Hc1
                           | rewrite Hw1 | rewrite Hr1 | rewrite Hs1]|]).
    split.
    + intros j Hj. destruct (decide (j = i)) as [->|Hne].
      * rewrite Hold1 by lia. rewrite Hbots1, Hstore. exists d.
        rewrite Einit. cbn [fst]. fold new.
        destruct (Nat.ltb_spec i m).
        -- apply list_lookup_insert_eq. lia.
        -- assert (i = m) as -> by lia.
           rewrite lookup_app_r by lia. by rewrite Hlen, Nat.sub_diag.
      * destruct (Hnew1 j ltac:(lia)) as (d0 & Hd0). exists d0. exact Hd0.
    + intros j Hj. rewrite Hold1 by lia. rewrite Hbots1, Hstore.
      destruct (Nat.ltb_spec i m).
      * apply list_lookup_insert_ne. lia.
      * destruct (Nat.lt_ge_cases j m) as [Hjm|Hjm];
          [apply lookup_app_l; lia|].
        rewrite !lookup_ge_None_2; [reflexivity|lia|].
        rewrite length_app. cbn [length]. lia.
Qed.

(** X29.  [create_bots] numbers the bots from 0 on every call: on a swarm
    holding bots 0 to [m - 1] it puts new connected bots in the places 0
    to [count - 1] and leaves [max m count] bots in the swarm, its
    peak, while the total of connections grows by [count].  It raises
    [ZeroDivisionError], and creates nothing, exactly for a count of 0
    with a ramp-up time above 0. *)
Theorem create_bots_restarts_ids (clock : nat -> Q) (count : Z)
    (ramp_up_time : Q) (d : Dice.t) (self : t) (m : nat) :
  ids self = Z.of_nat <$> seq 0 m ->
  match create_bots clock count ramp_up_time d self with
  | Raised e =>
      e = ZeroDivisionError /\ count = 0 /\ (0 < ramp_up_time)%Q
  | Returned (self', _) =>
      let n := Z.to_nat count in
      ~ (count = 0 /\ (0 < ramp_up_time)%Q)
      /\ ids self' = Z.of_nat <$> seq 0 (m `max` n)
      /\ total_connections (stats self')
         = total_connections (stats self) + Z.of_nat n
      /\ peak_connections (stats self') = Z.of_nat (m `max` n)
      /\ (forall j, (j < n)%nat ->
            exists d0,
              bots self' !! j
              = Some (EnhancedBot.connect (clock j)
                        (EnhancedBot.init (Z.of_nat j) (config self)
                           (world_bounds self) d0).1))
      /\ (forall j, (n <= j)%nat -> bots self' !! j = bots self !! j)
  end.
Proof.
  intros Hids. unfold create_bots.
  assert (Hdelay :
            (exists q, (if ltb 0 ramp_up_time
                        then truediv ramp_up_time (inject_Z count)
                        else Returned 0%Q) = Returned q
                       /\ ~ (count = 0 /\ (0 < ramp_up_time)%Q))
            \/ ((if ltb 0 ramp_up_time
                 then truediv ramp_up_time (inject_Z count)
                 else Returned 0%Q) = Raised ZeroDivisionError
                /\ count = 0 /\ (0 < ramp_up_time)%Q)).
  { destruct (ltb 0 ramp_up_time) eqn:Er.
    - apply QualityGateFacts.ltb_true in Er. unfold truediv.
      destruct (Qeq_bool (inject_Z count) 0) eqn:Ec.
      + right. apply Qeq_bool_iff in Ec.
        unfold Qeq in Ec. cbn in Ec.
        split; [reflexivity|]. split; [lia|exact Er].
      + left. eexists. split; [reflexivity|]. intros [-> _]. discriminate.
    - left. eexists. split; [reflexivity|]. intros [_ H].
      unfold ltb in Er. apply negb_false_iff, Qle_bool_iff in Er. lra. }
  destruct Hdelay as [(q & -> & Hno)|(-> & Hc & Hr)]; [|by cbn].
  cbn [mbind outcome_bind].
  pose proof (create_loop_effect clock (Z.to_nat count) 0 d self m Hids
                ltac:(lia)) as Hloop.
  destruct (create_loop clock (Z.to_nat count) 0 d self) as [self1 d1].
  cbn [fst] in Hloop. cbn zeta in Hloop.
  destruct Hloop as (Hi1 & Ht1 & _ & _ & _ & _ & _ & _ & Hnew1 & Hold1).
  rewrite Nat.add_0_l in *.
  cbn zeta. split; [exact Hno|]. split; [exact Hi1|].
  split; [exact Ht1|]. split.
  - cbn. f_equal. by apply ids_length.
  - split.
    + intros j Hj. apply Hnew1. lia.
    + intros j Hj. apply Hold1. lia.
Qed.

(** *** The run *)

Lemma kept_refl (self : t) : kept self self.
Proof. by repeat split. Qed.

Lemma kept_trans (s1 s2 s3 : t) : kept s1 s2 -> kept s2 s3 -> kept s1 s3.
Proof.
  unfold kept. intros (H1 & H2 & H3) (H4 & H5 & H6).
  split; [congruence|]. split; auto.
Qed.

Section Run.

Variable sqrt : Q -> Q.
Variable json_length : EnhancedBot.input_packet -> Z.
Variable clock : nat -> nat -> nat -> Q.

Lemma update_at_keeps (fuel tick : nat) (current_time dt : Q) (i : nat)
    (self self' : t) (d d' : Dice.t) :
  update_at sqrt json_length clock fuel tick current_time dt
    (Some (self, d)) i = Some (self', d') ->
  kept self self'.
Proof.
  unfold update_at.
  destruct (bots self !! i) as [bot|] eqn:Ebot;
    [|intros [= <- _]; apply kept_refl].
  destruct (EnhancedBot.update _ _ _ _ _ _ _ _ _)
    as [[[bot' d2] r]|] eqn:Eu; [|discriminate].
  apply EnhancedBotFacts.update_keeps in Eu.
  destruct Eu as (Hid & Hl & _ & Hw).
  assert (Hkept : kept self (set_bots (<[i := bot']> (bots self)) self)).
  { unfold kept, ids. cbn [bots set_bots]. split.
    - rewrite list_fmap_insert, Hid. apply list_insert_id.
      by rewrite list_lookup_fmap, Ebot.
    - split; intros Hall; apply Forall_insert; try exact Hall;
        [apply Hl|apply Hw];
        eapply (proj1 (Forall_lookup _ _) Hall); exact Ebot. }
  destruct r; intros [= <- _]; exact Hkept.
Qed.

Lemma sweep_stops (fuel tick : nat) (current_time dt : Q) (l : list nat) :
  foldl (update_at sqrt json_length clock fuel tick current_time dt) None l
  = None.
Proof. by induction l. Qed.

Lemma sweep_keeps (fuel tick : nat) (current_time dt : Q) (l : list nat) :
  forall (self self' : t) (d d' : Dice.t),
    foldl (update_at sqrt json_length clock fuel tick current_time dt)
          (Some (self, d)) l = Some (self', d') ->
    kept self self'.
Proof.
  induction l as [|i l IH]; intros self self' d d'; cbn [foldl].
  - intros [= <- _]. apply kept_refl.
  - destruct (update_at _ _ _ _ _ _ _ (Some (self, d)) i)
      as [[self1 d1]|] eqn:E1; [|by rewrite sweep_stops].
    intros H. apply update_at_keeps in E1. apply IH in H.
    by eapply kept_trans.
Qed.

Lemma update_stats_keeps (self : t) :
  kept self (_update_stats self)
  /\ total_messages_sent (stats (_update_stats self))
     = messages_sent (_update_stats self).
Proof. split; [by repeat split|reflexivity]. Qed.

Lemma run_loop_keeps (fuel : nat) (dt : Q) (times : list Q) :
  forall (tick : nat) (self self' : t) (d d' : Dice.t),
    run_loop sqrt json_length clock fuel tick dt times (self, d)
    = Some (self', d') ->
    kept self self'
    /\ (times <> [] ->
        total_messages_sent (stats self') = messages_sent self').
Proof.
  induction times as [|ct times IH]; intros tick self self' d d';
    cbn [run_loop].
  - intros [= <- _]. split; [apply kept_refl|done].
  - cbn [fst].
    destruct (foldl _ _ _) as [[self1 d1]|] eqn:Esweep; [|discriminate].
    intros H. apply sweep_keeps in Esweep.
    destruct (update_stats_keeps self1) as (Hk & Hsum).
    destruct times as [|ct2 times].
    + cbn [run_loop] in H. injection H as <- _.
      split; [by eapply kept_trans|]. intros _. exact Hsum.
    + apply IH in H. destruct H as (Hk2 & Hsum2).
      split; [eapply kept_trans; [exact Esweep|]; by eapply kept_trans|].
      intros _. by apply Hsum2.
Qed.

Lemma update_at_start_time (fuel tick : nat) (current_time dt : Q) (i : nat)
    (self self' : t) (d d' : Dice.t) :
  update_at sqrt json_length clock fuel tick current_time dt
    (Some (self, d)) i = Some (self', d') ->
  start_time self' = start_time self.
Proof.
  unfold update_at.
  destruct (bots self !! i) as [bot|]; [|by intros [= <- _]].
  destruct (EnhancedBot.update _ _ _ _ _ _ _ _ _)
    as [[[bot' d2] r]|]; [|discriminate].
  destruct r; by intros [= <- _].
Qed.

Lemma sweep_start_time (fuel tick : nat) (current_time dt : Q)
    (l : list nat) :
  forall (self self' : t) (d d' : Dice.t),
    foldl (update_at sqrt json_length clock fuel tick current_time dt)
          (Some (self, d)) l = Some (self', d') ->
    start_time self' = start_time self.
Proof.
  induction l as [|i l IH]; intros self self' d d'; cbn [foldl].
  - by intros [= <- _].
  - destruct (update_at _ _ _ _ _ _ _ (Some (self, d)) i)
      as [[self1 d1]|] eqn:E1; [|by rewrite sweep_stops].
    intros H. apply update_at_start_time in E1. apply IH in H. congruence.
Qed.

Lemma run_loop_start_time (fuel : nat) (dt : Q) (times : list Q) :
  forall (tick : nat) (self self' : t) (d d' : Dice.t),
    run_loop sqrt json_length clock fuel tick dt times (self, d)
    = Some (self', d') ->
    start_time self' = start_time self.
Proof.
  induction times as [|ct times IH]; intros tick self self' d d';
    cbn [run_loop].
  - by intros [= <- _].
  - cbn [fst].
    destruct (foldl _ _ _) as [[self1 d1]|] eqn:Esweep; [|discriminate].
    intros H. apply sweep_start_time in Esweep. apply IH in H.
    rewrite H. cbn. exact Esweep.
Qed.

(** X30.  A run keeps the population: the same bots under the same keys,
    all still lively and with bounded latency windows if they were.  A
    tick rate of 0 raises [ZeroDivisionError] before any update and
    leaves the swarm marked as running; otherwise the swarm is stopped at
    the end and, after at least one tick, its total of messages sent is
    the sum of the counters of its bots. *)
Theorem run_keeps_population (fuel : nat) (start : Q) (times : list Q)
    (tick_rate : Q) (d d' : Dice.t) (self self' : t) (r : outcome unit) :
  run sqrt json_length clock fuel start times tick_rate d self
  = Some (self', d', r) ->
  kept self self'
  /\ start_time self' = start
  /\ match r with
     | Raised e =>
         e = ZeroDivisionError /\ (tick_rate == 0)%Q
         /\ running self' = true /\ bots self' = bots self
     | Returned _ =>
         ~ (tick_rate == 0)%Q /\ running self' = false
         /\ (times <> [] ->
             total_messages_sent (stats self') = messages_sent self')
     end.
Proof.
  unfold run, truediv.
  destruct (Qeq_bool tick_rate 0) eqn:Erate.
  - intros [= <- _ <-]. apply Qeq_bool_iff in Erate.
    split; [by repeat split|]. by repeat split.
  - destruct (run_loop _ _ _ _ _ _ _ _) as [[self1 d1]|] eqn:Eloop;
      [|discriminate].
    intros [= <- _ <-].
    pose proof (run_loop_start_time _ _ _ _ _ _ _ _ Eloop) as Hstart.
    apply run_loop_keeps in Eloop.
    destruct Eloop as (Hk & Hsum).
    split; [exact Hk|].
    split.
    + cbn. by rewrite Hstart.
    + split; [|split; [reflexivity|exact Hsum]].
      intros E. apply Qeq_bool_iff in E. congruence.
Qed.

End Run.

(** A second call for two bots on the sample swarm of three. *)
Lemma create_bots_restarts_ids_witness :
  match create_bots EnhancedSample.clock 2 0 EnhancedSample.dice
          EnhancedSample.swarm with
  | Raised _ => False
  | Returned (self', _) =>
      ids self' = [0; 1; 2]
      /\ total_connections (stats self') = 5
      /\ peak_connections (stats self') = 3
  end.
Proof.
  pose proof (create_bots_restarts_ids EnhancedSample.clock 2 0
                EnhancedSample.dice EnhancedSample.swarm 3 eq_refl) as W.
  destruct (create_bots _ _ _ _ _) as [[self' d']|e].
  - destruct W as (_ & Hids & Htotal & Hpeak & _).
    split; [exact Hids|]. split; [exact Htotal|exact Hpeak].
  - destruct W as (_ & Hcount & _). discriminate Hcount.
Defined.

Lemma run_keeps_population_witness :
  kept EnhancedSample.swarm EnhancedSample.ran
  /\ running EnhancedSample.ran = false
  /\ total_messages_sent (stats EnhancedSample.ran)
     = messages_sent EnhancedSample.ran.
Proof.
  pose proof (run_keeps_population EnhancedSample.sqrt
                EnhancedSample.json_length (fun _ _ => EnhancedSample.clock)
                10 0 [1 # 10] 60 EnhancedSample.dice EnhancedSample.ran_dice
                EnhancedSample.swarm EnhancedSample.ran
                EnhancedSample.ran_outcome) as W.
  assert (E : EnhancedSample.ran_outcome = Returned ())
    by (vm_compute; reflexivity).
  rewrite E in W.
  destruct W as (Hkept & _ & _ & Hstop & Hsum);
    [vm_compute; reflexivity|].
  split; [exact Hkept|]. split; [exact Hstop|]. by apply Hsum.
Defined.

End EnhancedBotSwarmFacts.
